(** * Recording manager of the Isaac Sim LLM assistant

    A shallow embedding of
    [isaacsim/llm/assistant/recording_manager.py]: the session lifecycle
    ([start_recording], [stop_recording], [get_recording_status],
    [get_recordings]) and the periodic sampler ([_recording_loop],
    [_capture_frame_data] and the three category callbacks).
    With it come the module's process-wide instance
    ([get_recording_manager]) and the handlers of the recording panel in
    [isaacsim/llm/assistant/extension.py] that call the manager.

    Conventions.
    - Python floats that hold times ([time.time()], durations, simulation
      time) are exact rationals [Q], in seconds.
    - Python ints ([capture_frequency], the loop's [frame_count]) are [Z];
      [//] and [%] are [Z.div] and [Z.modulo] (both floor towards minus
      infinity, as Python does) with the [ZeroDivisionError] written out.
    - The dictionaries with a fixed set of keys are records; the empty
      dictionary [{}] that the code uses as a fallback has its own
      constructor.
    - Exceptions are values: a computation returns [Return a] or
      [Raise e] together with the store as it was mutated up to that
      point, because a Python [except] clause does not roll back
      attribute assignments or file writes.
    - The host (clock, timeline, USD context, storage faults) is read
      from a [Host] snapshot; scheduling on the event loop
      ([asyncio.ensure_future]) and [carb] logging are taken to succeed. *)

From Stdlib Require Import List String Ascii Bool ZArith NArith QArith Qround Lia Lqa.
From Stdlib Require Import Sorted Permutation.
Import ListNotations.

Local Open Scope list_scope.
Local Open Scope string_scope.

(** ** Exceptions and outcomes *)

Inductive Exn : Type :=
| ZeroDivisionError
| TypeError
| ValueError
| KeyError (key : string)
| OSError (path : string)
| HostError (api : string).

Inductive Outcome (A : Type) : Type :=
| Return (a : A)
| Raise (e : Exn).

Arguments Return {A} a.
Arguments Raise {A} e.

(** ** Strings and paths *)

Definition sep : ascii := "/"%char.

Definition startswith_sep (s : string) : bool :=
  match s with
  | String c _ => Ascii.eqb c sep
  | EmptyString => false
  end.

Fixpoint endswith_sep (s : string) : bool :=
  match s with
  | EmptyString => false
  | String c EmptyString => Ascii.eqb c sep
  | String _ s' => endswith_sep s'
  end.

Definition is_empty (s : string) : bool :=
  match s with
  | EmptyString => true
  | _ => false
  end.

(** [os.path.join a b] (posixpath, two arguments). *)
Definition os_path_join (a b : string) : string :=
  if startswith_sep b then b
  else if is_empty a || endswith_sep a then a ++ b
  else a ++ String sep b.

Fixpoint has_sep (s : string) : bool :=
  match s with
  | EmptyString => false
  | String c s' => Ascii.eqb c sep || has_sep s'
  end.

(** [strip_prefix p s] is [Some r] when [s = p ++ r]. *)
Fixpoint strip_prefix (p s : string) : option string :=
  match p, s with
  | EmptyString, _ => Some s
  | String a p', String b s' =>
      if Ascii.eqb a b then strip_prefix p' s' else None
  | String _ _, EmptyString => None
  end.

(** The directories [os.makedirs] walks through: every prefix of the
    path that stops before a separator, and the path itself. *)
Fixpoint dir_chain (acc s : string) : list string :=
  match s with
  | EmptyString => if is_empty acc || endswith_sep acc then [] else [acc]
  | String c s' =>
      if Ascii.eqb c sep
      then ((if is_empty acc || endswith_sep acc then [] else [acc])
              ++ dir_chain (acc ++ String c EmptyString) s')%list
      else dir_chain (acc ++ String c EmptyString) s'
  end.

(** ** Recorded data *)

(** One entry of [recording_data["timeline_data"]]. *)
Record TimelineSample : Type := {
  tl_timestamp : Q;
  tl_simulation_time : Q;
  tl_is_playing : bool;
  tl_frame_count : nat
}.

(** One entry of the physics, robot or sensor buffer: the placeholder
    dictionary of the category with its timestamp, or [{}] when the
    callback fell back. *)
Inductive Sample : Type :=
| EmptySample
| PhysicsSample (timestamp : Q)
| RobotSample (timestamp : Q)
| SensorSample (timestamp : Q).

Record Metadata : Type := {
  recording_dir : string;
  isaac_sim_version : string;
  stage_path : string;
  end_time : option string;
  duration : option Q
}.

Record RecordingData : Type := {
  recording_id : string;
  start_time : string;
  timeline_data : list TimelineSample;
  physics_data : list Sample;
  robot_data : list Sample;
  sensor_data : list Sample;
  screenshots : list string;
  metadata : Metadata
}.

(** The dictionary built by [_generate_recording_summary]; its two
    constant entries ([simulation_stability], [performance_metrics]) are
    left out. *)
Record Summary : Type := {
  sum_recording_id : option string;
  sum_duration : Q;
  sum_frame_count : nat;
  sum_physics_events : nat;
  sum_robot_events : nat;
  sum_sensor_events : nat;
  sum_simulation_start : Q;
  sum_simulation_end : Q;
  sum_avg_fps : Q
}.

Inductive SummaryDict : Type :=
| EmptyDict
| SummaryOf (s : Summary).

(** [summary.get("frame_count")] and its siblings. *)
Definition get_frame_count (d : SummaryDict) : option nat :=
  match d with
  | EmptyDict => None
  | SummaryOf s => Some (sum_frame_count s)
  end.

Definition get_physics_events (d : SummaryDict) : option nat :=
  match d with
  | EmptyDict => None
  | SummaryOf s => Some (sum_physics_events s)
  end.

Definition get_robot_events (d : SummaryDict) : option nat :=
  match d with
  | EmptyDict => None
  | SummaryOf s => Some (sum_robot_events s)
  end.

Definition get_sensor_events (d : SummaryDict) : option nat :=
  match d with
  | EmptyDict => None
  | SummaryOf s => Some (sum_sensor_events s)
  end.

(** ** Storage *)

(** A JSON document on disk, as [json.dump] wrote it. *)
Inductive Doc : Type :=
| RecordingDoc (d : RecordingData)
| SummaryDoc (s : SummaryDict).

(** What sits at a path: a directory, a file holding a JSON document, or
    a file whose text is not a JSON document (a truncated write, a
    foreign file). *)
Inductive Node : Type :=
| Dir
| File (doc : Doc)
| Corrupt.

Definition FS : Type := list (string * Node).

Fixpoint fs_lookup (fs : FS) (path : string) : option Node :=
  match fs with
  | [] => None
  | (p, n) :: fs' => if String.eqb p path then Some n else fs_lookup fs' path
  end.

Fixpoint fs_put (fs : FS) (path : string) (n : Node) : FS :=
  match fs with
  | [] => [(path, n)]
  | (p, m) :: fs' =>
      if String.eqb p path then (p, n) :: fs' else (p, m) :: fs_put fs' path n
  end.

Definition os_path_isdir (fs : FS) (path : string) : bool :=
  match fs_lookup fs path with
  | Some Dir => true
  | _ => false
  end.

Definition os_path_exists (fs : FS) (path : string) : bool :=
  match fs_lookup fs path with
  | Some _ => true
  | None => false
  end.

Definition is_file (fs : FS) (path : string) : bool :=
  match fs_lookup fs path with
  | Some (File _) | Some Corrupt => true
  | _ => false
  end.

(** The names directly below [path]. *)
Definition child_name (path : string) (entry : string) : option string :=
  let prefix := if endswith_sep path then path else path ++ String sep "" in
  match strip_prefix prefix entry with
  | Some name => if is_empty name || has_sep name then None else Some name
  | None => None
  end.

Fixpoint children (path : string) (fs : FS) : list string :=
  match fs with
  | [] => []
  | (p, _) :: fs' =>
      match child_name path p with
      | Some name => name :: children path fs'
      | None => children path fs'
      end
  end.

(** ** The manager *)

Record RecordingConfig : Type := {
  capture_frequency : Z;
  capture_screenshots : bool;
  capture_physics_data : bool;
  capture_robot_data : bool;
  capture_sensor_data : bool;
  max_recording_duration : Q
}.

Record RecordingManager : Type := {
  is_recording : bool;
  recording_start_time : option Q;
  recording_data : option RecordingData;   (* [None] is the initial [{}] *)
  recording_path : string;
  current_recording_id : option string;
  recording_config : RecordingConfig
}.

(** What a call can change: the manager's attributes, the storage, and
    the paths opened for writing so far (oldest first). *)
Record Store : Type := {
  self : RecordingManager;
  disk : FS;
  written : list string
}.

(** What a call can observe of its host at the moment it runs. *)
Record Host : Type := {
  time_time : Q;                        (* time.time() *)
  strftime_now : string;                (* datetime.now().strftime(...) *)
  timeline_current_time : Outcome Q;    (* _timeline.get_current_time() *)
  timeline_is_playing : Outcome bool;   (* _timeline.is_playing() *)
  usd_get_stage : Outcome bool;         (* truth value of get_stage() *)
  usd_get_stage_url : Outcome string;   (* str(get_stage_url()) *)
  io_error : string -> bool             (* paths on which storage raises *)
}.

(** ** A state-and-exception monad *)

Definition M (A : Type) : Type := Host -> Store -> Outcome A * Store.

Definition ret {A} (a : A) : M A := fun _ st => (Return a, st).

Definition raise {A} (e : Exn) : M A := fun _ st => (Raise e, st).

Definition bind {A B} (c : M A) (k : A -> M B) : M B :=
  fun h st =>
    match c h st with
    | (Return a, st') => k a h st'
    | (Raise e, st') => (Raise e, st')
    end.

(** [try: body  except Exception as e: handler e]. *)
Definition try_except {A} (body : M A) (handler : Exn -> M A) : M A :=
  fun h st =>
    match body h st with
    | (Return a, st') => (Return a, st')
    | (Raise e, st') => handler e h st'
    end.

Declare Scope py_scope.
Delimit Scope py_scope with py.
Notation "x <- c ;; k" := (bind c (fun x => k))
  (at level 61, c at next level, right associativity) : py_scope.
Notation "c ;; k" := (bind c (fun _ => k))
  (at level 61, right associativity) : py_scope.
Local Open Scope py_scope.

Definition get_self : M RecordingManager := fun _ st => (Return (self st), st).
Definition get_disk : M FS := fun _ st => (Return (disk st), st).

Definition set_self (m : RecordingManager) : M unit :=
  fun _ st => (Return tt, {| self := m; disk := disk st; written := written st |}).

Definition modify_self (f : RecordingManager -> RecordingManager) : M unit :=
  fun _ st => (Return tt, {| self := f (self st); disk := disk st; written := written st |}).

(** ** Host primitives *)

Definition time_time_now : M Q := fun h st => (Return (time_time h), st).

Definition datetime_now_strftime : M string :=
  fun h st => (Return (strftime_now h), st).

Definition timeline_get_current_time : M Q :=
  fun h st => (timeline_current_time h, st).

Definition timeline_get_is_playing : M bool :=
  fun h st => (timeline_is_playing h, st).

Definition usd_context_get_stage : M bool :=
  fun h st => (usd_get_stage h, st).

Definition usd_context_get_stage_url : M string :=
  fun h st => (usd_get_stage_url h, st).

Definition put_dirs (fs : FS) (ds : list string) : FS :=
  fold_left (fun acc d => fs_put acc d Dir) ds fs.

(** [os.makedirs(path, exist_ok=True)]: raises when storage refuses the
    path or when a file sits where a directory is needed. *)
Definition os_makedirs (path : string) : M unit :=
  fun h st =>
    let chain := dir_chain "" path in
    if io_error h path || existsb (is_file (disk st)) chain
    then (Raise (OSError path), st)
    else (Return tt, {| self := self st;
                        disk := put_dirs (disk st) chain;
                        written := written st |}).

(** [with open(path, 'w') as f: json.dump(doc, f, ...)]. *)
Definition open_w_json_dump (path : string) (doc : Doc) : M unit :=
  fun h st =>
    if io_error h path || os_path_isdir (disk st) path
    then (Raise (OSError path), st)
    else (Return tt, {| self := self st;
                        disk := fs_put (disk st) path (File doc);
                        written := (written st ++ [path])%list |}).

(** [with open(path, 'r') as f: json.load(f)]. *)
Definition open_r_json_load (path : string) : M Doc :=
  fun h st =>
    if io_error h path then (Raise (OSError path), st)
    else match fs_lookup (disk st) path with
         | Some (File doc) => (Return doc, st)
         | Some Corrupt => (Raise ValueError, st)   (* json.JSONDecodeError *)
         | _ => (Raise (OSError path), st)
         end.

(** [os.listdir(path)]. *)
Definition os_listdir (path : string) : M (list string) :=
  fun h st =>
    if io_error h path || negb (os_path_isdir (disk st) path)
    then (Raise (OSError path), st)
    else (Return (children path (disk st)), st).

(** ** Attribute updates *)

Definition with_is_recording (b : bool) (m : RecordingManager) : RecordingManager :=
  {| is_recording := b;
     recording_start_time := recording_start_time m;
     recording_data := recording_data m;
     recording_path := recording_path m;
     current_recording_id := current_recording_id m;
     recording_config := recording_config m |}.

Definition with_recording_start_time (t : option Q) (m : RecordingManager)
  : RecordingManager :=
  {| is_recording := is_recording m;
     recording_start_time := t;
     recording_data := recording_data m;
     recording_path := recording_path m;
     current_recording_id := current_recording_id m;
     recording_config := recording_config m |}.

Definition with_recording_data (d : option RecordingData) (m : RecordingManager)
  : RecordingManager :=
  {| is_recording := is_recording m;
     recording_start_time := recording_start_time m;
     recording_data := d;
     recording_path := recording_path m;
     current_recording_id := current_recording_id m;
     recording_config := recording_config m |}.

Definition with_current_recording_id (i : option string) (m : RecordingManager)
  : RecordingManager :=
  {| is_recording := is_recording m;
     recording_start_time := recording_start_time m;
     recording_data := recording_data m;
     recording_path := recording_path m;
     current_recording_id := i;
     recording_config := recording_config m |}.

Definition with_recording_config (c : RecordingConfig) (m : RecordingManager)
  : RecordingManager :=
  {| is_recording := is_recording m;
     recording_start_time := recording_start_time m;
     recording_data := recording_data m;
     recording_path := recording_path m;
     current_recording_id := current_recording_id m;
     recording_config := c |}.

Definition with_metadata (md : Metadata) (d : RecordingData) : RecordingData :=
  {| recording_id := recording_id d;
     start_time := start_time d;
     timeline_data := timeline_data d;
     physics_data := physics_data d;
     robot_data := robot_data d;
     sensor_data := sensor_data d;
     screenshots := screenshots d;
     metadata := md |}.

Definition with_end_time (e : string) (md : Metadata) : Metadata :=
  {| recording_dir := recording_dir md;
     isaac_sim_version := isaac_sim_version md;
     stage_path := stage_path md;
     end_time := Some e;
     duration := duration md |}.

Definition with_duration (d : Q) (md : Metadata) : Metadata :=
  {| recording_dir := recording_dir md;
     isaac_sim_version := isaac_sim_version md;
     stage_path := stage_path md;
     end_time := end_time md;
     duration := Some d |}.

Definition append_timeline (x : TimelineSample) (d : RecordingData) : RecordingData :=
  {| recording_id := recording_id d;
     start_time := start_time d;
     timeline_data := (timeline_data d ++ [x])%list;
     physics_data := physics_data d;
     robot_data := robot_data d;
     sensor_data := sensor_data d;
     screenshots := screenshots d;
     metadata := metadata d |}.

Definition append_physics (x : Sample) (d : RecordingData) : RecordingData :=
  {| recording_id := recording_id d;
     start_time := start_time d;
     timeline_data := timeline_data d;
     physics_data := (physics_data d ++ [x])%list;
     robot_data := robot_data d;
     sensor_data := sensor_data d;
     screenshots := screenshots d;
     metadata := metadata d |}.

Definition append_robot (x : Sample) (d : RecordingData) : RecordingData :=
  {| recording_id := recording_id d;
     start_time := start_time d;
     timeline_data := timeline_data d;
     physics_data := physics_data d;
     robot_data := (robot_data d ++ [x])%list;
     sensor_data := sensor_data d;
     screenshots := screenshots d;
     metadata := metadata d |}.

Definition append_sensor (x : Sample) (d : RecordingData) : RecordingData :=
  {| recording_id := recording_id d;
     start_time := start_time d;
     timeline_data := timeline_data d;
     physics_data := physics_data d;
     robot_data := robot_data d;
     sensor_data := (sensor_data d ++ [x])%list;
     screenshots := screenshots d;
     metadata := metadata d |}.

(** [self.recording_data[key]] for one of the keys that [start_recording]
    installs: a [KeyError] on the initial [{}]. *)
Definition recording_data_item (key : string) : M RecordingData :=
  m <- get_self ;;
  match recording_data m with
  | Some d => ret d
  | None => raise (KeyError key)
  end.

Definition update_recording_data (key : string)
  (f : RecordingData -> RecordingData) : M unit :=
  d <- recording_data_item key ;;
  modify_self (with_recording_data (Some (f d))).

(** ** Construction *)

Definition default_config : RecordingConfig :=
  {| capture_frequency := 30;
     capture_screenshots := true;
     capture_physics_data := true;
     capture_robot_data := true;
     capture_sensor_data := true;
     max_recording_duration := 300 |}.

Definition new_manager : RecordingManager :=
  {| is_recording := false;
     recording_start_time := None;
     recording_data := None;
     recording_path := "/tmp/isaac_sim_recordings";
     current_recording_id := None;
     recording_config := default_config |}.

(** [RecordingManager.__init__]: the attributes, then the storage root. *)
Definition RecordingManager_init : M unit :=
  set_self new_manager ;;
  os_makedirs (recording_path new_manager).

(** ** Results returned to the caller *)

(** The dictionary returned by [start_recording]. *)
Inductive StartResult : Type :=
| Started (id dir : string)   (* success, "Recording started: <id>" *)
| AlreadyRecording            (* failure, "Already recording" *)
| StartFailed (e : Exn).      (* failure, "Failed to start recording: <e>" *)

(** The dictionary returned by [stop_recording]. *)
Inductive StopResult : Type :=
| Stopped (id : option string) (recording_file summary_file : string)
          (summary : SummaryDict)   (* success, "Recording saved: <id>" *)
| NotRecording                      (* failure, "Not recording" *)
| StopFailed (e : Exn).             (* failure, "Failed to stop recording: <e>" *)

Definition start_success (r : StartResult) : bool :=
  match r with
  | Started _ _ => true
  | _ => false
  end.

Definition stop_success (r : StopResult) : bool :=
  match r with
  | Stopped _ _ _ _ => true
  | _ => false
  end.

(** [str(e)], up to the wording of the interpreter. *)
Definition str_exn (e : Exn) : string :=
  match e with
  | ZeroDivisionError => "division by zero"
  | TypeError => "unsupported operand type(s)"
  | ValueError => "Expecting value"
  | KeyError k => k
  | OSError p => p
  | HostError a => a
  end.

Definition start_message (r : StartResult) : string :=
  match r with
  | Started id _ => "Recording started: " ++ id
  | AlreadyRecording => "Already recording"
  | StartFailed e => "Failed to start recording: " ++ str_exn e
  end.

Definition stop_message (r : StopResult) : string :=
  match r with
  | Stopped id _ _ _ =>
      "Recording saved: " ++ match id with Some i => i | None => "None" end
  | NotRecording => "Not recording"
  | StopFailed e => "Failed to stop recording: " ++ str_exn e
  end.

(** ** Session lifecycle *)

(** [recording_name or f"recording_{timestamp}"]: [None] and the empty
    string are both falsy. *)
Definition name_or_timestamp (recording_name : option string)
  (timestamp : string) : string :=
  match recording_name with
  | Some n => if is_empty n then "recording_" ++ timestamp else n
  | None => "recording_" ++ timestamp
  end.

(** The two stage-recorder hooks are [pass] in the source. *)
Definition _start_stage_recorder (dir : string) : M unit := ret tt.
Definition _stop_stage_recorder : M unit := ret tt.

(** [asyncio.ensure_future(self._recording_loop())]: the host's event
    loop accepts the task; what the task then does is [_recording_loop]
    below, run against the hosts of its wake-ups. *)
Definition asyncio_ensure_future_recording_loop : M unit := ret tt.

Definition start_recording (recording_name : option string) : M StartResult :=
  m <- get_self ;;
  if is_recording m then ret AlreadyRecording
  else
    try_except
      (timestamp <- datetime_now_strftime ;;
       let id := name_or_timestamp recording_name timestamp in
       modify_self (with_current_recording_id (Some id)) ;;
       let dir := os_path_join (recording_path m) id in
       os_makedirs dir ;;
       url <- usd_context_get_stage_url ;;
       modify_self (with_recording_data (Some
         {| recording_id := id;
            start_time := timestamp;
            timeline_data := [];
            physics_data := [];
            robot_data := [];
            sensor_data := [];
            screenshots := [];
            metadata := {| recording_dir := dir;
                           isaac_sim_version := "5.0.0";
                           stage_path := url;
                           end_time := None;
                           duration := None |} |})) ;;
       _start_stage_recorder dir ;;
       modify_self (with_is_recording true) ;;
       now <- time_time_now ;;
       modify_self (with_recording_start_time (Some now)) ;;
       asyncio_ensure_future_recording_loop ;;
       ret (Started id dir))
      (fun e => ret (StartFailed e)).

(** [a / b] on floats: [ZeroDivisionError] when [b] is zero.  The
    quotient is kept as the exact rational and stands for the float the
    code computes: the rounding of binary64 division is not modelled, so
    the claims and properties below state nothing about the value of a
    quotient (the [avg_fps] of a summary), only whether the division
    raises. *)
Definition float_div (a b : Q) : M Q :=
  if Qeq_bool b 0 then raise ZeroDivisionError else ret (a / b)%Q.

Definition first_simulation_time (l : list TimelineSample) : Q :=
  match l with
  | [] => 0
  | x :: _ => tl_simulation_time x
  end.

Definition last_simulation_time (l : list TimelineSample) : Q :=
  match rev l with
  | [] => 0
  | x :: _ => tl_simulation_time x
  end.

(** [x.get(key, [])] on [self.recording_data]. *)
Definition buffer_or_empty {A} (f : RecordingData -> list A)
  (d : option RecordingData) : list A :=
  match d with
  | Some r => f r
  | None => []
  end.

Definition _generate_recording_summary : M SummaryDict :=
  try_except
    (m <- get_self ;;
     let timeline := buffer_or_empty timeline_data (recording_data m) in
     d <- recording_data_item "metadata" ;;
     let frames := inject_Z (Z.of_nat (List.length timeline)) in
     avg_fps <- float_div frames
                  (match duration (metadata d) with Some x => x | None => 1 end) ;;
     ret (SummaryOf
       {| sum_recording_id := current_recording_id m;
          sum_duration := match duration (metadata d) with Some x => x | None => 0 end;
          sum_frame_count := List.length timeline;
          sum_physics_events := List.length (buffer_or_empty physics_data (recording_data m));
          sum_robot_events := List.length (buffer_or_empty robot_data (recording_data m));
          sum_sensor_events := List.length (buffer_or_empty sensor_data (recording_data m));
          sum_simulation_start := first_simulation_time timeline;
          sum_simulation_end := last_simulation_time timeline;
          sum_avg_fps := avg_fps |}))
    (fun _ => ret EmptyDict).

(** [time.time() - self.recording_start_time]: a [TypeError] on [None]. *)
Definition elapsed_since_start : M Q :=
  now <- time_time_now ;;
  m <- get_self ;;
  match recording_start_time m with
  | Some t0 => ret (now - t0)%Q
  | None => raise TypeError
  end.

Definition stop_recording : M StopResult :=
  m <- get_self ;;
  if negb (is_recording m) then ret NotRecording
  else
    try_except
      (modify_self (with_is_recording false) ;;
       stamp <- datetime_now_strftime ;;
       update_recording_data "metadata"
         (fun d => with_metadata (with_end_time stamp (metadata d)) d) ;;
       dt <- elapsed_since_start ;;
       update_recording_data "metadata"
         (fun d => with_metadata (with_duration dt (metadata d)) d) ;;
       _stop_stage_recorder ;;
       d <- recording_data_item "metadata" ;;
       let recording_file :=
         os_path_join (recording_dir (metadata d)) "recording_data.json" in
       open_w_json_dump recording_file (RecordingDoc d) ;;
       summary <- _generate_recording_summary ;;
       let summary_file :=
         os_path_join (recording_dir (metadata d)) "recording_summary.json" in
       open_w_json_dump summary_file (SummaryDoc summary) ;;
       m' <- get_self ;;
       let result :=
         Stopped (current_recording_id m') recording_file summary_file summary in
       modify_self (with_current_recording_id None) ;;
       modify_self (with_recording_start_time None) ;;
       ret result)
      (fun e => ret (StopFailed e)).

(** The dictionary returned by [get_recording_status]. *)
Record Status : Type := {
  st_is_recording : bool;
  st_recording_id : option string;
  st_duration : Q;
  st_recording_path : string
}.

Definition get_recording_status : M Status :=
  m <- get_self ;;
  dt <- (if is_recording m then elapsed_since_start else ret 0%Q) ;;
  ret {| st_is_recording := is_recording m;
         st_recording_id := current_recording_id m;
         st_duration := dt;
         st_recording_path := recording_path m |}.

(** ** Periodic sampler *)

Definition _capture_physics_data : M Sample :=
  try_except
    (stage <- usd_context_get_stage ;;
     if negb stage then ret EmptySample
     else now <- time_time_now ;; ret (PhysicsSample now))
    (fun _ => ret EmptySample).

Definition _capture_robot_data : M Sample :=
  try_except
    (stage <- usd_context_get_stage ;;
     if negb stage then ret EmptySample
     else now <- time_time_now ;; ret (RobotSample now))
    (fun _ => ret EmptySample).

Definition _capture_sensor_data : M Sample :=
  try_except
    (now <- time_time_now ;; ret (SensorSample now))
    (fun _ => ret EmptySample).

Definition when (b : bool) (c : M unit) : M unit :=
  if b then c else ret tt.

Definition _capture_frame_data : M unit :=
  try_except
    (current_time <- timeline_get_current_time ;;
     now <- time_time_now ;;
     playing <- timeline_get_is_playing ;;
     d <- recording_data_item "timeline_data" ;;
     update_recording_data "timeline_data"
       (append_timeline {| tl_timestamp := now;
                           tl_simulation_time := current_time;
                           tl_is_playing := playing;
                           tl_frame_count := List.length (timeline_data d) |}) ;;
     m <- get_self ;;
     when (capture_physics_data (recording_config m))
       (x <- _capture_physics_data ;;
        update_recording_data "physics_data" (append_physics x)) ;;
     when (capture_robot_data (recording_config m))
       (x <- _capture_robot_data ;;
        update_recording_data "robot_data" (append_robot x)) ;;
     when (capture_sensor_data (recording_config m))
       (x <- _capture_sensor_data ;;
        update_recording_data "sensor_data" (append_sensor x)))
    (fun _ => ret tt).

(** [a // b] and [a % b] on ints. *)
Definition int_floordiv (a b : Z) : M Z :=
  if (b =? 0)%Z then raise ZeroDivisionError else ret (a / b)%Z.

Definition int_mod (a b : Z) : M Z :=
  if (b =? 0)%Z then raise ZeroDivisionError else ret (a mod b)%Z.

(** [a > b] on floats. *)
Definition float_gt (a b : Q) : bool := negb (Qle_bool a b).

(** How the sampler task leaves its [while] loop. *)
Inductive LoopExit : Type :=
| FlagCleared                          (* [while self.is_recording] is false *)
| MaxDurationReached (r : StopResult)  (* stop_recording() ; break *)
| LoopError (e : Exn).                 (* except Exception: ... break *)

Inductive LoopState : Type :=
| Sleeping (frame_count : Z)   (* suspended in [asyncio.sleep(1/60)] *)
| Finished (why : LoopExit).

(** One pass through the [while] of [_recording_loop], up to the
    [await asyncio.sleep(1/60)] that ends it. *)
Definition loop_iteration (frame_count : Z) : M LoopState :=
  m <- get_self ;;
  if negb (is_recording m) then ret (Finished FlagCleared)
  else
    try_except
      (dt <- elapsed_since_start ;;
       if float_gt dt (max_recording_duration (recording_config m))
       then r <- stop_recording ;; ret (Finished (MaxDurationReached r))
       else
         period <- int_floordiv 60 (capture_frequency (recording_config m)) ;;
         phase <- int_mod frame_count period ;;
         when (phase =? 0)%Z _capture_frame_data ;;
         ret (Sleeping (frame_count + 1)%Z))
      (fun e => ret (Finished (LoopError e))).

(** The sampler task run against the host snapshots of its successive
    wake-ups, with nobody else calling the manager in between.  When the
    snapshots run out the task is still suspended in its sleep. *)
Fixpoint run_loop (ticks : list Host) (frame_count : Z) (st : Store)
  : LoopState * Store :=
  match ticks with
  | [] => (Sleeping frame_count, st)
  | h :: ticks' =>
      match loop_iteration frame_count h st with
      | (Return (Sleeping n), st') => run_loop ticks' n st'
      | (Return (Finished why), st') => (Finished why, st')
      | (Raise e, st') => (Finished (LoopError e), st')
      end
  end.

(** [_recording_loop]: [frame_count = 0], then the loop. *)
Definition _recording_loop (ticks : list Host) (st : Store) : LoopState * Store :=
  run_loop ticks 0%Z st.

(** ** Listing *)

(** [x.get("recording_id", "")] on a loaded document; [None] is a JSON
    [null] stored under the key. *)
Definition sort_key (x : Doc) : option string :=
  match x with
  | RecordingDoc d => Some (recording_id d)
  | SummaryDoc EmptyDict => Some ""
  | SummaryDoc (SummaryOf s) => sum_recording_id s
  end.

Definition key_string (x : Doc) : string :=
  match sort_key x with
  | Some k => k
  | None => ""
  end.

Definition key_is_str (x : Doc) : bool :=
  match sort_key x with
  | Some _ => true
  | None => false
  end.

(** Stable insertion into a list in descending key order: [x] stood
    before every element of [l] in the input, so it stays before those
    whose key is not greater. *)
Fixpoint insert_desc (x : Doc) (l : list Doc) : list Doc :=
  match l with
  | [] => [x]
  | y :: l' =>
      if String.ltb (key_string x) (key_string y)
      then y :: insert_desc x l'
      else x :: l
  end.

Fixpoint sort_desc (l : list Doc) : list Doc :=
  match l with
  | [] => []
  | x :: l' => insert_desc x (sort_desc l')
  end.

(** [sorted(recordings, key=lambda x: x.get("recording_id", ""),
    reverse=True)].  Python's sort is stable, also with [reverse=True],
    so its result is the one of any stable sort; comparing a [None] key
    raises [TypeError], and a list of fewer than two elements is never
    compared. *)
Definition sorted_by_recording_id_reverse (l : list Doc) : M (list Doc) :=
  match l with
  | [] | [_] => ret l
  | _ => if forallb key_is_str l then ret (sort_desc l) else raise TypeError
  end.

(** The body of the [for item in os.listdir(...)] loop. *)
Definition visit_item (root item : string) (recordings : list Doc)
  : M (list Doc) :=
  fs <- get_disk ;;
  let dir := os_path_join root item in
  if os_path_isdir fs dir then
    let summary_file := os_path_join dir "recording_summary.json" in
    if os_path_exists fs summary_file then
      summary <- open_r_json_load summary_file ;;
      ret (recordings ++ [summary])%list
    else ret recordings
  else ret recordings.

Fixpoint visit_items (root : string) (items : list string)
  (recordings : list Doc) : M (list Doc) :=
  match items with
  | [] => ret recordings
  | item :: items' =>
      recordings' <- visit_item root item recordings ;;
      visit_items root items' recordings'
  end.

Definition get_recordings : M (list Doc) :=
  try_except
    (m <- get_self ;;
     items <- os_listdir (recording_path m) ;;
     recordings <- visit_items (recording_path m) items [] ;;
     sorted_by_recording_id_reverse recordings)
    (fun _ => ret []).

(** ** Call sequences and sessions *)

Inductive Call : Type :=
| CallStart (recording_name : option string)
| CallStop.

Inductive Reply : Type :=
| StartReply (r : StartResult)
| StopReply (r : StopResult).

Definition perform (c : Call) : M Reply :=
  match c with
  | CallStart n => r <- start_recording n ;; ret (StartReply r)
  | CallStop => r <- stop_recording ;; ret (StopReply r)
  end.

(** The calls are made one after the other, each against the host as it
    is at that moment. *)
Fixpoint run_calls (cs : list (Call * Host)) (st : Store)
  : list (Outcome Reply) * Store :=
  match cs with
  | [] => ([], st)
  | (c, h) :: cs' =>
      let '(o, st') := perform c h st in
      let '(os, st'') := run_calls cs' st' in
      (o :: os, st'')
  end.

Definition successful_start (o : Outcome Reply) : bool :=
  match o with
  | Return (StartReply r) => start_success r
  | _ => false
  end.

Definition successful_stop (o : Outcome Reply) : bool :=
  match o with
  | Return (StopReply r) => stop_success r
  | _ => false
  end.

(** A stop that got past the "Not recording" check, whether it then
    saved the session or failed while saving it. *)
Definition accepted_stop (o : Outcome Reply) : bool :=
  match o with
  | Return (StopReply NotRecording) => false
  | Return (StopReply _) => true
  | _ => false
  end.

(** Scanning the replies oldest first: a successful start makes the
    session active, a stop counted by [stops] makes it idle, any other
    reply changes nothing. *)
Definition active_after (stops : Outcome Reply -> bool)
  (replies : list (Outcome Reply)) (active : bool) : bool :=
  fold_left (fun a o => if successful_start o then true
                        else if stops o then false else a)
            replies active.

(** The testable property as the specification words it: the most recent
    successful call is a start. *)
Definition spec_is_recording (replies : list (Outcome Reply)) : bool :=
  active_after successful_stop replies false.

(** A whole session: [start_recording], the sampler task over its
    wake-ups, then an explicit [stop_recording]. *)
Definition run_session (recording_name : option string) (h_start : Host)
  (ticks : list Host) (h_stop : Host) (st : Store)
  : Outcome StartResult * LoopState * Outcome StopResult * Store :=
  let '(r_start, st1) := start_recording recording_name h_start st in
  let '(l, st2) := _recording_loop ticks st1 in
  let '(r_stop, st3) := stop_recording h_stop st2 in
  (r_start, l, r_stop, st3).

(** The buffers as they stand in [self.recording_data]. *)
Definition timeline_buffer (st : Store) : list TimelineSample :=
  buffer_or_empty timeline_data (recording_data (self st)).
Definition physics_buffer (st : Store) : list Sample :=
  buffer_or_empty physics_data (recording_data (self st)).
Definition robot_buffer (st : Store) : list Sample :=
  buffer_or_empty robot_data (recording_data (self st)).
Definition sensor_buffer (st : Store) : list Sample :=
  buffer_or_empty sensor_data (recording_data (self st)).

(** ** Concrete hosts and stores *)

Definition no_fault : string -> bool := fun _ => false.

(** A host whose clock reads [t] and where every call succeeds. *)
Definition healthy_host (t : Q) : Host :=
  {| time_time := t;
     strftime_now := "20250101_120000";
     timeline_current_time := Return t;
     timeline_is_playing := Return true;
     usd_get_stage := Return true;
     usd_get_stage_url := Return "/World/stage.usd";
     io_error := no_fault |}.

(** A host whose timeline and stage queries raise. *)
Definition broken_scene_host (t : Q) : Host :=
  {| time_time := t;
     strftime_now := "20250101_120000";
     timeline_current_time := Raise (HostError "get_current_time");
     timeline_is_playing := Raise (HostError "is_playing");
     usd_get_stage := Raise (HostError "get_stage");
     usd_get_stage_url := Return "/World/stage.usd";
     io_error := no_fault |}.

(** A host whose timeline answers but whose stage query raises. *)
Definition stage_down_host (t : Q) : Host :=
  {| time_time := t;
     strftime_now := "20250101_120000";
     timeline_current_time := Return t;
     timeline_is_playing := Return true;
     usd_get_stage := Raise (HostError "get_stage");
     usd_get_stage_url := Return "/World/stage.usd";
     io_error := no_fault |}.

(** A host whose storage refuses every path. *)
Definition read_only_host (t : Q) : Host :=
  {| time_time := t;
     strftime_now := "20250101_120000";
     timeline_current_time := Return t;
     timeline_is_playing := Return true;
     usd_get_stage := Return true;
     usd_get_stage_url := Return "/World/stage.usd";
     io_error := fun _ => true |}.

(** Wake-ups exactly 1/60 s apart: the [k]-th reads [t0 + k/60]. *)
Fixpoint cadence (mk : Q -> Host) (t0 : Q) (k n : nat) : list Host :=
  match n with
  | O => []
  | S n' => mk (t0 + inject_Z (Z.of_nat k) * (1 # 60))%Q :: cadence mk t0 (S k) n'
  end.

Definition empty_store : Store :=
  {| self := new_manager; disk := []; written := [] |}.

(** The store right after [RecordingManager()] on an empty disk. *)
Definition fresh_store : Store :=
  snd (RecordingManager_init (healthy_host 0) empty_store).

Definition with_config (c : RecordingConfig) (st : Store) : Store :=
  {| self := with_recording_config c (self st);
     disk := disk st;
     written := written st |}.

Definition all_disabled_config : RecordingConfig :=
  {| capture_frequency := 30;
     capture_screenshots := false;
     capture_physics_data := false;
     capture_robot_data := false;
     capture_sensor_data := false;
     max_recording_duration := 300 |}.

Definition config_hz (f : Z) (cap : Q) : RecordingConfig :=
  {| capture_frequency := f;
     capture_screenshots := true;
     capture_physics_data := true;
     capture_robot_data := true;
     capture_sensor_data := true;
     max_recording_duration := cap |}.

(** A session of the manager, started at clock 0 under configuration [c]. *)
Definition started_store (c : RecordingConfig) : Store :=
  snd (start_recording (Some "demo") (healthy_host 0) (with_config c fresh_store)).

(** [start("demo")], then a [stop()] that storage refuses. *)
Definition start_then_failed_stop : list (Call * Host) :=
  [(CallStart (Some "demo"), healthy_host 0); (CallStop, read_only_host 1)].

(** Every switch of the configuration off; three wake-ups; stop. *)
Definition all_disabled_run
  : Outcome StartResult * LoopState * Outcome StopResult * Store :=
  run_session (Some "demo") (healthy_host 0) (cadence healthy_host 0 0 3)
    (healthy_host (3 # 60)) (with_config all_disabled_config fresh_store).

(** A session whose clock reads the same at start, at the sampler's first
    wake-up and at stop. *)
Definition zero_duration_run
  : Outcome StartResult * LoopState * Outcome StopResult * Store :=
  run_session (Some "demo") (healthy_host 5) [healthy_host 5] (healthy_host 5)
    fresh_store.

(** A first wake-up during which the timeline and the stage raise,
    followed by two healthy ones. *)
Definition flaky_ticks : list Host :=
  [broken_scene_host 0; healthy_host (1 # 60); healthy_host (2 # 60)].

(** A summary as [stop_recording] writes it, for the listing examples. *)
Definition demo_summary (id : string) : Doc :=
  SummaryDoc (SummaryOf
    {| sum_recording_id := Some id;
       sum_duration := 2;
       sum_frame_count := 60;
       sum_physics_events := 60;
       sum_robot_events := 60;
       sum_sensor_events := 60;
       sum_simulation_start := 0;
       sum_simulation_end := 2;
       sum_avg_fps := 30 |}).

(** A storage root with three session directories: [run_a] with its
    summary, [run_b] with [node_b] where its summary should be, and
    [run_c] without a summary. *)
Definition listing_store (node_b : Node) : Store :=
  {| self := new_manager;
     disk := [("/tmp", Dir);
              ("/tmp/isaac_sim_recordings", Dir);
              ("/tmp/isaac_sim_recordings/run_a", Dir);
              ("/tmp/isaac_sim_recordings/run_a/recording_summary.json",
               File (demo_summary "run_a"));
              ("/tmp/isaac_sim_recordings/run_b", Dir);
              ("/tmp/isaac_sim_recordings/run_b/recording_summary.json", node_b);
              ("/tmp/isaac_sim_recordings/run_c", Dir);
              ("/tmp/isaac_sim_recordings/run_c/recording_data.json",
               File (demo_summary "run_c"))];
     written := [] |}.

(** ** Notions used by the statements *)

(** Everything of the session but its buffers is as before. *)
Definition same_session (st st' : Store) : Prop :=
  is_recording (self st') = is_recording (self st) /\
  recording_start_time (self st') = recording_start_time (self st) /\
  recording_config (self st') = recording_config (self st) /\
  current_recording_id (self st') = current_recording_id (self st) /\
  recording_path (self st') = recording_path (self st) /\
  disk st' = disk st /\
  written st' = written st.

(** The three switchable categories are off and their buffers are empty. *)
Definition quiet (st : Store) : Prop :=
  capture_physics_data (recording_config (self st)) = false /\
  capture_robot_data (recording_config (self st)) = false /\
  capture_sensor_data (recording_config (self st)) = false /\
  physics_buffer st = [] /\ robot_buffer st = [] /\ sensor_buffer st = [].

(** The sampler can evaluate its cadence test. *)
Definition cadence_ok (st : Store) : Prop :=
  (capture_frequency (recording_config (self st)) <> 0)%Z /\
  (60 / capture_frequency (recording_config (self st)) <> 0)%Z.

(** The wake-ups are exactly 1/60 s apart, the [k]-th at [t0 + k/60]. *)
Fixpoint on_cadence (t0 : Q) (k : nat) (ticks : list Host) : Prop :=
  match ticks with
  | [] => True
  | h :: rest =>
      (time_time h == t0 + inject_Z (Z.of_nat k) * (1 # 60))%Q
      /\ on_cadence t0 (S k) rest
  end.

(** Seconds between two capture passes on that cadence: a pass every
    [60 // capture_frequency] wake-ups. *)
Definition sample_interval (c : RecordingConfig) : Q :=
  (inject_Z (60 / capture_frequency c) * (1 # 60))%Q.

(** The window the specification gives for the autonomous stop. *)
Definition within_claimed_window (c : RecordingConfig) (elapsed : Q) : Prop :=
  (max_recording_duration c <= elapsed)%Q /\
  (elapsed < max_recording_duration c + sample_interval c)%Q.

(** The duration that an autonomous stop recorded in its summary. *)
Definition auto_stop_elapsed (l : LoopState) : option Q :=
  match l with
  | Finished (MaxDurationReached (Stopped _ _ _ (SummaryOf s))) =>
      Some (sum_duration s)
  | _ => None
  end.

(** [a] may stand before [b] in a listing by descending identifier. *)
Definition desc (a b : Doc) : Prop :=
  String.leb (key_string b) (key_string a) = true.

(** The summary document of the session directory [item], if the
    directory has one. *)
Definition persisted_summary (fs : FS) (root item : string) : option Doc :=
  if os_path_isdir fs (os_path_join root item) then
    match fs_lookup fs
            (os_path_join (os_path_join root item) "recording_summary.json") with
    | Some (File x) => Some x
    | _ => None
    end
  else None.

Definition collect (fs : FS) (root : string) (items : list string) : list Doc :=
  flat_map (fun item => match persisted_summary fs root item with
                        | Some x => [x]
                        | None => []
                        end) items.

(** ** Interleavings of calls and wake-ups *)

(** What can happen to the manager between two suspensions of the event
    loop: one of its public methods is called, or a sampler task wakes up
    from its sleep and runs one pass of its loop with its own
    [frame_count].  Any number of sampler tasks may be alive: a wake-up
    carries the counter of the task that wakes. *)
Inductive Action : Type :=
| DoStart (recording_name : option string)
| DoStop
| DoWake (frame_count : Z)
| DoStatus
| DoList.

Definition act (a : Action) : M unit :=
  match a with
  | DoStart n => start_recording n ;; ret tt
  | DoStop => stop_recording ;; ret tt
  | DoWake fc => loop_iteration fc ;; ret tt
  | DoStatus => get_recording_status ;; ret tt
  | DoList => get_recordings ;; ret tt
  end.

(** The store after the actions, each against the host of its moment;
    an exception that a call raises goes to its caller and leaves the
    store as the call left it. *)
Fixpoint run_actions (l : list (Action * Host)) (st : Store) : Store :=
  match l with
  | [] => st
  | (a, h) :: l' => run_actions l' (snd (act a h st))
  end.

Definition is_start (a : Action) : bool :=
  match a with
  | DoStart _ => true
  | _ => false
  end.

(** ** The process-wide instance *)

(** The module's global [_recording_manager] ([None] until a call of
    [get_recording_manager] has constructed one) with the storage of the
    process. *)
Record Process : Type := {
  _recording_manager : option RecordingManager;
  process_disk : FS;
  process_written : list string
}.

(** [get_recording_manager]: an exception of the constructor propagates
    before the global is assigned.  (The constructor's calls for the
    timeline interface and the USD context are taken to return.) *)
Definition get_recording_manager (h : Host) (p : Process)
  : Outcome RecordingManager * Process :=
  match _recording_manager p with
  | Some m => (Return m, p)
  | None =>
      match RecordingManager_init h {| self := new_manager;
                                        disk := process_disk p;
                                        written := process_written p |} with
      | (Return _, st) =>
          (Return (self st),
           {| _recording_manager := Some (self st);
              process_disk := disk st;
              process_written := written st |})
      | (Raise e, st) =>
          (Raise e,
           {| _recording_manager := None;
              process_disk := disk st;
              process_written := written st |})
      end
  end.

(** ** The recording panel of the extension *)

(** The handlers of [extension.py] that call the manager, run against
    the widgets they read or set.  The widgets exist (the window has been
    built) and setting their attributes succeeds. *)

(** An entry of the chat stack: a sender with a text, or the query that
    [_analyze_recording] sends as the user, whose text embeds
    [json.dumps(latest_recording)]. *)
Inductive ChatMessage : Type :=
| Text (sender message : string)
| AnalysisQuery (latest_recording : Doc).

Record Panel : Type := {
  recording_status_text : string;        (* _recording_status.text *)
  start_recording_btn_enabled : bool;    (* _start_recording_btn.enabled *)
  stop_recording_btn_enabled : bool;     (* _stop_recording_btn.enabled *)
  recording_name_value : string;         (* _models["recording_name"] *)
  recordings_rows : list Doc;            (* the rows of _recordings_stack *)
  chat : list ChatMessage                (* _chat_stack, oldest first *)
}.

(** The panel as [_build_recording_ui] builds it, before its list of
    recordings is filled. *)
Definition new_panel : Panel :=
  {| recording_status_text := "Not recording";
     start_recording_btn_enabled := true;
     stop_recording_btn_enabled := false;
     recording_name_value := "";
     recordings_rows := [];
     chat := [] |}.

(** The status label and the [enabled] flags of the two buttons. *)
Definition with_status (text : string) (start_enabled stop_enabled : bool)
  (p : Panel) : Panel :=
  {| recording_status_text := text;
     start_recording_btn_enabled := start_enabled;
     stop_recording_btn_enabled := stop_enabled;
     recording_name_value := recording_name_value p;
     recordings_rows := recordings_rows p;
     chat := chat p |}.

Definition with_rows (rows : list Doc) (p : Panel) : Panel :=
  {| recording_status_text := recording_status_text p;
     start_recording_btn_enabled := start_recording_btn_enabled p;
     stop_recording_btn_enabled := stop_recording_btn_enabled p;
     recording_name_value := recording_name_value p;
     recordings_rows := rows;
     chat := chat p |}.

Definition with_name (name : string) (p : Panel) : Panel :=
  {| recording_status_text := recording_status_text p;
     start_recording_btn_enabled := start_recording_btn_enabled p;
     stop_recording_btn_enabled := stop_recording_btn_enabled p;
     recording_name_value := name;
     recordings_rows := recordings_rows p;
     chat := chat p |}.

Definition add_chat (m : ChatMessage) (p : Panel) : Panel :=
  {| recording_status_text := recording_status_text p;
     start_recording_btn_enabled := start_recording_btn_enabled p;
     stop_recording_btn_enabled := stop_recording_btn_enabled p;
     recording_name_value := recording_name_value p;
     recordings_rows := recordings_rows p;
     chat := (chat p ++ [m])%list |}.

Definition _add_chat_message (sender message : string) (p : Panel) : Panel :=
  add_chat (Text sender message) p.

(** A handler runs against the panel and the manager. *)
Definition UI : Type := (Panel * Store)%type.

(** [_refresh_recordings_list]: the stack is cleared, then one row for
    each of the first five recordings of the listing. *)
Definition _refresh_recordings_list (h : Host) (ui : UI) : UI :=
  let '(p, st) := ui in
  match get_recordings h st with
  | (Return recordings, st') => (with_rows (firstn 5 recordings) p, st')
  | (Raise _, st') => (with_rows [] p, st')
  end.

(** [recording_name or None]. *)
Definition name_or_none (recording_name : string) : option string :=
  if is_empty recording_name then None else Some recording_name.

Definition _start_recording (h : Host) (ui : UI) : UI :=
  let '(p, st) := ui in
  match start_recording (name_or_none (recording_name_value p)) h st with
  | (Return (Started id dir), st') =>
      (_add_chat_message "System" ("🔴 " ++ start_message (Started id dir))
         (with_status ("Recording: " ++ id) false true p), st')
  | (Return r, st') =>
      (_add_chat_message "System" ("❌ " ++ start_message r) p, st')
  | (Raise e, st') =>
      (_add_chat_message "System"
         ("❌ Failed to start recording: " ++ str_exn e) p, st')
  end.

Definition _stop_recording (h : Host) (ui : UI) : UI :=
  let '(p, st) := ui in
  match stop_recording h st with
  | (Return (Stopped id f1 f2 summary), st') =>
      let p1 := with_status "Not recording" true false p in
      let p2 := _add_chat_message "System"
                  ("⏹️ " ++ stop_message (Stopped id f1 f2 summary)) p1 in
      let '(p3, st'') := _refresh_recordings_list h (p2, st') in
      (_add_chat_message "System"
         "Recording saved! Click 'Analyze Recording' to get AI insights." p3,
       st'')
  | (Return r, st') =>
      (_add_chat_message "System" ("❌ " ++ stop_message r) p, st')
  | (Raise e, st') =>
      (_add_chat_message "System"
         ("❌ Failed to stop recording: " ++ str_exn e) p, st')
  end.

(** [_analyze_recording]: the first recording of the listing goes to the
    LLM as the latest one. *)
Definition _analyze_recording (h : Host) (ui : UI) : UI :=
  let '(p, st) := ui in
  match get_recordings h st with
  | (Return [], st') =>
      (_add_chat_message "System" "❌ No recordings available to analyze" p, st')
  | (Return (latest_recording :: _), st') =>
      (add_chat (AnalysisQuery latest_recording) p, st')
  | (Raise e, st') =>
      (_add_chat_message "System"
         ("❌ Error analyzing recording: " ++ str_exn e) p, st')
  end.

(** [_record_and_analyze], up to the scheduling of
    [_auto_stop_and_analyze]. *)
Definition _record_and_analyze (h : Host) (ui : UI) : UI :=
  let '(p, st) := ui in
  if is_recording (self st) then
    (_add_chat_message "System"
       "⚠️ Already recording. Stop current recording first." p, st)
  else
    match start_recording (Some "auto_analysis") h st with
    | (Return (Started id dir), st') =>
        (_add_chat_message "System"
           "🔴 Recording started. Will automatically analyze when stopped."
           (with_status ("Recording: " ++ id) false true p), st')
    | (Return r, st') =>
        (_add_chat_message "System" ("❌ " ++ start_message r) p, st')
    | (Raise e, st') =>
        (_add_chat_message "System"
           ("❌ Error in record and analyze: " ++ str_exn e) p, st')
    end.

(** [_auto_stop_and_analyze] from the end of its [asyncio.sleep(30)] to
    its [asyncio.sleep(1)]: [true] when it goes on to
    [_analyze_recording] after that second sleep. *)
Definition _auto_stop_and_analyze (h : Host) (ui : UI) : bool * UI :=
  let '(p, st) := ui in
  if is_recording (self st) then
    match stop_recording h st with
    | (Return (Stopped _ _ _ _), st') =>
        (true,
         _refresh_recordings_list h (with_status "Not recording" true false p, st'))
    | (_, st') => (false, (p, st'))
    end
  else (false, ui).

(** The part of [on_shutdown] that concerns the manager. *)
Definition on_shutdown (h : Host) (ui : UI) : UI :=
  let '(p, st) := ui in
  if is_recording (self st) then (p, snd (stop_recording h st)) else ui.

(** What can happen to the panel: a click, an edit of the name field,
    the end of the 30 s sleep of a scheduled [_auto_stop_and_analyze],
    a wake-up of a sampler task, the shutdown of the extension. *)
Inductive Event : Type :=
| ClickStart
| ClickStop
| ClickRecordAndAnalyze
| ClickAnalyze
| TypeName (name : string)
| AutoStopTimer
| SamplerWake (frame_count : Z)
| Shutdown.

Definition handle (e : Event) (h : Host) (ui : UI) : UI :=
  match e with
  | ClickStart => _start_recording h ui
  | ClickStop => _stop_recording h ui
  | ClickRecordAndAnalyze => _record_and_analyze h ui
  | ClickAnalyze => _analyze_recording h ui
  | TypeName name => (with_name name (fst ui), snd ui)
  | AutoStopTimer => snd (_auto_stop_and_analyze h ui)
  | SamplerWake fc => (fst ui, snd (loop_iteration fc h (snd ui)))
  | Shutdown => on_shutdown h ui
  end.

Fixpoint run_events (l : list (Event * Host)) (ui : UI) : UI :=
  match l with
  | [] => ui
  | (e, h) :: l' => run_events l' (handle e h ui)
  end.

Definition starts_a_session (e : Event) : bool :=
  match e with
  | ClickStart | ClickRecordAndAnalyze => true
  | _ => false
  end.

(** ** Further concrete inputs *)

(** [start("demo")] on the fresh manager, three wake-ups of its sampler
    1/60 s apart, a status query and a listing. *)
Definition demo_trace : list (Action * Host) :=
  [(DoStart (Some "demo"), healthy_host 0);
   (DoWake 0, healthy_host (1 # 60));
   (DoWake 1, healthy_host (2 # 60));
   (DoWake 2, healthy_host (3 # 60));
   (DoStatus, healthy_host (3 # 60));
   (DoList, healthy_host (3 # 60))].

(** The explicit stop that follows [demo_trace], 1/15 s after the start. *)
Definition demo_stop : Outcome StopResult * Store :=
  stop_recording (healthy_host (4 # 60)) (run_actions demo_trace fresh_store).

Definition demo_stop_summary : SummaryDict :=
  match fst demo_stop with
  | Return (Stopped _ _ _ summary) => summary
  | _ => EmptyDict
  end.

(** The same stop against a storage that refuses every path. *)
Definition demo_failed_stop : Outcome StopResult * Store :=
  stop_recording (read_only_host (4 # 60)) (run_actions demo_trace fresh_store).

(** Calls and wake-ups that reach an idle manager. *)
Definition idle_trace : list (Action * Host) :=
  [(DoStop, healthy_host 1);
   (DoWake 7, healthy_host 2);
   (DoStatus, healthy_host 3);
   (DoList, healthy_host 4)].

(** The stop that ends the session of [started_store], one second after
    its start. *)
Definition restart_stop : Outcome StopResult * Store :=
  stop_recording (healthy_host 1) (started_store default_config).

Definition restart_stop_result : StopResult :=
  match fst restart_stop with
  | Return r => r
  | Raise _ => NotRecording
  end.

(** The panel while the session of [started_store] runs. *)
Definition recording_panel : Panel :=
  with_status "Recording: demo" false true new_panel.

(** Clicks, edits and wake-ups of which none starts a session. *)
Definition passive_events : list (Event * Host) :=
  [(ClickStop, healthy_host 3);
   (SamplerWake 4, healthy_host 4);
   (TypeName "next", healthy_host 5);
   (ClickAnalyze, healthy_host 6);
   (AutoStopTimer, healthy_host 7);
   (ClickStop, healthy_host 8)].

(** A start, a stop that storage refuses, a stop, a second start, the
    timer, a wake-up. *)
Definition mixed_events : list (Event * Host) :=
  [(TypeName "one", healthy_host 0);
   (ClickStart, healthy_host 1);
   (SamplerWake 0, healthy_host 2);
   (ClickStop, read_only_host 3);
   (ClickStop, healthy_host 4);
   (ClickRecordAndAnalyze, healthy_host 5);
   (AutoStopTimer, healthy_host 35);
   (SamplerWake 2, healthy_host 36)].

(** A second session of the name "demo", started after [demo_stop], with
    one wake-up of its sampler, and the stop that saves it. *)
Definition second_trace : list (Action * Host) :=
  [(DoStart (Some "demo"), healthy_host 1);
   (DoWake 0, healthy_host (1 + (1 # 60)))].

Definition second_stop : Outcome StopResult * Store :=
  stop_recording (healthy_host 2) (run_actions second_trace (snd demo_stop)).

Definition second_stop_summary : SummaryDict :=
  match fst second_stop with
  | Return (Stopped _ _ _ summary) => summary
  | _ => EmptyDict
  end.

(** A host whose stage URL query raises. *)
Definition stage_url_down_host (t : Q) : Host :=
  {| time_time := t;
     strftime_now := "20250101_120000";
     timeline_current_time := Return t;
     timeline_is_playing := Return true;
     usd_get_stage := Return true;
     usd_get_stage_url := Raise (HostError "get_stage_url");
     io_error := no_fault |}.

(** Wake-ups of the sampler of [started_store], a status query, the stop
    and a wake-up that comes after it: no call starts a session. *)
Definition sampling_trace : list (Action * Host) :=
  [(DoWake 0, healthy_host (1 # 60));
   (DoWake 1, healthy_host (2 # 60));
   (DoWake 2, healthy_host (3 # 60));
   (DoStatus, healthy_host (3 # 60));
   (DoStop, healthy_host (4 # 60));
   (DoWake 3, healthy_host (5 # 60))].

(** ** Further notions used by the statements *)

(** The session dictionary as [start_recording] installs it. *)
Definition fresh_data (id timestamp dir url : string) : RecordingData :=
  {| recording_id := id;
     start_time := timestamp;
     timeline_data := [];
     physics_data := [];
     robot_data := [];
     sensor_data := [];
     screenshots := [];
     metadata := {| recording_dir := dir;
                    isaac_sim_version := "5.0.0";
                    stage_path := url;
                    end_time := None;
                    duration := None |} |}.

(** The session dictionary as [stop_recording] dumps it: the end stamp
    and the duration added to its metadata. *)
Definition final_data (stamp : string) (dt : Q) (d : RecordingData)
  : RecordingData :=
  with_metadata (with_duration dt (with_end_time stamp (metadata d))) d.

(** The summary of a session of duration [dt]: the empty dictionary when
    [dt] is zero. *)
Definition summary_of (id : option string) (dt : Q) (d : RecordingData)
  : SummaryDict :=
  if Qeq_bool dt 0 then EmptyDict
  else SummaryOf
    {| sum_recording_id := id;
       sum_duration := dt;
       sum_frame_count := List.length (timeline_data d);
       sum_physics_events := List.length (physics_data d);
       sum_robot_events := List.length (robot_data d);
       sum_sensor_events := List.length (sensor_data d);
       sum_simulation_start := first_simulation_time (timeline_data d);
       sum_simulation_end := last_simulation_time (timeline_data d);
       sum_avg_fps :=
         (inject_Z (Z.of_nat (List.length (timeline_data d))) / dt)%Q |}.

(** The two files of a session. *)
Definition data_file (d : RecordingData) : string :=
  os_path_join (recording_dir (metadata d)) "recording_data.json".

Definition summary_file (d : RecordingData) : string :=
  os_path_join (recording_dir (metadata d)) "recording_summary.json".

Definition session_file (p : string) : Prop :=
  exists dir, p = os_path_join dir "recording_data.json"
              \/ p = os_path_join dir "recording_summary.json".

(** The storage of [st'] has grown out of the one of [st]: paths were
    written, all of them session files; directories are still directories
    and files still files, with their content unless they were written. *)
Definition storage_grows (st st' : Store) : Prop :=
  exists l,
    written st' = (written st ++ l)%list /\
    (forall p, In p l -> session_file p) /\
    (forall p, os_path_isdir (disk st) p = true ->
               os_path_isdir (disk st') p = true) /\
    (forall p, is_file (disk st) p = true ->
               is_file (disk st') p = true /\
               (~ In p l -> fs_lookup (disk st') p = fs_lookup (disk st) p)).

(** The attributes of an active session hang together, and its
    directory is on disk. *)
Definition session_ok (st : Store) : Prop :=
  is_recording (self st) = true ->
  exists t0 d id,
    recording_start_time (self st) = Some t0 /\
    recording_data (self st) = Some d /\
    current_recording_id (self st) = Some id /\
    recording_id d = id /\
    recording_dir (metadata d) = os_path_join (recording_path (self st)) id /\
    forall p, In p (dir_chain "" (recording_dir (metadata d))) ->
              os_path_isdir (disk st) p = true.

(** Each switchable buffer has one entry per timeline sample when its
    category is on, and none when it is off. *)
Definition lockstep (st : Store) : Prop :=
  List.length (physics_buffer st)
  = (if capture_physics_data (recording_config (self st))
     then List.length (timeline_buffer st) else 0%nat) /\
  List.length (robot_buffer st)
  = (if capture_robot_data (recording_config (self st))
     then List.length (timeline_buffer st) else 0%nat) /\
  List.length (sensor_buffer st)
  = (if capture_sensor_data (recording_config (self st))
     then List.length (timeline_buffer st) else 0%nat).

(** The [frame_count] of a timeline sample is its index in the buffer. *)
Definition frames_numbered (st : Store) : Prop :=
  forall i x, nth_error (timeline_buffer st) i = Some x -> tl_frame_count x = i.

Definition buffers_ok (st : Store) : Prop := lockstep st /\ frames_numbered st.

(** Each buffer of [st'] is the one of [st] with entries appended. *)
Definition buffers_extend (st st' : Store) : Prop :=
  (exists l, timeline_buffer st' = (timeline_buffer st ++ l)%list) /\
  (exists l, physics_buffer st' = (physics_buffer st ++ l)%list) /\
  (exists l, robot_buffer st' = (robot_buffer st ++ l)%list) /\
  (exists l, sensor_buffer st' = (sensor_buffer st ++ l)%list).

(** Both timeline queries of the host return. *)
Definition timeline_answers (h : Host) : Prop :=
  exists t b,
    timeline_current_time h = Return t /\ timeline_is_playing h = Return b.

(** A name of one path component.  ([.] and [..] are left out: storage
    is keyed by the path as written.) *)
Definition plain_name (s : string) : bool :=
  negb (is_empty s) && negb (has_sep s)
  && negb (String.eqb s ".") && negb (String.eqb s "..").

(** The summary file of the session directory [item] cannot be loaded:
    it is not a JSON document, a directory sits in its place, or storage
    refuses it. *)
Definition summary_unreadable (h : Host) (fs : FS) (root item : string) : bool :=
  os_path_isdir fs (os_path_join root item)
  && match fs_lookup fs
             (os_path_join (os_path_join root item) "recording_summary.json") with
     | Some (File _) =>
         io_error h (os_path_join (os_path_join root item) "recording_summary.json")
     | Some _ => true
     | None => false
     end.

(** The listing can be read: the root can be listed and no summary file
    under it is unreadable. *)
Definition listing_readable (h : Host) (st : Store) : Prop :=
  io_error h (recording_path (self st)) = false /\
  os_path_isdir (disk st) (recording_path (self st)) = true /\
  forall item,
    In item (children (recording_path (self st)) (disk st)) ->
    summary_unreadable h (disk st) (recording_path (self st)) item = false.

(** The same as a test: the [try] block of [get_recordings] gets through
    [os.listdir] and the loop. *)
Definition listing_loads (h : Host) (st : Store) : bool :=
  negb (io_error h (recording_path (self st)))
  && os_path_isdir (disk st) (recording_path (self st))
  && forallb
       (fun item =>
          negb (summary_unreadable h (disk st) (recording_path (self st)) item))
       (children (recording_path (self st)) (disk st)).

(** [sorted] can order the summaries: there are fewer than two, so that
    nothing is compared, or every identifier is a string. *)
Definition keys_comparable (l : list Doc) : bool :=
  match l with
  | [] | [_] => true
  | _ => forallb key_is_str l
  end.

(** The summaries persisted under the root, in the order of the directory
    listing. *)
Definition persisted_summaries (st : Store) : list Doc :=
  collect (disk st) (recording_path (self st))
    (children (recording_path (self st)) (disk st)).

(** The manager is idle while the panel shows a running session. *)
Definition stuck (ui : UI) : Prop :=
  is_recording (self (snd ui)) = false /\
  start_recording_btn_enabled (fst ui) = false /\
  stop_recording_btn_enabled (fst ui) = true.

(** The buttons are complementary, and the Stop button is enabled
    whenever a session is active. *)
Definition buttons_cover_the_session (ui : UI) : Prop :=
  start_recording_btn_enabled (fst ui)
  = negb (stop_recording_btn_enabled (fst ui)) /\
  (is_recording (self (snd ui)) = true ->
   stop_recording_btn_enabled (fst ui) = true).

(** * Proofs *)

(** ** Proof automation *)

Ltac unfold_py :=
  unfold start_recording, stop_recording, _generate_recording_summary,
    _capture_frame_data, _capture_physics_data, _capture_robot_data,
    _capture_sensor_data, get_recording_status,
    elapsed_since_start, update_recording_data, recording_data_item,
    open_w_json_dump, open_r_json_load, os_makedirs, os_listdir,
    _start_stage_recorder, _stop_stage_recorder,
    asyncio_ensure_future_recording_loop, float_div, int_floordiv,
    int_mod, when, try_except, bind, ret, raise, get_self, get_disk, set_self,
    modify_self, time_time_now, datetime_now_strftime,
    timeline_get_current_time, timeline_get_is_playing,
    usd_context_get_stage, usd_context_get_stage_url in *.

Ltac py_cbn :=
  cbn -[Qminus Qeq_bool Qdiv Qle_bool os_path_join String.append dir_chain].

Ltac loop_cbn :=
  cbn -[_capture_frame_data stop_recording float_gt Z.div Z.modulo Z.eqb Qminus].

(** Split on the scrutinee of an innermost [match], reusing an equation
    about it when one is already known. *)
Ltac case_step :=
  match goal with
  | |- context [match ?x with _ => _ end] =>
      lazymatch x with
      | context [match _ with _ => _ end] => fail
      | _ => idtac
      end;
      first [ match goal with E : x = _ |- _ => rewrite E end
            | destruct x eqn:? ]
  end.

Ltac py_cases := repeat (case_step; py_cbn).

(** ** Comparisons *)

Lemma float_gt_false (a b : Q) : (a <= b)%Q -> float_gt a b = false.
Proof.
  intro H. unfold float_gt. apply Qle_bool_iff in H. rewrite H. reflexivity.
Qed.

Lemma float_gt_true (a b : Q) : (b < a)%Q -> float_gt a b = true.
Proof.
  intro H. unfold float_gt. destruct (Qle_bool a b) eqn:E; [|reflexivity].
  apply Qle_bool_iff in E. exfalso. lra.
Qed.

Lemma string_compare_not_gt_trans : forall a b c : string,
  String.compare a b <> Gt -> String.compare b c <> Gt ->
  String.compare a c <> Gt.
Proof.
  induction a as [|x a IH]; intros [|y b] [|z c]; cbn; try congruence.
  unfold Ascii.compare.
  destruct (N.compare_spec (N_of_ascii x) (N_of_ascii y)) as [E1|L1|G1];
  destruct (N.compare_spec (N_of_ascii y) (N_of_ascii z)) as [E2|L2|G2];
  destruct (N.compare_spec (N_of_ascii x) (N_of_ascii z)) as [E3|L3|G3];
    try congruence; try lia; intros; eauto.
Qed.

Lemma string_leb_trans (a b c : string) :
  String.leb a b = true -> String.leb b c = true -> String.leb a c = true.
Proof.
  unfold String.leb. intros H1 H2.
  pose proof (string_compare_not_gt_trans a b c) as T.
  destruct (String.compare a b), (String.compare b c), (String.compare a c);
    try reflexivity; try discriminate; exfalso; apply T; congruence.
Qed.

Lemma string_ltb_leb (a b : string) :
  String.ltb a b = true -> String.leb a b = true.
Proof.
  unfold String.ltb, String.leb. destruct (String.compare a b); congruence.
Qed.

Lemma string_not_ltb_leb (a b : string) :
  String.ltb a b = false -> String.leb b a = true.
Proof.
  unfold String.ltb, String.leb. rewrite (String.compare_antisym b a).
  destruct (String.compare a b); cbn; congruence.
Qed.

(** ** The descending stable sort *)

Lemma insert_desc_perm (x : Doc) (l : list Doc) :
  Permutation (x :: l) (insert_desc x l).
Proof.
  induction l as [|y l IH]; cbn.
  - apply Permutation_refl.
  - destruct (String.ltb _ _).
    + eapply Permutation_trans; [apply perm_swap|]. apply perm_skip, IH.
    + apply Permutation_refl.
Qed.

Lemma sort_desc_perm (l : list Doc) : Permutation l (sort_desc l).
Proof.
  induction l as [|x l IH]; cbn.
  - apply Permutation_refl.
  - eapply Permutation_trans; [apply perm_skip, IH | apply insert_desc_perm].
Qed.

Lemma insert_desc_sorted (x : Doc) (l : list Doc) :
  StronglySorted desc l -> StronglySorted desc (insert_desc x l).
Proof.
  induction l as [|y l IH]; intro S; cbn.
  - constructor; [constructor | constructor].
  - inversion S as [|? ? Sl Fy]; subst.
    destruct (String.ltb (key_string x) (key_string y)) eqn:E.
    + constructor; [apply IH, Sl|].
      eapply Permutation_Forall; [apply insert_desc_perm|].
      constructor; [apply string_ltb_leb, E | exact Fy].
    + constructor; [exact S|].
      apply string_not_ltb_leb in E.
      constructor; [exact E|].
      eapply Forall_impl; [|exact Fy].
      intros z Hz. unfold desc in *. eapply string_leb_trans; eauto.
Qed.

Lemma sort_desc_sorted (l : list Doc) : StronglySorted desc (sort_desc l).
Proof.
  induction l as [|x l IH]; cbn; [constructor | apply insert_desc_sorted, IH].
Qed.

Lemma string_ltb_neq (a b : string) : String.ltb a b = true -> a <> b.
Proof.
  unfold String.ltb. intros H ->.
  pose proof (String.compare_antisym b b) as A.
  destruct (String.compare b b); cbn in A; discriminate.
Qed.

(** The sort is stable: documents with one and the same key come out in
    the order in which they went in, as with Python's [sorted]. *)
Lemma insert_desc_stable (k : string) (x : Doc) (l : list Doc) :
  filter (fun d => String.eqb (key_string d) k) (insert_desc x l)
  = filter (fun d => String.eqb (key_string d) k) (x :: l).
Proof.
  induction l as [|y l IH]; cbn [insert_desc].
  - reflexivity.
  - destruct (String.ltb (key_string x) (key_string y)) eqn:E; [|reflexivity].
    apply string_ltb_neq in E.
    cbn [filter] in *. rewrite IH.
    destruct (String.eqb_spec (key_string x) k) as [Hx|Hx];
      destruct (String.eqb_spec (key_string y) k) as [Hy|Hy];
      try reflexivity.
    congruence.
Qed.

Lemma sort_desc_stable (k : string) (l : list Doc) :
  filter (fun d => String.eqb (key_string d) k) (sort_desc l)
  = filter (fun d => String.eqb (key_string d) k) l.
Proof.
  induction l as [|x l IH]; cbn [sort_desc].
  - reflexivity.
  - rewrite insert_desc_stable. cbn [filter]. rewrite IH. reflexivity.
Qed.

Lemma sorted_by_recording_id_reverse_spec (l : list Doc) (h : Host) (st : Store) :
  exists o, sorted_by_recording_id_reverse l h st = (o, st) /\
    forall out, o = Return out -> StronglySorted desc out /\ Permutation l out.
Proof.
  unfold sorted_by_recording_id_reverse, ret, raise.
  destruct l as [|a [|b l]].
  - eexists; split; [reflexivity|]. intros out [= <-].
    split; [constructor | apply Permutation_refl].
  - eexists; split; [reflexivity|]. intros out [= <-].
    split; [constructor; constructor | apply Permutation_refl].
  - destruct (forallb key_is_str (a :: b :: l)).
    + eexists; split; [reflexivity|]. intros out [= <-].
      split; [apply (sort_desc_sorted (a :: b :: l))
             | apply (sort_desc_perm (a :: b :: l))].
    + eexists; split; [reflexivity|]. discriminate.
Qed.

(** ** Listing *)

Lemma visit_item_collects root item acc h st o st' :
  visit_item root item acc h st = (o, st') ->
  st' = st /\
  forall l, o = Return l -> l = (acc ++ collect (disk st) root [item])%list.
Proof.
  unfold visit_item, collect, persisted_summary, open_r_json_load,
    os_path_exists, bind, ret, get_disk.
  cbn -[os_path_join os_path_isdir fs_lookup].
  destruct (os_path_isdir (disk st) (os_path_join root item)).
  - destruct (fs_lookup (disk st) _) as [[|x|]|] eqn:E; cbn -[os_path_join];
      try destruct (io_error h _); cbn -[os_path_join]; rewrite ?E;
      intro H; inversion H; subst;
      (split; [reflexivity|]); intros l El; inversion El; subst;
      rewrite ?app_nil_r; reflexivity.
  - intro H; inversion H; subst. split; [reflexivity|].
    intros l [= <-]. rewrite app_nil_r. reflexivity.
Qed.

Lemma visit_items_collects root items : forall acc h st o st',
  visit_items root items acc h st = (o, st') ->
  st' = st /\
  forall l, o = Return l -> l = (acc ++ collect (disk st) root items)%list.
Proof.
  induction items as [|item items IH]; intros acc h st o st' H;
    cbn [visit_items] in H.
  - unfold ret in H. inversion H; subst. split; [reflexivity|].
    intros l [= <-]. cbn. rewrite app_nil_r. reflexivity.
  - unfold bind in H.
    destruct (visit_item root item acc h st) as [[acc'|e] st1] eqn:V.
    + apply visit_item_collects in V. destruct V as [-> V].
      apply IH in H. destruct H as [-> H]. split; [reflexivity|].
      intros l El. rewrite (H l El), (V acc' eq_refl).
      rewrite <- app_assoc. unfold collect. cbn [flat_map].
      rewrite app_nil_r. reflexivity.
    + apply visit_item_collects in V. destruct V as [-> _].
      inversion H; subst. split; [reflexivity|]. discriminate.
Qed.

Lemma collect_in fs root items x :
  In x (collect fs root items) ->
  exists item, In item items /\ persisted_summary fs root item = Some x.
Proof.
  unfold collect. rewrite in_flat_map. intros (item & Hi & Hx).
  exists item. split; [exact Hi|].
  destruct (persisted_summary fs root item) as [y|]; cbn in Hx.
  - destruct Hx as [->|[]]. reflexivity.
  - contradiction.
Qed.

Lemma in_collect fs root items item x :
  In item items -> persisted_summary fs root item = Some x ->
  In x (collect fs root items).
Proof.
  intros Hi Hp. unfold collect. apply in_flat_map. exists item.
  split; [exact Hi|]. rewrite Hp. left. reflexivity.
Qed.

Lemma persisted_summary_spec fs root item x :
  persisted_summary fs root item = Some x <->
  os_path_isdir fs (os_path_join root item) = true /\
  fs_lookup fs (os_path_join (os_path_join root item) "recording_summary.json")
  = Some (File x).
Proof.
  unfold persisted_summary.
  destruct (os_path_isdir fs (os_path_join root item)).
  - destruct (fs_lookup fs _) as [[|y|]|]; split;
      try (intros [_ H]; discriminate); try discriminate.
    + intros [= ->]. split; reflexivity.
    + intros [_ [= ->]]. reflexivity.
  - split; [discriminate | intros [H _]; discriminate].
Qed.

Lemma forallb_false_exists {A} (f : A -> bool) (l : list A) :
  forallb f l = false -> exists x, In x l /\ f x = false.
Proof.
  induction l as [|a l IH]; cbn [forallb]; [discriminate|].
  destruct (f a) eqn:F; cbn [andb].
  - intro H. destruct (IH H) as (x & Hx & Fx). exists x. split; [right|]; assumption.
  - intros _. exists a. split; [left; reflexivity | exact F].
Qed.

Lemma visit_item_readable root item acc h st :
  summary_unreadable h (disk st) root item = false ->
  visit_item root item acc h st
  = (Return (acc ++ collect (disk st) root [item])%list, st).
Proof.
  unfold summary_unreadable, visit_item, collect, persisted_summary,
    open_r_json_load, os_path_exists, bind, ret, get_disk.
  cbn -[os_path_join os_path_isdir fs_lookup].
  destruct (os_path_isdir (disk st) (os_path_join root item));
    [|intros _; rewrite app_nil_r; reflexivity].
  cbn [andb].
  destruct (fs_lookup (disk st) _) as [[|x|]|] eqn:E; try discriminate.
  - intro H. cbn -[os_path_join]. rewrite H, E. reflexivity.
  - intros _. cbn -[os_path_join]. rewrite app_nil_r. reflexivity.
Qed.

Lemma visit_item_unreadable root item acc h st :
  summary_unreadable h (disk st) root item = true ->
  exists e, visit_item root item acc h st = (Raise e, st).
Proof.
  unfold summary_unreadable, visit_item, open_r_json_load,
    os_path_exists, bind, ret, get_disk.
  cbn -[os_path_join os_path_isdir fs_lookup].
  destruct (os_path_isdir (disk st) (os_path_join root item)); [|discriminate].
  cbn [andb].
  destruct (fs_lookup (disk st) _) as [[|x|]|] eqn:E; try discriminate;
    intro H; cbn -[os_path_join]; rewrite ?H, ?E;
    try destruct (io_error h _); eauto.
Qed.

Lemma visit_items_readable root items : forall acc h st,
  (forall item, In item items ->
     summary_unreadable h (disk st) root item = false) ->
  visit_items root items acc h st
  = (Return (acc ++ collect (disk st) root items)%list, st).
Proof.
  induction items as [|item items IH]; intros acc h st H; cbn [visit_items].
  - unfold ret. cbn. rewrite app_nil_r. reflexivity.
  - unfold bind. rewrite (visit_item_readable root item acc h st)
      by (apply H; left; reflexivity).
    rewrite IH by (intros i Hi; apply H; right; exact Hi).
    rewrite <- app_assoc. unfold collect. cbn [flat_map].
    rewrite app_nil_r. reflexivity.
Qed.

Lemma visit_items_unreadable root items : forall acc h st item,
  In item items ->
  summary_unreadable h (disk st) root item = true ->
  exists e, visit_items root items acc h st = (Raise e, st).
Proof.
  induction items as [|x items IH]; intros acc h st item Hin Hbad;
    [destruct Hin|].
  cbn [visit_items]. unfold bind.
  destruct (visit_item root x acc h st) as [[acc'|e] st1] eqn:V.
  - pose proof (visit_item_collects _ _ _ _ _ _ _ V) as [-> _].
    destruct Hin as [->|Hin].
    + destruct (visit_item_unreadable root item acc h st Hbad) as [e E].
      congruence.
    + eapply IH; eauto.
  - pose proof (visit_item_collects _ _ _ _ _ _ _ V) as [-> _]. eauto.
Qed.

(** What [get_recordings] returns, for every host and store: the sorted
    summaries when the [try] block gets through, the empty list when
    anything in it raises. *)
Lemma get_recordings_exact h st :
  get_recordings h st
  = (Return (if listing_loads h st && keys_comparable (persisted_summaries st)
             then sort_desc (persisted_summaries st) else []), st).
Proof.
  unfold listing_loads, persisted_summaries.
  unfold get_recordings, try_except, bind, get_self, os_listdir, ret.
  set (root := recording_path (self st)).
  destruct (io_error h root); cbn [negb andb orb]; [reflexivity|].
  destruct (os_path_isdir (disk st) root); cbn [negb andb orb]; [|reflexivity].
  destruct (forallb _ (children root (disk st))) eqn:A; cbn [andb].
  - rewrite (visit_items_readable root _ [] h st).
    + cbn [app]. unfold sorted_by_recording_id_reverse, keys_comparable, ret, raise.
      destruct (collect (disk st) root (children root (disk st)))
        as [|a [|b l]]; try reflexivity.
      destruct (forallb key_is_str (a :: b :: l)); reflexivity.
    + intros item Hi. rewrite forallb_forall in A.
      apply negb_true_iff. apply A. exact Hi.
  - apply forallb_false_exists in A. destruct A as (item & Hi & Hb).
    apply negb_false_iff in Hb.
    destruct (visit_items_unreadable root _ [] h st item Hi Hb) as [e E].
    rewrite E. reflexivity.
Qed.

(** ** What a call does to the store *)

Create HintDb recording.

Lemma same_session_refl st : same_session st st.
Proof. unfold same_session; auto 10. Qed.

#[local] Hint Resolve same_session_refl : recording.

Lemma same_session_trans a b c :
  same_session a b -> same_session b c -> same_session a c.
Proof. unfold same_session; intuition congruence. Qed.

(** A capture pass never raises and touches nothing but the buffers. *)
Lemma capture_frame_data_returns h st :
  exists st', _capture_frame_data h st = (Return tt, st') /\ same_session st st'.
Proof.
  unfold_py. py_cbn.
  py_cases; eexists; split; try reflexivity; unfold same_session; cbn; auto 10.
Qed.

Lemma capture_frame_data_quiet h st o st' :
  _capture_frame_data h st = (o, st') -> quiet st -> quiet st'.
Proof.
  unfold quiet, physics_buffer, robot_buffer, sensor_buffer.
  intros H (P & R & S & Q). revert H.
  unfold_py. py_cbn.
  destruct (recording_data (self st)) as [d|] eqn:D;
    py_cases; intro H; inversion H; subst; clear H; cbn in *; rewrite ?D; auto 10.
Qed.

(** [start_recording] always returns, and sets the flag exactly when it
    succeeds. *)
Lemma start_recording_returns name h st :
  exists r st', start_recording name h st = (Return r, st')
    /\ is_recording (self st')
       = (if start_success r then true else is_recording (self st)).
Proof.
  unfold_py. py_cbn.
  destruct (is_recording (self st)) eqn:Hrec; py_cbn.
  - eauto.
  - py_cases; eauto.
Qed.

Lemma start_recording_started name h st id dir st1 :
  start_recording name h st = (Return (Started id dir), st1) ->
  is_recording (self st) = false /\
  id = name_or_timestamp name (strftime_now h) /\
  dir = os_path_join (recording_path (self st)) id /\
  is_recording (self st1) = true /\
  recording_start_time (self st1) = Some (time_time h) /\
  current_recording_id (self st1) = Some id /\
  recording_config (self st1) = recording_config (self st) /\
  timeline_buffer st1 = [] /\ physics_buffer st1 = [] /\
  robot_buffer st1 = [] /\ sensor_buffer st1 = [] /\
  written st1 = written st.
Proof.
  unfold_py. py_cbn.
  destruct (is_recording (self st)); py_cbn; [discriminate|].
  py_cases; try discriminate;
    intro H; inversion H; subst; clear H; cbn; auto 20.
Qed.

Lemma start_recording_failed name h st e st' :
  start_recording name h st = (Return (StartFailed e), st') ->
  is_recording (self st) = false /\
  is_recording (self st') = false /\
  current_recording_id (self st')
    = Some (name_or_timestamp name (strftime_now h)) /\
  recording_path (self st') = recording_path (self st) /\
  written st' = written st.
Proof.
  unfold_py. py_cbn.
  destruct (is_recording (self st)) eqn:Hrec; py_cbn; [discriminate|].
  py_cases; try discriminate;
    intro H; inversion H; subst; clear H; py_cbn; auto.
Qed.

(** [stop_recording] always returns and always leaves the flag cleared;
    it answers "Not recording" exactly when the flag was clear. *)
Lemma stop_recording_returns h st :
  exists r st', stop_recording h st = (Return r, st')
    /\ is_recording (self st') = false
    /\ accepted_stop (Return (StopReply r)) = is_recording (self st).
Proof.
  unfold_py. py_cbn.
  destruct (is_recording (self st)) eqn:Hrec; py_cbn.
  - py_cases; eauto.
  - eauto.
Qed.

(** A stop that saved the session: where it wrote, and what the summary
    holds.  The summary is the empty dictionary exactly when the clock
    reads the same as at the start, because the average frame rate divides
    by the duration. *)
Lemma stop_recording_saved h st i f1 f2 sd st' :
  stop_recording h st = (Return (Stopped i f1 f2 sd), st') ->
  exists d t0,
    recording_data (self st) = Some d /\
    recording_start_time (self st) = Some t0 /\
    i = current_recording_id (self st) /\
    f1 = os_path_join (recording_dir (metadata d)) "recording_data.json" /\
    f2 = os_path_join (recording_dir (metadata d)) "recording_summary.json" /\
    written st' = (written st ++ [f1; f2])%list /\
    timeline_buffer st' = timeline_data d /\
    physics_buffer st' = physics_data d /\
    robot_buffer st' = robot_data d /\
    sensor_buffer st' = sensor_data d /\
    (if Qeq_bool (time_time h - t0) 0 then sd = EmptyDict
     else exists s, sd = SummaryOf s /\
            sum_frame_count s = List.length (timeline_data d) /\
            sum_physics_events s = List.length (physics_data d) /\
            sum_robot_events s = List.length (robot_data d) /\
            sum_sensor_events s = List.length (sensor_data d)).
Proof.
  unfold_py. py_cbn.
  destruct (is_recording (self st)); py_cbn; [|discriminate].
  destruct (recording_data (self st)) as [d|]; py_cbn; [|discriminate].
  destruct (recording_start_time (self st)) as [t0|]; py_cbn; [|discriminate].
  py_cases; try discriminate;
    intro H; inversion H; subst; clear H;
    exists d, t0; unfold timeline_buffer, physics_buffer, robot_buffer, sensor_buffer;
    py_cbn; rewrite <- ?app_assoc; repeat (split; [reflexivity|]);
    match goal with E : Qeq_bool _ _ = _ |- _ => rewrite E end; eauto 10.
Qed.

(** Whatever its outcome, a stop leaves configuration and buffers alone. *)
Lemma stop_recording_keeps h st o st' :
  stop_recording h st = (o, st') ->
  recording_config (self st') = recording_config (self st) /\
  timeline_buffer st' = timeline_buffer st /\
  physics_buffer st' = physics_buffer st /\
  robot_buffer st' = robot_buffer st /\
  sensor_buffer st' = sensor_buffer st.
Proof.
  unfold timeline_buffer, physics_buffer, robot_buffer, sensor_buffer.
  unfold_py. py_cbn.
  destruct (is_recording (self st)); py_cbn.
  - py_cases; intro H; inversion H; subst; clear H; cbn;
      try match goal with E : recording_data (self _) = _ |- _ => rewrite E end;
      cbn; auto 10.
  - intro H; inversion H; subst; auto 10.
Qed.

Lemma stop_recording_quiet h st o st' :
  stop_recording h st = (o, st') -> quiet st -> quiet st'.
Proof.
  intros H Q. apply stop_recording_keeps in H. unfold quiet in *.
  destruct H as (C & _ & P & R & S). rewrite C, P, R, S. exact Q.
Qed.

(** The claim of the specification about a saved session, for every
    session whose clock moved between start and stop. *)
Lemma stop_saves_two_files_and_counts_frames h st i f1 f2 sd st' t0 :
  stop_recording h st = (Return (Stopped i f1 f2 sd), st') ->
  recording_start_time (self st) = Some t0 ->
  ~ (time_time h == t0)%Q ->
  (exists dir, f1 = os_path_join dir "recording_data.json"
               /\ f2 = os_path_join dir "recording_summary.json") /\
  written st' = (written st ++ [f1; f2])%list /\
  get_frame_count sd = Some (List.length (timeline_buffer st)).
Proof.
  intros H Ht0 Hne. apply stop_recording_saved in H.
  destruct H as (d & t1 & Hd & Ht1 & _ & F1 & F2 & W & _ & _ & _ & _ & Hs).
  rewrite Ht0 in Ht1. inversion Ht1; subst t1.
  split; [eauto|]. split; [exact W|].
  destruct (Qeq_bool (time_time h - t0) 0) eqn:E.
  - apply Qeq_bool_iff in E. exfalso. apply Hne. lra.
  - destruct Hs as (s & -> & F & _). unfold timeline_buffer. rewrite Hd.
    cbn. rewrite F. reflexivity.
Qed.

(** ** The sampler loop *)

(** Below the cap and with a usable cadence, a wake-up ends in the sleep,
    whatever the host's callbacks do. *)
Lemma loop_iteration_continues fc h st t0 :
  is_recording (self st) = true ->
  recording_start_time (self st) = Some t0 ->
  float_gt (time_time h - t0)
    (max_recording_duration (recording_config (self st))) = false ->
  cadence_ok st ->
  exists st', loop_iteration fc h st = (Return (Sleeping (fc + 1)), st')
              /\ same_session st st'.
Proof.
  intros Hrec Ht0 Hcap [Hf Hp].
  unfold loop_iteration, elapsed_since_start, int_floordiv, int_mod, when,
    try_except, bind, ret, raise, get_self, time_time_now.
  rewrite Hrec. loop_cbn. rewrite Ht0. loop_cbn. rewrite Hcap.
  apply Z.eqb_neq in Hf, Hp. loop_cbn. rewrite Hf. loop_cbn. rewrite Hp. loop_cbn.
  destruct (fc mod _ =? 0)%Z; loop_cbn.
  - destruct (capture_frame_data_returns h st) as (st' & E & S).
    rewrite E. eauto.
  - eauto with recording.
Qed.

(** Beyond the cap, a wake-up calls [stop_recording] and leaves the loop. *)
Lemma loop_iteration_max_duration fc h st t0 :
  is_recording (self st) = true ->
  recording_start_time (self st) = Some t0 ->
  float_gt (time_time h - t0)
    (max_recording_duration (recording_config (self st))) = true ->
  exists r st',
    loop_iteration fc h st = (Return (Finished (MaxDurationReached r)), st')
    /\ stop_recording h st = (Return r, st')
    /\ is_recording (self st') = false.
Proof.
  intros Hrec Ht0 Hcap.
  unfold loop_iteration, elapsed_since_start,
    try_except, bind, ret, raise, get_self, time_time_now.
  rewrite Hrec. loop_cbn. rewrite Ht0. loop_cbn. rewrite Hcap.
  destruct (stop_recording_returns h st) as (r & st' & E & F & _).
  rewrite E. eauto.
Qed.

(** No exception escapes a pass through the loop: its handler turns
    every one of them into a [break]. *)
Lemma loop_iteration_returns fc h st :
  exists l st', loop_iteration fc h st = (Return l, st').
Proof.
  unfold loop_iteration, elapsed_since_start, int_floordiv, int_mod, when,
    try_except, bind, ret, raise, get_self, time_time_now.
  destruct (is_recording (self st)); loop_cbn; [|eauto].
  destruct (recording_start_time (self st)) as [t0|]; loop_cbn; [|eauto].
  destruct (float_gt _ _); loop_cbn.
  - destruct (stop_recording_returns h st) as (r & st' & E & _).
    rewrite E. eauto.
  - destruct (_ =? 0)%Z; loop_cbn; [eauto|].
    destruct (_ =? 0)%Z; loop_cbn; [eauto|].
    destruct (_ =? 0)%Z; loop_cbn; [|eauto].
    destruct (capture_frame_data_returns h st) as (st' & E & _).
    rewrite E. eauto.
Qed.

Lemma run_loop_below_cap ticks : forall fc st t0,
  is_recording (self st) = true ->
  recording_start_time (self st) = Some t0 ->
  cadence_ok st ->
  Forall (fun h => float_gt (time_time h - t0)
                     (max_recording_duration (recording_config (self st)))
                   = false) ticks ->
  exists st',
    run_loop ticks fc st = (Sleeping (fc + Z.of_nat (List.length ticks)), st')
    /\ same_session st st'.
Proof.
  induction ticks as [|h ticks IH]; intros fc st t0 Hrec Ht0 Hok Hall.
  - cbn. rewrite Z.add_0_r. eauto with recording.
  - inversion Hall as [|? ? Hh Hrest]; subst.
    destruct (loop_iteration_continues fc h st t0 Hrec Ht0 Hh Hok) as (st1 & E & S).
    cbn [run_loop]. rewrite E.
    pose proof S as (S1 & S2 & S3 & _).
    destruct (IH (fc + 1)%Z st1 t0) as (st2 & E2 & S').
    + congruence.
    + congruence.
    + unfold cadence_ok in *. rewrite S3. exact Hok.
    + rewrite S3. exact Hrest.
    + exists st2. split.
      * rewrite E2. f_equal. f_equal. cbn [List.length]. lia.
      * eapply same_session_trans; eauto.
Qed.

Lemma run_loop_app before : forall rest fc st n st1,
  run_loop before fc st = (Sleeping n, st1) ->
  run_loop (before ++ rest) fc st = run_loop rest n st1.
Proof.
  induction before as [|h before IH]; intros rest fc st n st1 E;
    cbn [run_loop app] in *.
  - inversion E; subst. reflexivity.
  - destruct (loop_iteration fc h st) as [[[m|why]|e] st'] eqn:L.
    + eauto.
    + discriminate.
    + discriminate.
Qed.

Lemma loop_iteration_quiet fc h st o st' :
  loop_iteration fc h st = (o, st') -> quiet st ->
  quiet st' /\
  forall i f1 f2 s,
    o = Return (Finished (MaxDurationReached (Stopped i f1 f2 (SummaryOf s)))) ->
    sum_physics_events s = 0%nat /\ sum_robot_events s = 0%nat /\
    sum_sensor_events s = 0%nat /\
    sum_frame_count s = List.length (timeline_buffer st').
Proof.
  intros H Q. revert H.
  unfold loop_iteration, elapsed_since_start, int_floordiv, int_mod, when,
    try_except, bind, ret, raise, get_self, time_time_now.
  destruct (is_recording (self st)); loop_cbn;
    [|intro H; inversion H; subst; split; [exact Q | discriminate]].
  destruct (recording_start_time (self st)) as [t0|]; loop_cbn;
    [|intro H; inversion H; subst; split; [exact Q | discriminate]].
  destruct (float_gt _ _); loop_cbn.
  - destruct (stop_recording h st) as [[r|e] st2] eqn:S; intro H; inversion H; subst.
    + split; [eapply stop_recording_quiet; eauto|].
      intros i f1 f2 s E. inversion E; subst.
      pose proof S as K. apply stop_recording_saved in K.
      destruct K as (d & t1 & Hd & _ & _ & _ & _ & _ & Tb & Pb & Rb & Sb & Hs).
      destruct (Qeq_bool _ _); [discriminate|].
      destruct Hs as (s' & Es & F & P & R & Sn). inversion Es; subst s'.
      destruct Q as (_ & _ & _ & Qp & Qr & Qs).
      unfold physics_buffer, robot_buffer, sensor_buffer in Qp, Qr, Qs.
      rewrite Hd in Qp, Qr, Qs. cbn in Qp, Qr, Qs.
      rewrite P, R, Sn, F, Qp, Qr, Qs, Tb. auto.
    + split; [eapply stop_recording_quiet; eauto | discriminate].
  - destruct (_ =? 0)%Z; loop_cbn;
      [intro H; inversion H; subst; split; [exact Q | discriminate]|].
    destruct (_ =? 0)%Z; loop_cbn;
      [intro H; inversion H; subst; split; [exact Q | discriminate]|].
    destruct (_ =? 0)%Z; loop_cbn.
    + destruct (_capture_frame_data h st) as [[u|e] st2] eqn:C;
        intro H; inversion H; subst;
        (split; [eapply capture_frame_data_quiet; eauto | discriminate]).
    + intro H; inversion H; subst; split; [exact Q | discriminate].
Qed.

Lemma run_loop_quiet ticks : forall fc st l st',
  run_loop ticks fc st = (l, st') -> quiet st ->
  quiet st' /\
  forall i f1 f2 s,
    l = Finished (MaxDurationReached (Stopped i f1 f2 (SummaryOf s))) ->
    sum_physics_events s = 0%nat /\ sum_robot_events s = 0%nat /\
    sum_sensor_events s = 0%nat /\
    sum_frame_count s = List.length (timeline_buffer st').
Proof.
  induction ticks as [|h ticks IH]; intros fc st l st' H Q; cbn [run_loop] in H.
  - inversion H; subst. split; [exact Q | discriminate].
  - destruct (loop_iteration fc h st) as [[[n|why]|e] st1] eqn:L;
      destruct (loop_iteration_quiet _ _ _ _ _ L Q) as [Q1 S1].
    + eapply IH; eauto.
    + inversion H; subst. split; [exact Q1|].
      intros i f1 f2 s E. inversion E; subst. eapply S1; reflexivity.
    + inversion H; subst. split; [exact Q1 | discriminate].
Qed.

(** ** Wake-ups on the nominal cadence *)

Section Cadence.

Variable t0 : Q.

Lemma on_cadence_app a : forall k b,
  on_cadence t0 k (a ++ b) ->
  on_cadence t0 k a /\ on_cadence t0 (k + List.length a) b.
Proof.
  induction a as [|h a IH]; intros k b H; cbn [app on_cadence List.length] in *.
  - rewrite Nat.add_0_r. auto.
  - destruct H as [H1 H2]. apply IH in H2. destruct H2 as [H2 H3].
    replace (k + S (List.length a))%nat with (S k + List.length a)%nat by lia.
    auto.
Qed.

Lemma on_cadence_in l : forall k h,
  on_cadence t0 k l -> In h l ->
  exists i, (k <= i < k + List.length l)%nat
            /\ (time_time h == t0 + inject_Z (Z.of_nat i) * (1 # 60))%Q.
Proof.
  induction l as [|x l IH]; intros k h H Hin; cbn [on_cadence List.length] in *.
  - contradiction.
  - destruct H as [H1 H2]. destruct Hin as [->|Hin].
    + exists k. split; [lia | exact H1].
    + destruct (IH (S k) h H2 Hin) as (i & Hi & E).
      exists i. split; [lia | exact E].
Qed.

Lemma cadence_on_cadence (mk : Q -> Host) :
  (forall t, time_time (mk t) = t) ->
  forall n k, on_cadence t0 k (cadence mk t0 k n).
Proof.
  intros Hmk. induction n as [|n IH]; intro k; cbn [cadence on_cadence].
  - exact I.
  - split; [rewrite Hmk; reflexivity | apply IH].
Qed.

End Cadence.

(** The last wake-up at or before the cap, and the first one after it. *)
Lemma cap_floor_index (D : Q) (i : nat) :
  (0 <= D)%Q -> (i <= Z.to_nat (Qfloor (60 * D)))%nat ->
  (inject_Z (Z.of_nat i) * (1 # 60) <= D)%Q.
Proof.
  intros HD Hi.
  assert (F0 : (0 <= Qfloor (60 * D))%Z).
  { change 0%Z with (Qfloor 0). apply Qfloor_resp_le. lra. }
  assert (Hz : (Z.of_nat i <= Qfloor (60 * D))%Z) by lia.
  rewrite Zle_Qle in Hz. pose proof (Qfloor_le (60 * D)). lra.
Qed.

Lemma cap_floor_next (D : Q) :
  (0 <= D)%Q ->
  let k := (Z.to_nat (Qfloor (60 * D)) + 1)%nat in
  (D < inject_Z (Z.of_nat k) * (1 # 60))%Q /\
  (inject_Z (Z.of_nat k) * (1 # 60) <= D + (1 # 60))%Q.
Proof.
  intros HD k.
  assert (F0 : (0 <= Qfloor (60 * D))%Z).
  { change 0%Z with (Qfloor 0). apply Qfloor_resp_le. lra. }
  assert (Ek : Z.of_nat k = (Qfloor (60 * D) + 1)%Z) by (unfold k; lia).
  rewrite Ek. pose proof (Qlt_floor (60 * D)) as H1.
  pose proof (Qfloor_le (60 * D)) as H2.
  rewrite inject_Z_plus in *. change (inject_Z 1) with 1%Q in *. split; lra.
Qed.

(** * The claims *)

(** ** C1: a raising capture callback *)

(** C1, as the specification words it, fails: a wake-up during which the
    timeline query and the stage query raise does not end the sampler.
    After the three wake-ups of [flaky_ticks] the task is asleep in its
    loop, the session is active, and the pass of the third wake-up has
    appended a timeline sample.  When only the stage query raises, the
    physics and robot callbacks fall back to the empty record and the
    sensor callback of the same pass still delivers its own. *)
Lemma raising_callbacks_leave_sampler_running :
  timeline_current_time (broken_scene_host 0)
    = Raise (HostError "get_current_time") /\
  fst (_recording_loop flaky_ticks (started_store default_config)) = Sleeping 3 /\
  is_recording
    (self (snd (_recording_loop flaky_ticks (started_store default_config))))
    = true /\
  List.length
    (timeline_buffer
       (snd (_recording_loop flaky_ticks (started_store default_config))))
    = 1%nat /\
  usd_get_stage (stage_down_host 0) = Raise (HostError "get_stage") /\
  fst (_recording_loop [stage_down_host 0] (started_store default_config))
    = Sleeping 1 /\
  physics_buffer
    (snd (_recording_loop [stage_down_host 0] (started_store default_config)))
    = [EmptySample] /\
  sensor_buffer
    (snd (_recording_loop [stage_down_host 0] (started_store default_config)))
    = [SensorSample 0].
Proof. vm_compute. repeat split; reflexivity. Qed.

(** C1 (amended): an exception raised while capturing never ends the
    sampler.  For every sequence of wake-ups that stays within the
    duration cap, whatever the timeline, stage and storage of each host do
    (raise or answer), the task of a session whose cadence test can be
    evaluated is still asleep in its loop after the last of them, with the
    session active, its identifier unchanged and no file written. *)
Theorem capture_failures_do_not_stop_sampler
  (ticks : list Host) (st : Store) (t0 : Q) :
  is_recording (self st) = true ->
  recording_start_time (self st) = Some t0 ->
  (capture_frequency (recording_config (self st)) <> 0)%Z ->
  (60 / capture_frequency (recording_config (self st)) <> 0)%Z ->
  Forall (fun h => (time_time h - t0
                    <= max_recording_duration (recording_config (self st)))%Q)
         ticks ->
  exists st',
    _recording_loop ticks st = (Sleeping (Z.of_nat (List.length ticks)), st') /\
    is_recording (self st') = true /\
    current_recording_id (self st') = current_recording_id (self st) /\
    written st' = written st.
Proof.
  intros Hrec Ht0 Hf Hp Hall.
  destruct (run_loop_below_cap ticks 0 st t0 Hrec Ht0 (conj Hf Hp))
    as (st' & E & S).
  - eapply Forall_impl; [|exact Hall]. intros h Hh. apply float_gt_false, Hh.
  - exists st'. destruct S as (S1 & _ & _ & S4 & _ & _ & S7).
    unfold _recording_loop. rewrite E, Z.add_0_l.
    repeat split; congruence.
Qed.

Lemma capture_failures_do_not_stop_sampler_witness :
  exists st',
    _recording_loop flaky_ticks (started_store default_config)
      = (Sleeping (Z.of_nat (List.length flaky_ticks)), st') /\
    is_recording (self st') = true /\
    current_recording_id (self st')
      = current_recording_id (self (started_store default_config)) /\
    written st' = written (started_store default_config).
Proof.
  apply (capture_failures_do_not_stop_sampler flaky_ticks
           (started_store default_config) 0).
  - reflexivity.
  - reflexivity.
  - vm_compute. discriminate.
  - vm_compute. discriminate.
  - repeat constructor; vm_compute; discriminate.
Defined.

(** ** C2: every switch of the configuration off *)

(** C2, as the specification words it, fails: the configuration has no
    switch for the timeline.  With all four switches off, a session of
    three wake-ups ends with two timeline samples in the buffer and a
    summary whose [frame_count] is 2; the other three counts are 0. *)
Lemma timeline_is_sampled_with_every_switch_off :
  capture_screenshots all_disabled_config = false /\
  capture_physics_data all_disabled_config = false /\
  capture_robot_data all_disabled_config = false /\
  capture_sensor_data all_disabled_config = false /\
  List.length (timeline_buffer (snd all_disabled_run)) = 2%nat /\
  exists i f1 f2 summary,
    snd (fst all_disabled_run) = Return (Stopped i f1 f2 summary) /\
    get_frame_count summary = Some 2%nat /\
    get_physics_events summary = Some 0%nat /\
    get_robot_events summary = Some 0%nat /\
    get_sensor_events summary = Some 0%nat.
Proof.
  vm_compute. repeat (split; [reflexivity|]).
  do 4 eexists. repeat split; reflexivity.
Qed.

(** C2 (amended): when the physics, robot and sensor switches are off, a
    session that is started, sampled over any wake-ups and stopped raises
    no exception, leaves the physics, robot and sensor buffers empty, and
    every summary it produces (by the explicit stop or by the duration
    cap) counts 0 physics, robot and sensor events; its [frame_count] is
    the length of the timeline buffer, which is sampled regardless of the
    switches. *)
Theorem disabled_categories_record_nothing
  name h0 ticks h1 st id dir l r st' :
  capture_physics_data (recording_config (self st)) = false ->
  capture_robot_data (recording_config (self st)) = false ->
  capture_sensor_data (recording_config (self st)) = false ->
  run_session name h0 ticks h1 st = (Return (Started id dir), l, r, st') ->
  physics_buffer st' = [] /\ robot_buffer st' = [] /\ sensor_buffer st' = [] /\
  (exists res, r = Return res) /\
  (forall i f1 f2 s,
     r = Return (Stopped i f1 f2 (SummaryOf s)) \/
     l = Finished (MaxDurationReached (Stopped i f1 f2 (SummaryOf s))) ->
     sum_physics_events s = 0%nat /\ sum_robot_events s = 0%nat /\
     sum_sensor_events s = 0%nat /\
     sum_frame_count s = List.length (timeline_buffer st')).
Proof.
  intros P R S. unfold run_session, _recording_loop.
  destruct (start_recording name h0 st) as [r0 st1] eqn:E0.
  destruct (run_loop ticks 0 st1) as [l1 st2] eqn:E1.
  destruct (stop_recording h1 st2) as [r2 st3] eqn:E2.
  intro H. inversion H; subst; clear H.
  apply start_recording_started in E0.
  destruct E0 as (_ & _ & _ & _ & _ & _ & C1 & _ & P1 & R1 & S1 & _).
  assert (Q1 : quiet st1) by (unfold quiet; rewrite C1; auto 10).
  destruct (run_loop_quiet _ _ _ _ _ E1 Q1) as [Q2 L2].
  pose proof (stop_recording_quiet _ _ _ _ E2 Q2) as (_ & _ & _ & P3 & R3 & S3).
  pose proof (stop_recording_keeps _ _ _ _ E2) as (_ & T3 & _).
  destruct (stop_recording_returns h1 st2) as (res & st3' & E2' & _).
  rewrite E2 in E2'. inversion E2'; subst.
  repeat (split; [assumption|]). split; [eauto|].
  intros i f1 f2 s [E|E].
  - inversion E; subst. apply stop_recording_saved in E2.
    destruct E2 as (d & t1 & Hd & _ & _ & _ & _ & _ & Tb & Pb & Rb & Sb & Hs).
    destruct (Qeq_bool _ _); [discriminate|].
    destruct Hs as (s' & Es & F & Pe & Re & Se). inversion Es; subst s'.
    rewrite Pe, Re, Se, F, <- Pb, <- Rb, <- Sb, <- Tb, P3, R3, S3. auto.
  - rewrite T3. eapply L2; eauto.
Qed.

Lemma disabled_categories_record_nothing_witness :
  physics_buffer (snd all_disabled_run) = [] /\
  robot_buffer (snd all_disabled_run) = [] /\
  sensor_buffer (snd all_disabled_run) = [] /\
  (exists res, snd (fst all_disabled_run) = Return res) /\
  (forall i f1 f2 s,
     snd (fst all_disabled_run) = Return (Stopped i f1 f2 (SummaryOf s)) \/
     snd (fst (fst all_disabled_run))
       = Finished (MaxDurationReached (Stopped i f1 f2 (SummaryOf s))) ->
     sum_physics_events s = 0%nat /\ sum_robot_events s = 0%nat /\
     sum_sensor_events s = 0%nat /\
     sum_frame_count s = List.length (timeline_buffer (snd all_disabled_run))).
Proof.
  apply (disabled_categories_record_nothing
           (Some "demo") (healthy_host 0) (cadence healthy_host 0 0 3)
           (healthy_host (3 # 60)) (with_config all_disabled_config fresh_store)
           "demo" "/tmp/isaac_sim_recordings/demo").
  - reflexivity.
  - reflexivity.
  - reflexivity.
  - vm_compute. reflexivity.
Defined.

(** ** C3: the flag after a sequence of calls *)

Lemma perform_flag c h st :
  exists o st', perform c h st = (o, st')
    /\ is_recording (self st')
       = (if successful_start o then true
          else if accepted_stop o then false else is_recording (self st)).
Proof.
  destruct c as [name|]; unfold perform, bind, ret.
  - destruct (start_recording_returns name h st) as (r & st' & E & F).
    rewrite E. exists (Return (StartReply r)), st'. split; [reflexivity|].
    cbn. rewrite F. destruct (start_success r); reflexivity.
  - destruct (stop_recording_returns h st) as (r & st' & E & F & G).
    rewrite E. exists (Return (StopReply r)), st'. split; [reflexivity|].
    rewrite F. cbn [successful_start]. rewrite G.
    destruct (is_recording (self st)); reflexivity.
Qed.

(** C3, as the specification words it, fails: after a successful start
    and a stop that fails while saving (storage refuses the files), the
    most recent successful call is the start and no stop has succeeded
    since, yet [is_recording] is false, because [stop_recording] clears
    the flag before it writes. *)
Lemma failed_stop_clears_flag :
  map successful_start (fst (run_calls start_then_failed_stop fresh_store))
    = [true; false] /\
  map successful_stop (fst (run_calls start_then_failed_stop fresh_store))
    = [false; false] /\
  spec_is_recording (fst (run_calls start_then_failed_stop fresh_store))
    = true /\
  is_recording (self (snd (run_calls start_then_failed_stop fresh_store)))
    = false.
Proof. vm_compute. repeat split; reflexivity. Qed.

(** C3 (amended): for every finite sequence of start and stop calls, made
    against any hosts from any store, [is_recording] afterwards is true if
    and only if the most recent call that was either a successful start or
    an accepted stop (one that got past the "Not recording" check, whether
    it then saved the session or failed while saving) is a successful
    start; with no such call the flag is as it was. *)
Theorem is_recording_tracks_accepted_calls (cs : list (Call * Host)) (st : Store) :
  is_recording (self (snd (run_calls cs st)))
  = active_after accepted_stop (fst (run_calls cs st)) (is_recording (self st)).
Proof.
  revert st. induction cs as [|[c h] cs IH]; intro st; cbn [run_calls].
  - reflexivity.
  - destruct (perform_flag c h st) as (o & st' & E & F).
    rewrite E. specialize (IH st').
    destruct (run_calls cs st') as [os st''].
    cbn [fst snd] in *. unfold active_after in *. cbn [fold_left].
    rewrite IH, F. reflexivity.
Qed.

(** ** C4: start while a session is active *)

(** C4: in every state in which a session is active, [start_recording]
    returns the failure result "Already recording" and changes nothing:
    the store after the call is the store before it, so the identifier,
    the buffers and the start timestamp of the running session (and the
    files on disk) are untouched, and the status still reports the same
    identifier. *)
Theorem start_while_active_rejected name h st :
  is_recording (self st) = true ->
  start_recording name h st = (Return AlreadyRecording, st) /\
  start_success AlreadyRecording = false /\
  start_message AlreadyRecording = "Already recording".
Proof.
  intro H. unfold start_recording, bind, get_self, ret. rewrite H. auto.
Qed.

Lemma start_while_active_rejected_witness :
  start_recording (Some "demo2") (healthy_host 1) (started_store default_config)
    = (Return AlreadyRecording, started_store default_config) /\
  start_success AlreadyRecording = false /\
  start_message AlreadyRecording = "Already recording".
Proof.
  apply (start_while_active_rejected (Some "demo2") (healthy_host 1)
           (started_store default_config)).
  reflexivity.
Defined.

(** ** C5: stop while idle *)

(** C5: in every state in which no session is active, [stop_recording]
    returns the failure result "Not recording" and changes nothing: the
    store after the call is the store before it, so no file is written. *)
Theorem stop_while_idle_rejected h st :
  is_recording (self st) = false ->
  stop_recording h st = (Return NotRecording, st) /\
  stop_success NotRecording = false /\
  stop_message NotRecording = "Not recording".
Proof.
  intro H. unfold stop_recording, bind, get_self, ret. rewrite H. auto.
Qed.

Lemma stop_while_idle_rejected_witness :
  stop_recording (healthy_host 1) fresh_store = (Return NotRecording, fresh_store) /\
  stop_success NotRecording = false /\
  stop_message NotRecording = "Not recording".
Proof.
  apply (stop_while_idle_rejected (healthy_host 1) fresh_store).
  reflexivity.
Defined.

(** ** C6: what a successful stop leaves behind *)

(** C6 at a session whose clock reads the same at start and at stop: the
    sampler's first pass has appended one timeline sample, the stop
    succeeds and writes the two files of the session directory, but the
    summary it returns and saves is the empty dictionary, without any
    [frame_count]: dividing the number of frames by the zero duration
    raises inside [_generate_recording_summary], which falls back to
    [{}].  ([stop_saves_two_files_and_counts_frames] is the claim for
    every session whose clock has moved.) *)
Lemma zero_duration_summary_is_empty :
  snd (fst zero_duration_run)
    = Return (Stopped (Some "demo")
                "/tmp/isaac_sim_recordings/demo/recording_data.json"
                "/tmp/isaac_sim_recordings/demo/recording_summary.json"
                EmptyDict) /\
  stop_success (Stopped (Some "demo")
                  "/tmp/isaac_sim_recordings/demo/recording_data.json"
                  "/tmp/isaac_sim_recordings/demo/recording_summary.json"
                  EmptyDict) = true /\
  written (snd zero_duration_run)
    = ["/tmp/isaac_sim_recordings/demo/recording_data.json";
       "/tmp/isaac_sim_recordings/demo/recording_summary.json"] /\
  fs_lookup (disk (snd zero_duration_run))
    "/tmp/isaac_sim_recordings/demo/recording_summary.json"
    = Some (File (SummaryDoc EmptyDict)) /\
  List.length (timeline_buffer (snd zero_duration_run)) = 1%nat /\
  get_frame_count EmptyDict = None.
Proof. vm_compute. repeat split; reflexivity. Qed.

(** ** C7: the duration cap *)

(** C7, as the specification words it, fails: at 60 captures per second
    (one capture pass per wake-up, a sample interval of 1/60 s) and a cap
    of 1 s, with wake-ups exactly 1/60 s apart, the session is still
    active after the wake-up at 1 s (its elapsed time is not greater than
    the cap) and is stopped by the next one, at 1 s + 1/60 s: one full
    sample interval after the cap, not strictly before it. *)
Lemma cap_reached_one_interval_late :
  fst (_recording_loop (cadence healthy_host 0 0 61)
         (started_store (config_hz 60 1))) = Sleeping 61 /\
  is_recording
    (self (snd (_recording_loop (cadence healthy_host 0 0 61)
                  (started_store (config_hz 60 1))))) = true /\
  (sample_interval (config_hz 60 1) == 1 # 60)%Q /\
  (exists d,
     auto_stop_elapsed
       (fst (_recording_loop (cadence healthy_host 0 0 62)
               (started_store (config_hz 60 1)))) = Some d /\
     (d == 1 + (1 # 60))%Q /\
     ~ within_claimed_window (config_hz 60 1) d).
Proof.
  split; [vm_compute; reflexivity|].
  split; [vm_compute; reflexivity|].
  split; [vm_compute; reflexivity|].
  eexists. split; [vm_compute; reflexivity|].
  split; [vm_compute; reflexivity|].
  unfold within_claimed_window. intros [_ H]. vm_compute in H. discriminate.
Qed.

(** The same happens under the default 30 captures per second as soon as
    one wake-up is late: after the wake-up at 1 s, a wake-up that comes
    50 ms later instead of 1/60 s later stops the session 1.05 s after
    its start, beyond the cap plus the sample interval of 1/30 s. *)
Lemma late_wakeup_stops_late :
  exists d,
    auto_stop_elapsed
      (fst (_recording_loop
              (cadence healthy_host 0 0 61 ++ [healthy_host (21 # 20)])%list
              (started_store (config_hz 30 1)))) = Some d /\
    (d == 21 # 20)%Q /\
    ~ within_claimed_window (config_hz 30 1) d.
Proof.
  eexists. split; [vm_compute; reflexivity|].
  split; [vm_compute; reflexivity|].
  unfold within_claimed_window. intros [_ H]. vm_compute in H. discriminate.
Qed.

(** Whatever the clock does, the sampler stays in its loop through every
    wake-up whose elapsed time is within the cap and stops the session at
    the first wake-up beyond it. *)
Lemma sampler_stops_at_first_wakeup_beyond_cap
  (before : list Host) (h : Host) (after : list Host) (st : Store) (t0 : Q) :
  is_recording (self st) = true ->
  recording_start_time (self st) = Some t0 ->
  cadence_ok st ->
  Forall (fun x => (time_time x - t0
                    <= max_recording_duration (recording_config (self st)))%Q)
         before ->
  (max_recording_duration (recording_config (self st)) < time_time h - t0)%Q ->
  exists (st1 : Store) (r : StopResult) (st2 : Store),
    _recording_loop before st
      = (Sleeping (Z.of_nat (List.length before)), st1) /\
    is_recording (self st1) = true /\
    stop_recording h st1 = (Return r, st2) /\
    _recording_loop (before ++ h :: after) st
      = (Finished (MaxDurationReached r), st2) /\
    is_recording (self st2) = false.
Proof.
  intros Hrec Ht0 Hok Hbefore Hh.
  destruct (run_loop_below_cap before 0 st t0 Hrec Ht0 Hok) as (st1 & E1 & S1).
  { eapply Forall_impl; [|exact Hbefore]. intros x Hx. apply float_gt_false, Hx. }
  rewrite Z.add_0_l in E1.
  pose proof S1 as (R1 & T1 & C1 & _).
  destruct (loop_iteration_max_duration (Z.of_nat (List.length before)) h st1 t0)
    as (r & st2 & L & Sr & Fr).
  - congruence.
  - congruence.
  - rewrite C1. apply float_gt_true, Hh.
  - exists st1, r, st2. unfold _recording_loop.
    split; [exact E1|]. split; [congruence|]. split; [exact Sr|].
    split; [|exact Fr].
    rewrite (run_loop_app before (h :: after) 0 st _ st1 E1).
    cbn [run_loop]. rewrite L. reflexivity.
Qed.

(** C7 (amended): a session that is active, whose sampler can evaluate
    its cadence test (capture_frequency between 1 and 60, or negative) and
    whose wake-ups are exactly 1/60 s apart from the start on, with a cap
    [D >= 0], stops by itself and without any explicit stop: the sampler
    checks the elapsed time at every wake-up, stays in its loop as long as
    it is not greater than [D], and at the first wake-up whose elapsed
    time is strictly greater than [D] calls [stop_recording] and leaves
    the loop.  That wake-up comes strictly after [D] seconds and at most
    1/60 s (one wake-up, hence at most one sample interval) after [D]; it
    lies in the window of the specification whenever a capture pass takes
    place at most every second wake-up (capture_frequency at most 30). *)
Theorem sampler_stops_itself_after_cap
  (ticks : list Host) (st : Store) (t0 : Q) :
  is_recording (self st) = true ->
  recording_start_time (self st) = Some t0 ->
  (capture_frequency (recording_config (self st)) <> 0)%Z ->
  (60 / capture_frequency (recording_config (self st)) <> 0)%Z ->
  (0 <= max_recording_duration (recording_config (self st)))%Q ->
  on_cadence t0 0 ticks ->
  (60 * max_recording_duration (recording_config (self st)) + 1
     < inject_Z (Z.of_nat (List.length ticks)))%Q ->
  exists (k : nat) (h : Host) (st1 : Store) (r : StopResult) (st2 : Store),
    nth_error ticks k = Some h /\
    (max_recording_duration (recording_config (self st)) < time_time h - t0)%Q /\
    (time_time h - t0
       <= max_recording_duration (recording_config (self st)) + (1 # 60))%Q /\
    ((2 <= 60 / capture_frequency (recording_config (self st)))%Z ->
     within_claimed_window (recording_config (self st)) (time_time h - t0)) /\
    _recording_loop (firstn k ticks) st = (Sleeping (Z.of_nat k), st1) /\
    is_recording (self st1) = true /\
    stop_recording h st1 = (Return r, st2) /\
    _recording_loop ticks st = (Finished (MaxDurationReached r), st2) /\
    is_recording (self st2) = false.
Proof.
  intros Hrec Ht0 Hf Hp HD Hcad Hlen.
  set (D := max_recording_duration (recording_config (self st))) in *.
  set (k := (Z.to_nat (Qfloor (60 * D)) + 1)%nat).
  assert (F0 : (0 <= Qfloor (60 * D))%Z).
  { change 0%Z with (Qfloor 0). apply Qfloor_resp_le. lra. }
  assert (Hk : (k < List.length ticks)%nat).
  { pose proof (Qfloor_le (60 * D)) as H2.
    assert (H : (inject_Z (Qfloor (60 * D) + 1)
                 < inject_Z (Z.of_nat (List.length ticks)))%Q).
    { rewrite inject_Z_plus. change (inject_Z 1) with 1%Q. lra. }
    rewrite <- Zlt_Qlt in H. unfold k. lia. }
  destruct (nth_error ticks k) as [h|] eqn:Hnth;
    [|apply nth_error_None in Hnth; lia].
  destruct (nth_error_split ticks k Hnth) as (before & after & Esplit & Elen).
  rewrite Esplit in Hcad. apply on_cadence_app in Hcad. destruct Hcad as [Hb Hh].
  cbn [on_cadence] in Hh. destruct Hh as [Hh _]. rewrite Elen, Nat.add_0_l in Hh.
  destruct (cap_floor_next D HD) as [Hlo Hhi]. fold k in Hlo, Hhi.
  assert (Hbelow : Forall (fun x => (time_time x - t0 <= D)%Q) before).
  { apply Forall_forall. intros x Hx.
    destruct (on_cadence_in t0 before 0 x Hb Hx) as (i & Hi & Ei).
    assert ((inject_Z (Z.of_nat i) * (1 # 60) <= D)%Q)
      by (apply cap_floor_index; [exact HD | lia]).
    lra. }
  assert (Hbeyond : (D < time_time h - t0)%Q) by lra.
  destruct (sampler_stops_at_first_wakeup_beyond_cap before h after st t0
              Hrec Ht0 (conj Hf Hp) Hbelow Hbeyond)
    as (st1 & r & st2 & E1 & R1 & Sr & E2 & Fr).
  exists k, h, st1, r, st2.
  assert (Efirst : firstn k ticks = before).
  { rewrite Esplit, <- Elen.
    rewrite firstn_app, Nat.sub_diag, firstn_all. cbn. apply app_nil_r. }
  split; [exact Hnth|]. split; [exact Hbeyond|]. split; [lra|].
  split.
  { intro Hslow. unfold within_claimed_window, sample_interval. fold D.
    rewrite Zle_Qle in Hslow. change (inject_Z 2) with 2%Q in Hslow.
    split; lra. }
  split; [rewrite Efirst, <- Elen; exact E1|]. split; [exact R1|].
  split; [exact Sr|]. split; [|exact Fr].
  rewrite Esplit. exact E2.
Qed.

Lemma sampler_stops_itself_after_cap_witness :
  exists (k : nat) (h : Host) (st1 : Store) (r : StopResult) (st2 : Store),
    nth_error (cadence healthy_host 0 0 10) k = Some h /\
    (max_recording_duration
       (recording_config (self (started_store (config_hz 30 (1 # 10)))))
     < time_time h - 0)%Q /\
    (time_time h - 0
       <= max_recording_duration
            (recording_config (self (started_store (config_hz 30 (1 # 10)))))
          + (1 # 60))%Q /\
    ((2 <= 60 / capture_frequency
                (recording_config (self (started_store (config_hz 30 (1 # 10))))))%Z ->
     within_claimed_window
       (recording_config (self (started_store (config_hz 30 (1 # 10)))))
       (time_time h - 0)) /\
    _recording_loop (firstn k (cadence healthy_host 0 0 10))
      (started_store (config_hz 30 (1 # 10))) = (Sleeping (Z.of_nat k), st1) /\
    is_recording (self st1) = true /\
    stop_recording h st1 = (Return r, st2) /\
    _recording_loop (cadence healthy_host 0 0 10)
      (started_store (config_hz 30 (1 # 10)))
      = (Finished (MaxDurationReached r), st2) /\
    is_recording (self st2) = false.
Proof.
  apply (sampler_stops_itself_after_cap (cadence healthy_host 0 0 10)
           (started_store (config_hz 30 (1 # 10))) 0).
  - reflexivity.
  - reflexivity.
  - vm_compute. discriminate.
  - vm_compute. discriminate.
  - vm_compute. discriminate.
  - vm_compute. repeat split; reflexivity.
  - vm_compute. reflexivity.
Defined.

(** ** C8: listing the recordings *)

(** C8, as it is worded, fails for a storage root on which one summary
    file cannot be parsed: [run_a] is a session directory whose summary is
    persisted and readable, the summary file of [run_b] is not JSON;
    [json.load] raises inside the loop, the [except] clause returns the
    empty list, and the persisted summary of [run_a] is not returned. *)
Lemma unparsable_summary_empties_the_listing :
  In "run_a"
    (children (recording_path (self (listing_store Corrupt)))
       (disk (listing_store Corrupt))) /\
  os_path_isdir (disk (listing_store Corrupt))
    (os_path_join (recording_path (self (listing_store Corrupt))) "run_a")
  = true /\
  fs_lookup (disk (listing_store Corrupt))
    (os_path_join
       (os_path_join (recording_path (self (listing_store Corrupt))) "run_a")
       "recording_summary.json")
  = Some (File (demo_summary "run_a")) /\
  In (demo_summary "run_a") (persisted_summaries (listing_store Corrupt)) /\
  get_recordings (healthy_host 0) (listing_store Corrupt)
  = (Return [], listing_store Corrupt).
Proof.
  split; [vm_compute; left; reflexivity|].
  split; [vm_compute; reflexivity|].
  split; [vm_compute; reflexivity|].
  split; [vm_compute; left; reflexivity|].
  vm_compute. reflexivity.
Qed.

(** C8 (amended): for every state of the storage and of the host,
    [get_recordings] returns a list, without raising and without changing
    anything.  The list is sorted in descending order of the documents'
    [recording_id], and every document in it is the content of the
    [recording_summary.json] of a session directory listed under the
    storage root, so a directory that lacks the file contributes nothing.
    When the root can be listed, every summary file of a session directory
    can be loaded and the identifiers can be compared (fewer than two
    summaries, or every identifier a string), the list is exactly the
    persisted summaries, all of them, in the stable descending sort; in
    every other case it is empty, whatever is persisted. *)
Theorem get_recordings_sorted_and_filtered (h : Host) (st : Store) :
  exists out,
    get_recordings h st = (Return out, st) /\
    StronglySorted desc out /\
    (forall x, In x out ->
       exists item,
         In item (children (recording_path (self st)) (disk st)) /\
         os_path_isdir (disk st)
           (os_path_join (recording_path (self st)) item) = true /\
         fs_lookup (disk st)
           (os_path_join (os_path_join (recording_path (self st)) item)
              "recording_summary.json")
         = Some (File x)) /\
    (forall x, In x (persisted_summaries st) <->
       exists item,
         In item (children (recording_path (self st)) (disk st)) /\
         os_path_isdir (disk st)
           (os_path_join (recording_path (self st)) item) = true /\
         fs_lookup (disk st)
           (os_path_join (os_path_join (recording_path (self st)) item)
              "recording_summary.json")
         = Some (File x)) /\
    (listing_loads h st && keys_comparable (persisted_summaries st) = true ->
     out = sort_desc (persisted_summaries st) /\
     Permutation (persisted_summaries st) out) /\
    (listing_loads h st && keys_comparable (persisted_summaries st) = false ->
     out = []).
Proof.
  assert (Hall : forall x, In x (persisted_summaries st) <->
       exists item,
         In item (children (recording_path (self st)) (disk st)) /\
         os_path_isdir (disk st)
           (os_path_join (recording_path (self st)) item) = true /\
         fs_lookup (disk st)
           (os_path_join (os_path_join (recording_path (self st)) item)
              "recording_summary.json")
         = Some (File x)).
  { intro x. unfold persisted_summaries. split.
    - intro Hx. apply collect_in in Hx. destruct Hx as (item & Hi & Hp).
      apply persisted_summary_spec in Hp. exists item. tauto.
    - intros (item & Hi & Hd & Hf).
      apply (in_collect _ _ _ item x Hi).
      apply persisted_summary_spec. split; assumption. }
  rewrite (get_recordings_exact h st).
  destruct (listing_loads h st && keys_comparable (persisted_summaries st)).
  - exists (sort_desc (persisted_summaries st)).
    split; [reflexivity|]. split; [apply sort_desc_sorted|].
    split.
    { intros x Hx. apply Hall.
      apply (Permutation_in x (Permutation_sym (sort_desc_perm _)) Hx). }
    split; [exact Hall|].
    split; [|discriminate].
    intros _. split; [reflexivity | apply sort_desc_perm].
  - exists []. split; [reflexivity|]. split; [constructor|].
    split; [intros x []|]. split; [exact Hall|].
    split; [discriminate | reflexivity].
Qed.

(** Two concrete listings: the summaries of [run_a] and [run_b] come back
    newest identifier first and [run_c], which has no summary file, is
    absent; when the summary of [run_b] cannot be parsed, the [except]
    clause returns the empty list, [run_a] included. *)
Lemma listing_examples :
  fst (get_recordings (healthy_host 0)
         (listing_store (File (demo_summary "run_b"))))
    = Return [demo_summary "run_b"; demo_summary "run_a"] /\
  fst (get_recordings (healthy_host 0) (listing_store Corrupt)) = Return [].
Proof. vm_compute. split; reflexivity. Qed.

(** The first is a listing that loads, the second one that does not. *)
Lemma listing_examples_load :
  listing_loads (healthy_host 0) (listing_store (File (demo_summary "run_b")))
  && keys_comparable
       (persisted_summaries (listing_store (File (demo_summary "run_b"))))
  = true /\
  listing_loads (healthy_host 0) (listing_store Corrupt) = false.
Proof. vm_compute. split; reflexivity. Qed.

(** ** C9: a capture frequency above 60 *)

(** C9, as it is worded, fails for a configuration whose cap has already
    run out at the first wake-up: with capture_frequency 61 and
    max_recording_duration 0, the elapsed-time check of the first wake-up
    (1/60 s after the start) comes before the cadence test, calls
    [stop_recording] and leaves the loop; no [ZeroDivisionError] is
    raised, the flag is cleared and both files are written. *)
Lemma expired_cap_precedes_cadence_test :
  (60 < capture_frequency (config_hz 61 0))%Z /\
  (60 / capture_frequency (config_hz 61 0) = 0)%Z /\
  (exists r,
     fst (_recording_loop [healthy_host (1 # 60)] (started_store (config_hz 61 0)))
       = Finished (MaxDurationReached r) /\ stop_success r = true) /\
  is_recording
    (self (snd (_recording_loop [healthy_host (1 # 60)]
                  (started_store (config_hz 61 0))))) = false /\
  written (snd (_recording_loop [healthy_host (1 # 60)]
                  (started_store (config_hz 61 0))))
    = ["/tmp/isaac_sim_recordings/demo/recording_data.json";
       "/tmp/isaac_sim_recordings/demo/recording_summary.json"].
Proof.
  split; [vm_compute; reflexivity|].
  split; [vm_compute; reflexivity|].
  split; [eexists; vm_compute; split; reflexivity|].
  split; vm_compute; reflexivity.
Qed.

(** C9 (amended): for every configuration with capture_frequency greater
    than 60 (so that [60 // capture_frequency] is 0) and every session
    started under it, if the cap has not run out at the sampler's first
    wake-up (the elapsed time is not greater than max_recording_duration),
    the cadence test of that wake-up raises [ZeroDivisionError]; the
    handler of the loop leaves the loop without calling [stop_recording],
    and the store is exactly as the start left it: [is_recording] true
    with no sampler left to clear it, all four buffers empty, no file
    written. *)
Theorem high_frequency_kills_sampler name h0 h1 ticks st id dir st1 :
  (60 < capture_frequency (recording_config (self st)))%Z ->
  start_recording name h0 st = (Return (Started id dir), st1) ->
  (time_time h1 - time_time h0
     <= max_recording_duration (recording_config (self st)))%Q ->
  (60 / capture_frequency (recording_config (self st)) = 0)%Z /\
  _recording_loop (h1 :: ticks) st1
    = (Finished (LoopError ZeroDivisionError), st1) /\
  is_recording (self st1) = true /\
  timeline_buffer st1 = [] /\ physics_buffer st1 = [] /\
  robot_buffer st1 = [] /\ sensor_buffer st1 = [] /\
  written st1 = written st.
Proof.
  intros Hf Hs Hcap.
  apply start_recording_started in Hs.
  destruct Hs as (_ & _ & _ & Hrec & Ht0 & _ & Hc & Tb & Pb & Rb & Sb & W).
  assert (Hz : (60 / capture_frequency (recording_config (self st)) = 0)%Z)
    by (apply Z.div_small; lia).
  split; [exact Hz|]. split; [|auto 10].
  unfold _recording_loop. cbn [run_loop].
  unfold loop_iteration, elapsed_since_start, int_floordiv, int_mod, when,
    try_except, bind, ret, raise, get_self, time_time_now.
  rewrite Hrec. loop_cbn. rewrite Ht0. loop_cbn. rewrite Hc.
  rewrite (float_gt_false _ _ Hcap).
  assert (Hn : (capture_frequency (recording_config (self st)) =? 0)%Z = false)
    by (apply Z.eqb_neq; lia).
  loop_cbn. rewrite Hn. loop_cbn. rewrite Hz. reflexivity.
Qed.

Lemma high_frequency_kills_sampler_witness :
  (60 / capture_frequency
          (recording_config (self (with_config (config_hz 120 300) fresh_store)))
   = 0)%Z /\
  _recording_loop (healthy_host (1 # 60) :: cadence healthy_host 0 2 5)
    (started_store (config_hz 120 300))
    = (Finished (LoopError ZeroDivisionError), started_store (config_hz 120 300)) /\
  is_recording (self (started_store (config_hz 120 300))) = true /\
  timeline_buffer (started_store (config_hz 120 300)) = [] /\
  physics_buffer (started_store (config_hz 120 300)) = [] /\
  robot_buffer (started_store (config_hz 120 300)) = [] /\
  sensor_buffer (started_store (config_hz 120 300)) = [] /\
  written (started_store (config_hz 120 300))
    = written (with_config (config_hz 120 300) fresh_store).
Proof.
  apply (high_frequency_kills_sampler (Some "demo") (healthy_host 0)
           (healthy_host (1 # 60)) (cadence healthy_host 0 2 5)
           (with_config (config_hz 120 300) fresh_store)
           "demo" "/tmp/isaac_sim_recordings/demo").
  - vm_compute. reflexivity.
  - vm_compute. reflexivity.
  - vm_compute. discriminate.
Defined.

(** ** C10: a start that fails half-way *)

(** C10: whenever [start_recording] returns its failure result for an
    exception (every such exception is raised after the identifier has
    been generated: creating the session directory, or reading the stage
    URL), the session was idle and stays idle, but [current_recording_id]
    is left set to the newly generated identifier, and every later
    [get_recording_status] reports that identifier together with
    [is_recording] false and a zero duration. *)
Theorem failed_start_leaves_identifier name h st e st' :
  start_recording name h st = (Return (StartFailed e), st') ->
  is_recording (self st) = false /\
  is_recording (self st') = false /\
  current_recording_id (self st')
    = Some (name_or_timestamp name (strftime_now h)) /\
  forall h',
    get_recording_status h' st'
    = (Return {| st_is_recording := false;
                 st_recording_id :=
                   Some (name_or_timestamp name (strftime_now h));
                 st_duration := 0;
                 st_recording_path := recording_path (self st) |}, st').
Proof.
  intro H. apply start_recording_failed in H.
  destruct H as (H0 & H1 & H2 & H3 & _).
  repeat (split; [assumption|]).
  intro h'. unfold get_recording_status, bind, get_self, ret.
  rewrite H1, H2, H3. reflexivity.
Qed.

Lemma failed_start_leaves_identifier_witness :
  is_recording (self fresh_store) = false /\
  is_recording
    (self (snd (start_recording None (read_only_host 0) fresh_store))) = false /\
  current_recording_id
    (self (snd (start_recording None (read_only_host 0) fresh_store)))
    = Some (name_or_timestamp None (strftime_now (read_only_host 0))) /\
  forall h',
    get_recording_status h'
      (snd (start_recording None (read_only_host 0) fresh_store))
    = (Return {| st_is_recording := false;
                 st_recording_id :=
                   Some (name_or_timestamp None (strftime_now (read_only_host 0)));
                 st_duration := 0;
                 st_recording_path := recording_path (self fresh_store) |},
       snd (start_recording None (read_only_host 0) fresh_store)).
Proof.
  apply (failed_start_leaves_identifier None (read_only_host 0) fresh_store
           (OSError "/tmp/isaac_sim_recordings/recording_20250101_120000")).
  vm_compute. reflexivity.
Defined.

(** * Further properties *)

(** Properties of the code beyond the claims of the specification: of
    the manager under arbitrary interleavings of calls and sampler
    wake-ups, of what it leaves on storage, and of the handlers of the
    extension's recording panel that call it. *)

(** ** Storage *)

Lemma fs_lookup_put (fs : FS) (p q : string) (n : Node) :
  fs_lookup (fs_put fs p n) q
  = if String.eqb p q then Some n else fs_lookup fs q.
Proof.
  induction fs as [|[k m] fs IH]; cbn.
  - destruct (String.eqb p q); reflexivity.
  - destruct (String.eqb_spec k p) as [->|Hkp]; cbn.
    + destruct (String.eqb p q); reflexivity.
    + destruct (String.eqb_spec k q) as [->|Hkq].
      * destruct (String.eqb_spec p q) as [->|_]; [congruence | reflexivity].
      * exact IH.
Qed.

Lemma fs_lookup_put_dirs (ds : list string) : forall (fs : FS) (q : string),
  fs_lookup (put_dirs fs ds) q
  = if existsb (fun d => String.eqb d q) ds then Some Dir else fs_lookup fs q.
Proof.
  unfold put_dirs.
  induction ds as [|d ds IH]; intros fs q; cbn [fold_left existsb].
  - reflexivity.
  - rewrite IH, fs_lookup_put.
    destruct (existsb _ ds); [rewrite orb_true_r; reflexivity|].
    rewrite orb_false_r. reflexivity.
Qed.

(** ** Paths *)

Lemma string_app_inv_head (a x y : string) : a ++ x = a ++ y -> x = y.
Proof.
  induction a as [|c a IH]; cbn; intro H; [exact H|].
  inversion H. auto.
Qed.

Lemma string_app_nil_r (s : string) : s ++ "" = s.
Proof. induction s as [|c s IH]; cbn; [reflexivity | rewrite IH; reflexivity]. Qed.

Lemma string_app_assoc (a b c : string) : (a ++ b) ++ c = a ++ (b ++ c).
Proof. induction a as [|x a IH]; cbn; [reflexivity | rewrite IH; reflexivity]. Qed.

Lemma has_sep_startswith s : has_sep s = false -> startswith_sep s = false.
Proof.
  destruct s as [|c s]; cbn; [reflexivity|].
  intro H. apply orb_false_iff in H. tauto.
Qed.

Lemma has_sep_endswith s : has_sep s = false -> endswith_sep s = false.
Proof.
  induction s as [|c s IH]; cbn [has_sep endswith_sep]; [reflexivity|].
  intro H. apply orb_false_iff in H. destruct H as [Hc Hs].
  destruct s; [exact Hc | apply IH, Hs].
Qed.

Lemma endswith_sep_app a b : b <> "" -> endswith_sep (a ++ b) = endswith_sep b.
Proof.
  intro Hb. induction a as [|c a IH]; [reflexivity|].
  cbn [append endswith_sep]. rewrite IH.
  destruct (a ++ b) eqn:E; [|reflexivity].
  destruct a; [cbn in E; congruence | discriminate].
Qed.

Lemma is_empty_app a b : is_empty (a ++ b) = is_empty a && is_empty b.
Proof. destruct a; reflexivity. Qed.

Lemma strip_prefix_app a b c : strip_prefix (a ++ b) (a ++ c) = strip_prefix b c.
Proof.
  induction a as [|x a IH]; [reflexivity|].
  cbn. rewrite Ascii.eqb_refl. exact IH.
Qed.

Lemma child_name_join root id :
  root <> "" -> is_empty id = false -> has_sep id = false ->
  child_name root (os_path_join root id) = Some id.
Proof.
  intros Hr He Hs. unfold child_name, os_path_join.
  rewrite (has_sep_startswith id Hs).
  destruct root as [|c root]; [congruence|]. cbn [is_empty orb].
  destruct (endswith_sep (String c root)).
  - rewrite <- (string_app_nil_r (String c root)) at 1.
    rewrite strip_prefix_app. cbn [strip_prefix]. rewrite He, Hs. reflexivity.
  - rewrite strip_prefix_app. cbn [strip_prefix]. rewrite Ascii.eqb_refl.
    cbn [strip_prefix]. rewrite He, Hs. reflexivity.
Qed.

Lemma dir_chain_self s : forall acc,
  is_empty (acc ++ s) || endswith_sep (acc ++ s) = false ->
  In (acc ++ s) (dir_chain acc s).
Proof.
  induction s as [|c s IH]; intros acc H; cbn [dir_chain].
  - rewrite string_app_nil_r in *. rewrite H. left. reflexivity.
  - assert (E : acc ++ String c s = (acc ++ String c "") ++ s)
      by (rewrite string_app_assoc; reflexivity).
    rewrite E in *. destruct (Ascii.eqb c sep).
    + apply in_or_app. right. apply IH, H.
    + apply IH, H.
Qed.

Lemma name_or_timestamp_nonempty name stamp : name_or_timestamp name stamp <> "".
Proof. unfold name_or_timestamp. destruct name as [[|c n]|]; discriminate. Qed.

Lemma session_dir_in_chain root id :
  id <> "" -> endswith_sep id = false ->
  In (os_path_join root id) (dir_chain "" (os_path_join root id)).
Proof.
  intros Hne Hid.
  apply (dir_chain_self (os_path_join root id) "").
  change ("" ++ os_path_join root id) with (os_path_join root id).
  unfold os_path_join.
  destruct (startswith_sep id) eqn:S.
  - rewrite Hid, orb_false_r. destruct id; [congruence | reflexivity].
  - destruct (is_empty root || endswith_sep root).
    + rewrite is_empty_app, (endswith_sep_app _ id Hne), Hid.
      destruct id; [congruence|]. cbn. rewrite andb_false_r. reflexivity.
    + rewrite is_empty_app. cbn [is_empty]. rewrite andb_false_r.
      rewrite (endswith_sep_app _ (String sep id)) by discriminate.
      cbn [endswith_sep orb]. destruct id; [congruence | exact Hid].
Qed.

Lemma join_plain_in_chain root id :
  is_empty id = false -> has_sep id = false ->
  In (os_path_join root id) (dir_chain "" (os_path_join root id)).
Proof.
  intros He Hs. apply session_dir_in_chain.
  - destruct id; [discriminate | congruence].
  - apply has_sep_endswith, Hs.
Qed.

Lemma children_lookup root (fs : FS) p n name :
  fs_lookup fs p = Some n -> child_name root p = Some name ->
  In name (children root fs).
Proof.
  intros H C. induction fs as [|[k m] fs IH]; cbn in *; [discriminate|].
  destruct (String.eqb_spec k p) as [->|_].
  - rewrite C. left. reflexivity.
  - destruct (child_name root k); [right|]; apply IH, H.
Qed.

Lemma data_file_neq_summary_file d : data_file d <> summary_file d.
Proof.
  unfold data_file, summary_file, os_path_join. cbn [startswith_sep].
  change (Ascii.eqb "r" sep) with false. cbv iota.
  destruct (is_empty _ || endswith_sep _); intro H;
    apply string_app_inv_head in H; discriminate.
Qed.

Lemma string_leb_refl s : String.leb s s = true.
Proof.
  unfold String.leb. pose proof (String.compare_antisym s s) as A.
  destruct (String.compare s s); cbn in A; try reflexivity; discriminate.
Qed.

(** ** Capture passes *)

Lemma capture_frame_data_idle h st :
  recording_data (self st) = None ->
  _capture_frame_data h st = (Return tt, st).
Proof.
  intro D. unfold_py. py_cbn.
  destruct (timeline_current_time h); py_cbn; [|reflexivity].
  destruct (timeline_is_playing h); py_cbn; [|reflexivity].
  rewrite D. reflexivity.
Qed.

(** The three category callbacks never raise and touch nothing. *)
Lemma capture_physics_data_returns h :
  exists x, forall st, _capture_physics_data h st = (Return x, st).
Proof.
  unfold_py. destruct (usd_get_stage h) as [[|]|e]; cbn; eauto.
Qed.

Lemma capture_robot_data_returns h :
  exists x, forall st, _capture_robot_data h st = (Return x, st).
Proof.
  unfold_py. destruct (usd_get_stage h) as [[|]|e]; cbn; eauto.
Qed.

Lemma capture_sensor_data_returns h :
  exists x, forall st, _capture_sensor_data h st = (Return x, st).
Proof. unfold_py. cbn. eauto. Qed.

(** What one capture pass does to a session dictionary: nothing when a
    timeline query raises, otherwise one sample more in the timeline
    buffer and in the buffer of every category that is switched on. *)
Lemma capture_frame_data_spec h st d :
  recording_data (self st) = Some d ->
  exists st',
    _capture_frame_data h st = (Return tt, st') /\
    same_session st st' /\
    match timeline_current_time h, timeline_is_playing h with
    | Return t, Return b =>
        exists px rx sx,
          recording_data (self st') = Some
            {| recording_id := recording_id d;
               start_time := start_time d;
               timeline_data :=
                 (timeline_data d
                  ++ [{| tl_timestamp := time_time h;
                         tl_simulation_time := t;
                         tl_is_playing := b;
                         tl_frame_count := List.length (timeline_data d) |}])%list;
               physics_data :=
                 (if capture_physics_data (recording_config (self st))
                  then physics_data d ++ [px] else physics_data d)%list;
               robot_data :=
                 (if capture_robot_data (recording_config (self st))
                  then robot_data d ++ [rx] else robot_data d)%list;
               sensor_data :=
                 (if capture_sensor_data (recording_config (self st))
                  then sensor_data d ++ [sx] else sensor_data d)%list;
               screenshots := screenshots d;
               metadata := metadata d |}
    | _, _ => st' = st
    end.
Proof.
  intro D.
  destruct (capture_physics_data_returns h) as [px Hp].
  destruct (capture_robot_data_returns h) as [rx Hr].
  destruct (capture_sensor_data_returns h) as [sx Hs].
  unfold _capture_frame_data, update_recording_data, recording_data_item,
    when, try_except, bind, ret, raise, get_self, modify_self, time_time_now,
    timeline_get_current_time, timeline_get_is_playing.
  destruct (timeline_current_time h) as [t|e];
    [|eexists; split; [reflexivity|]; split; [apply same_session_refl | reflexivity]].
  destruct (timeline_is_playing h) as [b|e];
    [|eexists; split; [reflexivity|]; split; [apply same_session_refl | reflexivity]].
  destruct (capture_physics_data (recording_config (self st))) eqn:Cp;
  destruct (capture_robot_data (recording_config (self st))) eqn:Cr;
  destruct (capture_sensor_data (recording_config (self st))) eqn:Cs;
  repeat (progress (cbn -[_capture_physics_data _capture_robot_data
                          _capture_sensor_data];
                    rewrite ?D, ?Cp, ?Cr, ?Cs, ?Hp, ?Hr, ?Hs));
  (eexists; split; [reflexivity|]; split;
   [unfold same_session; cbn; auto 10|]);
  exists px, rx, sx; reflexivity.
Qed.

(** ** Case analyses of the calls *)

(** The four ways through [start_recording]. *)
Lemma start_recording_cases name h st :
  let id := name_or_timestamp name (strftime_now h) in
  let dir := os_path_join (recording_path (self st)) id in
  let chain := dir_chain "" dir in
  (is_recording (self st) = true /\
   start_recording name h st = (Return AlreadyRecording, st)) \/
  (is_recording (self st) = false /\
   io_error h dir || existsb (is_file (disk st)) chain = true /\
   start_recording name h st
   = (Return (StartFailed (OSError dir)),
      {| self := with_current_recording_id (Some id) (self st);
         disk := disk st;
         written := written st |})) \/
  (is_recording (self st) = false /\
   io_error h dir || existsb (is_file (disk st)) chain = false /\
   exists e,
     usd_get_stage_url h = Raise e /\
     start_recording name h st
     = (Return (StartFailed e),
        {| self := with_current_recording_id (Some id) (self st);
           disk := put_dirs (disk st) chain;
           written := written st |})) \/
  (is_recording (self st) = false /\
   io_error h dir || existsb (is_file (disk st)) chain = false /\
   exists url,
     usd_get_stage_url h = Return url /\
     start_recording name h st
     = (Return (Started id dir),
        {| self := {| is_recording := true;
                      recording_start_time := Some (time_time h);
                      recording_data :=
                        Some (fresh_data id (strftime_now h) dir url);
                      recording_path := recording_path (self st);
                      current_recording_id := Some id;
                      recording_config := recording_config (self st) |};
           disk := put_dirs (disk st) chain;
           written := written st |})).
Proof.
  intros id dir chain. unfold_py.
  destruct (is_recording (self st)) eqn:Hrec; [left; auto|right].
  py_cbn. fold id. fold dir. fold chain.
  destruct (io_error h dir || existsb (is_file (disk st)) chain) eqn:Hio;
    py_cbn; [left; auto|right].
  destruct (usd_get_stage_url h) as [url|e]; py_cbn; [right|left]; eauto 10.
Qed.

(** The three ways through [stop_recording] for a session that has its
    dictionary and its start time. *)
Lemma stop_recording_cases h st d t0 :
  is_recording (self st) = true ->
  recording_data (self st) = Some d ->
  recording_start_time (self st) = Some t0 ->
  let dt := (time_time h - t0)%Q in
  let d' := final_data (strftime_now h) dt d in
  let sd := summary_of (current_recording_id (self st)) dt d in
  let stopped := with_recording_data (Some d') (with_is_recording false (self st)) in
  let disk1 := fs_put (disk st) (data_file d) (File (RecordingDoc d')) in
  (io_error h (data_file d) || os_path_isdir (disk st) (data_file d) = true /\
   stop_recording h st
   = (Return (StopFailed (OSError (data_file d))),
      {| self := stopped; disk := disk st; written := written st |})) \/
  (io_error h (data_file d) || os_path_isdir (disk st) (data_file d) = false /\
   io_error h (summary_file d) || os_path_isdir disk1 (summary_file d) = true /\
   stop_recording h st
   = (Return (StopFailed (OSError (summary_file d))),
      {| self := stopped;
         disk := disk1;
         written := (written st ++ [data_file d])%list |})) \/
  (io_error h (data_file d) || os_path_isdir (disk st) (data_file d) = false /\
   io_error h (summary_file d) || os_path_isdir disk1 (summary_file d) = false /\
   stop_recording h st
   = (Return (Stopped (current_recording_id (self st))
                (data_file d) (summary_file d) sd),
      {| self := with_recording_start_time None
                   (with_current_recording_id None stopped);
         disk := fs_put disk1 (summary_file d) (File (SummaryDoc sd));
         written := (written st ++ [data_file d; summary_file d])%list |})).
Proof.
  intros Hrec D T dt d' sd stopped disk1.
  unfold_py. rewrite Hrec. py_cbn. rewrite D. py_cbn. rewrite T. py_cbn.
  fold dt. 
  change (with_metadata (with_duration dt (with_end_time (strftime_now h) (metadata d)))
            (with_metadata (with_end_time (strftime_now h) (metadata d)) d))
    with d'.
  change (os_path_join (recording_dir (metadata d)) "recording_data.json")
    with (data_file d).
  destruct (io_error h (data_file d) || os_path_isdir (disk st) (data_file d)) eqn:E1;
    py_cbn; [left; auto|right].
  change (os_path_join (recording_dir (metadata d)) "recording_summary.json")
    with (summary_file d).
  unfold sd, summary_of.
  destruct (Qeq_bool dt 0) eqn:Z; py_cbn; fold disk1;
    (destruct (io_error h (summary_file d) || os_path_isdir disk1 (summary_file d))
       eqn:E2; py_cbn; [left|right]);
    (split; [reflexivity|]); (split; [reflexivity|]);
    rewrite <- ?app_assoc; reflexivity.
Qed.

Lemma stop_recording_degenerate h st :
  is_recording (self st) = true ->
  recording_data (self st) = None \/ recording_start_time (self st) = None ->
  exists e st',
    stop_recording h st = (Return (StopFailed e), st') /\
    disk st' = disk st /\ written st' = written st.
Proof.
  intros R H. unfold_py. rewrite R. py_cbn.
  destruct (recording_data (self st)) as [d|] eqn:D; py_cbn.
  - destruct H as [H|H]; [discriminate|]. rewrite H. py_cbn. eauto.
  - eauto.
Qed.

Lemma stop_recording_idle h st :
  is_recording (self st) = false ->
  stop_recording h st = (Return NotRecording, st).
Proof.
  intro H. unfold stop_recording, bind, get_self, ret. rewrite H. reflexivity.
Qed.

Lemma start_recording_flag_set n h st r st' :
  is_recording (self st) = false ->
  start_recording n h st = (r, st') ->
  is_recording (self st') = true ->
  r = Return (Started (name_or_timestamp n (strftime_now h))
                (os_path_join (recording_path (self st))
                   (name_or_timestamp n (strftime_now h)))) /\
  current_recording_id (self st')
  = Some (name_or_timestamp n (strftime_now h)).
Proof.
  intros Hidle Hs Hrec.
  destruct (start_recording_cases n h st)
    as [[R E]|[(R & _ & E)|[(R & _ & e & _ & E)|(R & _ & url & _ & E)]]];
    rewrite E in Hs; inversion Hs; subst; clear Hs; cbn in Hrec; try congruence.
  split; reflexivity.
Qed.

Lemma get_recordings_returns h st :
  exists out, get_recordings h st = (Return out, st).
Proof.
  unfold get_recordings, try_except, bind, get_self, os_listdir, ret.
  destruct (io_error h _ || negb (os_path_isdir (disk st) _)); [eauto|].
  destruct (visit_items _ _ [] h st) as [[l|e] st1] eqn:V;
    apply visit_items_collects in V; destruct V as [-> _]; [|eauto].
  destruct (sorted_by_recording_id_reverse_spec l h st) as (o & Es & _).
  rewrite Es. destruct o; eauto.
Qed.

(** The listing is sorted and holds all summaries or none. *)
Lemma get_recordings_listing h st :
  exists out,
    get_recordings h st = (Return out, st) /\
    StronglySorted desc out /\
    (out = [] \/
     Permutation
       (collect (disk st) (recording_path (self st))
          (children (recording_path (self st)) (disk st)))
       out).
Proof.
  assert (Hnil : exists out : list Doc,
            (Return out, st) = (Return ([] : list Doc), st) /\
            StronglySorted desc out /\
            (out = [] \/
             Permutation
               (collect (disk st) (recording_path (self st))
                  (children (recording_path (self st)) (disk st)))
               out)).
  { exists []. split; [reflexivity|]. split; [constructor | auto]. }
  unfold get_recordings, try_except, bind, get_self, os_listdir, ret.
  destruct (io_error h _ || negb (os_path_isdir (disk st) _));
    [destruct Hnil as (out & E & H); exists out; split; [congruence | exact H]|].
  destruct (visit_items _ _ [] h st) as [[l|e] st1] eqn:V;
    apply visit_items_collects in V; destruct V as [-> V];
    [|destruct Hnil as (out & E & H); exists out; split; [congruence | exact H]].
  specialize (V l eq_refl). cbn [app] in V.
  destruct (sorted_by_recording_id_reverse_spec l h st) as (o & Es & Hs).
  rewrite Es. destruct o as [out|e];
    [|destruct Hnil as (out & E & H); exists out; split; [congruence | exact H]].
  destruct (Hs out eq_refl) as [S P]. exists out. split; [reflexivity|].
  split; [exact S|]. right. rewrite <- V. exact P.
Qed.

Lemma get_recording_status_store h st :
  snd (get_recording_status h st) = st.
Proof.
  unfold_py. destruct (is_recording (self st)); py_cbn; [|reflexivity].
  destruct (recording_start_time (self st)); reflexivity.
Qed.

Lemma loop_iteration_idle fc h st :
  is_recording (self st) = false ->
  loop_iteration fc h st = (Return (Finished FlagCleared), st).
Proof.
  intro H. unfold loop_iteration, bind, get_self, ret. rewrite H. reflexivity.
Qed.

(** The store after one pass of the sampler: untouched, or as the stop
    or the capture pass it called left it. *)
Lemma loop_iteration_store fc h st :
  snd (loop_iteration fc h st) = st \/
  (is_recording (self st) = true /\
   snd (loop_iteration fc h st) = snd (stop_recording h st)) \/
  (is_recording (self st) = true /\
   snd (loop_iteration fc h st) = snd (_capture_frame_data h st)).
Proof.
  unfold loop_iteration, elapsed_since_start, int_floordiv, int_mod, when,
    try_except, bind, ret, raise, get_self, time_time_now.
  destruct (is_recording (self st)); loop_cbn; [|auto].
  destruct (recording_start_time (self st)) as [t0|]; loop_cbn; [|auto].
  destruct (float_gt _ _); loop_cbn.
  - right; left. split; [reflexivity|].
    destruct (stop_recording h st) as [[r|e] st']; reflexivity.
  - destruct (_ =? 0)%Z; loop_cbn; [auto|].
    destruct (_ =? 0)%Z; loop_cbn; [auto|].
    destruct (_ =? 0)%Z; loop_cbn; [|auto].
    right; right. split; [reflexivity|].
    destruct (_capture_frame_data h st) as [[u|e] st']; reflexivity.
Qed.

Lemma loop_iteration_below_cap fc h st t0 :
  is_recording (self st) = true ->
  recording_start_time (self st) = Some t0 ->
  float_gt (time_time h - t0)
    (max_recording_duration (recording_config (self st))) = false ->
  cadence_ok st ->
  loop_iteration fc h st
  = (Return (Sleeping (fc + 1)),
     if (fc mod (60 / capture_frequency (recording_config (self st))) =? 0)%Z
     then snd (_capture_frame_data h st) else st).
Proof.
  intros Hrec Ht0 Hcap [Hf Hp].
  unfold loop_iteration, elapsed_since_start, int_floordiv, int_mod, when,
    try_except, bind, ret, raise, get_self, time_time_now.
  rewrite Hrec. loop_cbn. rewrite Ht0. loop_cbn. rewrite Hcap.
  apply Z.eqb_neq in Hf, Hp. loop_cbn. rewrite Hf. loop_cbn. rewrite Hp. loop_cbn.
  destruct (fc mod _ =? 0)%Z; loop_cbn.
  - destruct (capture_frame_data_returns h st) as (st' & E & S).
    rewrite E. reflexivity.
  - reflexivity.
Qed.

(** ** Invariants of interleavings *)

Lemma act_store a h st :
  snd (act a h st) = st \/
  (exists n, snd (act a h st) = snd (start_recording n h st)) \/
  snd (act a h st) = snd (stop_recording h st) \/
  (is_recording (self st) = true /\
   snd (act a h st) = snd (_capture_frame_data h st)).
Proof.
  destruct a as [n| |fc| |]; unfold act, bind, ret.
  - right; left. exists n. destruct (start_recording n h st) as [[r|e] st']; reflexivity.
  - right; right; left. destruct (stop_recording h st) as [[r|e] st']; reflexivity.
  - destruct (loop_iteration_store fc h st) as [E|[[R E]|[R E]]];
      destruct (loop_iteration fc h st) as [[r|e] st']; cbn [snd] in *; auto.
  - left. pose proof (get_recording_status_store h st) as E.
    destruct (get_recording_status h st) as [[r|e] st']; exact E.
  - left. destruct (get_recordings_returns h st) as [out E]. rewrite E. reflexivity.
Qed.

(** What [start_recording], [stop_recording] and a capture pass of an
    active session preserve, every interleaving preserves. *)
Lemma run_actions_invariant (P : Store -> Prop) :
  (forall n h st, P st -> P (snd (start_recording n h st))) ->
  (forall h st, P st -> P (snd (stop_recording h st))) ->
  (forall h st, P st -> is_recording (self st) = true ->
                P (snd (_capture_frame_data h st))) ->
  forall acts st, P st -> P (run_actions acts st).
Proof.
  intros Hstart Hstop Hcap.
  induction acts as [|[a h] acts IH]; intros st H; cbn [run_actions].
  - exact H.
  - apply IH.
    destruct (act_store a h st) as [E|[[n E]|[E|[R E]]]]; rewrite E; auto.
Qed.

Lemma run_actions_fixed acts st :
  recording_path (self (run_actions acts st)) = recording_path (self st) /\
  recording_config (self (run_actions acts st)) = recording_config (self st).
Proof.
  apply (run_actions_invariant
           (fun x => recording_path (self x) = recording_path (self st) /\
                     recording_config (self x) = recording_config (self st))).
  - intros n h x [P C].
    destruct (start_recording_cases n h x)
      as [[R E]|[(R & _ & E)|[(R & _ & e & _ & E)|(R & _ & url & _ & E)]]];
      rewrite E; cbn; auto.
  - intros h x [P C].
    destruct (stop_recording_keeps h x _ _ (surjective_pairing _)) as (C' & _).
    split; [|congruence].
    destruct (is_recording (self x)) eqn:R.
    + revert P. unfold_py. rewrite R. py_cbn. py_cases; cbn; auto.
    + unfold stop_recording, bind, get_self, ret. rewrite R. exact P.
  - intros h x [P C] _.
    destruct (capture_frame_data_returns h x) as (x' & E & S).
    rewrite E. destruct S as (_ & _ & S3 & _ & S5 & _). cbn [snd]. split; congruence.
  - auto.
Qed.

(** Short of a start, nothing changes the store of an idle manager. *)
Lemma run_actions_idle acts : forall st,
  is_recording (self st) = false ->
  forallb (fun ah => negb (is_start (fst ah))) acts = true ->
  run_actions acts st = st.
Proof.
  induction acts as [|[a h] acts IH]; intros st Hidle Hno; cbn [run_actions];
    [reflexivity|].
  cbn [forallb fst] in Hno. apply andb_true_iff in Hno. destruct Hno as [Ha Hrest].
  assert (E : snd (act a h st) = st).
  { destruct a as [n| |fc| |]; unfold act, bind, ret.
    - discriminate.
    - rewrite (stop_recording_idle h st Hidle). reflexivity.
    - rewrite (loop_iteration_idle fc h st Hidle). reflexivity.
    - pose proof (get_recording_status_store h st) as S.
      destruct (get_recording_status h st) as [[r|e] st']; exact S.
    - destruct (get_recordings_returns h st) as [out E]. rewrite E. reflexivity. }
  rewrite E. apply IH; assumption.
Qed.

Lemma session_ok_idle st : is_recording (self st) = false -> session_ok st.
Proof. intros H R. congruence. Qed.

Lemma start_recording_session_ok n h st :
  session_ok st -> session_ok (snd (start_recording n h st)).
Proof.
  intro H.
  destruct (start_recording_cases n h st)
    as [[R E]|[(R & _ & E)|[(R & _ & e & _ & E)|(R & _ & url & _ & E)]]];
    rewrite E; cbn [snd].
  - exact H.
  - apply session_ok_idle. exact R.
  - apply session_ok_idle. exact R.
  - intros _. do 3 eexists. cbn [self disk recording_start_time recording_data
      current_recording_id recording_path].
    repeat (split; [reflexivity|]).
    intros p Hp. cbn [fresh_data metadata recording_dir] in Hp.
    unfold os_path_isdir. rewrite fs_lookup_put_dirs.
    replace (existsb _ _) with true; [reflexivity|].
    symmetry. apply existsb_exists. exists p. split; [exact Hp|].
    apply String.eqb_refl.
Qed.

Lemma stop_recording_session_ok h st : session_ok (snd (stop_recording h st)).
Proof.
  destruct (stop_recording_returns h st) as (r & st' & E & F & _).
  rewrite E. apply session_ok_idle. exact F.
Qed.

Lemma capture_frame_data_session_ok h st :
  session_ok st -> session_ok (snd (_capture_frame_data h st)).
Proof.
  intros H.
  destruct (recording_data (self st)) as [d|] eqn:D.
  - destruct (capture_frame_data_spec h st d D) as (st' & E & S & K).
    rewrite E. cbn [snd]. destruct S as (S1 & S2 & S3 & S4 & S5 & S6 & _).
    intro R. rewrite S1 in R.
    destruct (H R) as (t0 & d0 & id & A & B & C & I & J & Dk).
    rewrite D in B. inversion B; subst d0.
    destruct (timeline_current_time h) as [t|];
      [|subst st'; exists t0, d, id; auto 10].
    destruct (timeline_is_playing h) as [b|];
      [|subst st'; exists t0, d, id; auto 10].
    destruct K as (px & rx & sx & K).
    rewrite S2, S4, S5, K. do 3 eexists.
    split; [eassumption|]. split; [reflexivity|]. cbn.
    split; [exact C|]. split; [exact I|]. split; [exact J|].
    rewrite S6. exact Dk.
  - rewrite (capture_frame_data_idle h st D). exact H.
Qed.

Lemma run_actions_session_ok acts st :
  session_ok st -> session_ok (run_actions acts st).
Proof.
  apply run_actions_invariant.
  - intros. apply start_recording_session_ok. assumption.
  - intros. apply stop_recording_session_ok.
  - intros. apply capture_frame_data_session_ok. assumption.
Qed.

(** The files of a stop that saves a session whose attributes hang
    together. *)
Lemma stop_recording_files h st i f1 f2 sd st' :
  session_ok st ->
  stop_recording h st = (Return (Stopped i f1 f2 sd), st') ->
  exists d t0,
    recording_data (self st) = Some d /\
    recording_start_time (self st) = Some t0 /\
    i = Some (recording_id d) /\
    f1 = os_path_join (os_path_join (recording_path (self st)) (recording_id d))
           "recording_data.json" /\
    f2 = os_path_join (os_path_join (recording_path (self st)) (recording_id d))
           "recording_summary.json" /\
    fs_lookup (disk st') f1
    = Some (File (RecordingDoc
                    (final_data (strftime_now h) (time_time h - t0) d))) /\
    fs_lookup (disk st') f2 = Some (File (SummaryDoc sd)) /\
    is_recording (self st') = false /\
    recording_path (self st') = recording_path (self st).
Proof.
  intros Hok Hstop.
  destruct (is_recording (self st)) eqn:R.
  - destruct (Hok R) as (t0 & d & id & A & B & C & I & J & _).
    exists d, t0. split; [exact B|]. split; [exact A|].
    destruct (stop_recording_cases h st d t0 R B A)
      as [(_ & E)|[(_ & _ & E)|(_ & _ & E)]];
      rewrite E in Hstop; inversion Hstop; subst; clear Hstop.
    pose proof (data_file_neq_summary_file d) as N.
    unfold data_file, summary_file in *. rewrite J in *. rewrite C.
    repeat (split; [reflexivity|]).
    cbn [disk self].
    split.
    { rewrite !fs_lookup_put, String.eqb_refl.
      match goal with
      | |- context [String.eqb ?a ?b] =>
          destruct (String.eqb_spec a b) as [F|_]; [|reflexivity]
      end.
      symmetry in F. destruct (N F). }
    split; [rewrite fs_lookup_put, String.eqb_refl; reflexivity|].
    split; reflexivity.
  - unfold stop_recording, bind, get_self, ret in Hstop. rewrite R in Hstop.
    discriminate.
Qed.

Lemma storage_grows_refl st : storage_grows st st.
Proof.
  exists []. rewrite app_nil_r. split; [reflexivity|].
  split; [intros p []|]. split; auto.
Qed.

Lemma storage_grows_trans a b c :
  storage_grows a b -> storage_grows b c -> storage_grows a c.
Proof.
  intros (l1 & W1 & S1 & D1 & F1) (l2 & W2 & S2 & D2 & F2).
  exists (l1 ++ l2)%list. split; [rewrite W2, W1, app_assoc; reflexivity|].
  split.
  { intros p Hp. apply in_app_or in Hp. destruct Hp; auto. }
  split; [auto|].
  intros p Hp. destruct (F1 p Hp) as [Hb Eb]. destruct (F2 p Hb) as [Hc Ec].
  split; [exact Hc|].
  intro N. rewrite Ec, Eb; [reflexivity| |]; intro; apply N, in_or_app; auto.
Qed.

Lemma storage_grows_same st st' :
  disk st' = disk st -> written st' = written st -> storage_grows st st'.
Proof.
  intros D W. exists []. rewrite app_nil_r, D. split; [exact W|].
  split; [intros p []|]. split; auto.
Qed.

Lemma storage_grows_makedirs st st' chain :
  existsb (is_file (disk st)) chain = false ->
  disk st' = put_dirs (disk st) chain -> written st' = written st ->
  storage_grows st st'.
Proof.
  intros Hno D W. exists []. rewrite app_nil_r, D. split; [exact W|].
  split; [intros p []|].
  split.
  - intros p Hp. unfold os_path_isdir in *. rewrite fs_lookup_put_dirs.
    destruct (existsb (fun d => String.eqb d p) chain); [reflexivity | exact Hp].
  - intros p Hp.
    assert (E : existsb (fun d => String.eqb d p) chain = false).
    { destruct (existsb (fun d => String.eqb d p) chain) eqn:E; [|reflexivity].
      apply existsb_exists in E. destruct E as (x & Hx & Ex).
      apply String.eqb_eq in Ex. subst x.
      assert (existsb (is_file (disk st)) chain = true)
        by (apply existsb_exists; eauto).
      congruence. }
    unfold is_file in *. rewrite fs_lookup_put_dirs, E. auto.
Qed.

Lemma storage_grows_dump (fs : FS) (w : list string) m st' path doc :
  os_path_isdir fs path = false -> session_file path ->
  disk st' = fs_put fs path (File doc) -> written st' = (w ++ [path])%list ->
  storage_grows {| self := m; disk := fs; written := w |} st'.
Proof.
  intros Hno Hs D W. exists [path]. cbn [disk written]. rewrite D.
  split; [exact W|].
  split; [intros p [<-|[]]; exact Hs|].
  split.
  - intros p Hp. unfold os_path_isdir in *. rewrite fs_lookup_put.
    destruct (String.eqb_spec path p) as [->|_]; [congruence | exact Hp].
  - intros p Hp. unfold is_file in *. rewrite fs_lookup_put.
    destruct (String.eqb_spec path p) as [->|N]; [|auto].
    split; [reflexivity|]. intro H. exfalso. apply H. left. reflexivity.
Qed.

Lemma stop_recording_storage h st :
  storage_grows st (snd (stop_recording h st)).
Proof.
  destruct (is_recording (self st)) eqn:R.
  - destruct (recording_data (self st)) as [d|] eqn:D.
    + destruct (recording_start_time (self st)) as [t0|] eqn:T.
      * destruct (stop_recording_cases h st d t0 R D T)
          as [(_ & E)|[(H1 & _ & E)|(H1 & H2 & E)]];
          rewrite E; cbn [snd].
        -- apply storage_grows_same; reflexivity.
        -- apply orb_false_iff in H1. destruct H1 as [_ H1].
           destruct st as [m fs w]. cbn [disk written self] in *.
           eapply storage_grows_dump; try reflexivity; [exact H1|].
           exists (recording_dir (metadata d)). left. reflexivity.
        -- apply orb_false_iff in H1. destruct H1 as [_ H1].
           apply orb_false_iff in H2. destruct H2 as [_ H2].
           destruct st as [m fs w]. cbn [disk written self] in *.
           eapply storage_grows_trans.
           ++ eapply (storage_grows_dump fs w m
                        {| self := m; disk := _; written := _ |});
                try reflexivity; [exact H1|].
              exists (recording_dir (metadata d)). left. reflexivity.
           ++ eapply storage_grows_dump; try reflexivity; [exact H2| |].
              ** exists (recording_dir (metadata d)). right. reflexivity.
              ** cbn [written]. rewrite <- app_assoc. reflexivity.
      * destruct (stop_recording_degenerate h st R (or_intror T))
          as (e & st' & E & Dk & W).
        rewrite E. apply storage_grows_same; assumption.
    + destruct (stop_recording_degenerate h st R (or_introl D))
        as (e & st' & E & Dk & W).
      rewrite E. apply storage_grows_same; assumption.
  - unfold stop_recording, bind, get_self, ret. rewrite R.
    apply storage_grows_refl.
Qed.

Lemma start_recording_storage n h st :
  storage_grows st (snd (start_recording n h st)).
Proof.
  destruct (start_recording_cases n h st)
    as [[R E]|[(R & _ & E)|[(R & H & e & _ & E)|(R & H & url & _ & E)]]];
    rewrite E; cbn [snd].
  - apply storage_grows_refl.
  - apply storage_grows_same; reflexivity.
  - apply orb_false_iff in H. destruct H as [_ H].
    eapply storage_grows_makedirs; [exact H | reflexivity | reflexivity].
  - apply orb_false_iff in H. destruct H as [_ H].
    eapply storage_grows_makedirs; [exact H | reflexivity | reflexivity].
Qed.

Lemma capture_frame_data_storage h st :
  storage_grows st (snd (_capture_frame_data h st)).
Proof.
  destruct (capture_frame_data_returns h st) as (st' & E & S).
  rewrite E. destruct S as (_ & _ & _ & _ & _ & D & W).
  apply storage_grows_same; assumption.
Qed.

Lemma run_actions_storage acts st : storage_grows st (run_actions acts st).
Proof.
  apply (run_actions_invariant (storage_grows st)).
  - intros. eapply storage_grows_trans; [eassumption | apply start_recording_storage].
  - intros. eapply storage_grows_trans; [eassumption | apply stop_recording_storage].
  - intros. eapply storage_grows_trans; [eassumption | apply capture_frame_data_storage].
  - apply storage_grows_refl.
Qed.

Lemma buffers_ok_same st st' :
  recording_data (self st') = recording_data (self st) ->
  recording_config (self st') = recording_config (self st) ->
  buffers_ok st -> buffers_ok st'.
Proof.
  unfold buffers_ok, lockstep, frames_numbered, timeline_buffer, physics_buffer,
    robot_buffer, sensor_buffer.
  intros -> ->. auto.
Qed.

Lemma buffers_ok_empty st :
  timeline_buffer st = [] -> physics_buffer st = [] ->
  robot_buffer st = [] -> sensor_buffer st = [] -> buffers_ok st.
Proof.
  unfold buffers_ok, lockstep, frames_numbered. intros -> -> -> ->. cbn.
  split.
  - destruct (capture_physics_data _), (capture_robot_data _),
      (capture_sensor_data _); auto.
  - intros [|i] x; discriminate.
Qed.

Lemma start_recording_buffers_ok n h st :
  buffers_ok st -> buffers_ok (snd (start_recording n h st)).
Proof.
  intro H.
  destruct (start_recording_cases n h st)
    as [[R E]|[(R & _ & E)|[(R & _ & e & _ & E)|(R & _ & url & _ & E)]]];
    rewrite E; cbn [snd].
  - exact H.
  - eapply buffers_ok_same; [| |exact H]; reflexivity.
  - eapply buffers_ok_same; [| |exact H]; reflexivity.
  - apply buffers_ok_empty; reflexivity.
Qed.

Lemma stop_recording_buffers_ok h st :
  buffers_ok st -> buffers_ok (snd (stop_recording h st)).
Proof.
  destruct (stop_recording_keeps h st _ _ (surjective_pairing _))
    as (C & T & P & R & S).
  unfold buffers_ok, lockstep, frames_numbered. rewrite C, T, P, R, S. auto.
Qed.

Lemma capture_frame_data_buffers_ok h st :
  buffers_ok st -> buffers_ok (snd (_capture_frame_data h st)).
Proof.
  intro H.
  destruct (recording_data (self st)) as [d|] eqn:D;
    [|rewrite (capture_frame_data_idle h st D); exact H].
  destruct (capture_frame_data_spec h st d D) as (st' & E & S & K).
  rewrite E. cbn [snd]. destruct S as (_ & _ & S3 & _).
  destruct (timeline_current_time h) as [t|]; [|subst st'; exact H].
  destruct (timeline_is_playing h) as [b|]; [|subst st'; exact H].
  destruct K as (px & rx & sx & K).
  destruct H as [(Lp & Lr & Ls) F].
  unfold buffers_ok, lockstep, frames_numbered, timeline_buffer, physics_buffer,
    robot_buffer, sensor_buffer in *.
  rewrite S3, K. rewrite D in *. cbn [buffer_or_empty timeline_data physics_data
    robot_data sensor_data] in *.
  split.
  - rewrite !length_app. cbn [List.length].
    destruct (capture_physics_data _), (capture_robot_data _),
      (capture_sensor_data _); rewrite ?length_app; cbn [List.length]; lia.
  - intros i x Hx.
    destruct (Nat.lt_ge_cases i (List.length (timeline_data d))) as [Hi|Hi].
    + rewrite nth_error_app1 in Hx by exact Hi. auto.
    + rewrite nth_error_app2 in Hx by exact Hi.
      destruct (i - List.length (timeline_data d))%nat as [|k] eqn:Ei.
      * cbn in Hx. inversion Hx; subst x. cbn. lia.
      * destruct k; discriminate.
Qed.

Lemma run_actions_buffers_ok acts st :
  buffers_ok st -> buffers_ok (run_actions acts st).
Proof.
  apply run_actions_invariant.
  - intros. apply start_recording_buffers_ok. assumption.
  - intros. apply stop_recording_buffers_ok. assumption.
  - intros. apply capture_frame_data_buffers_ok. assumption.
Qed.

(** ** The cadence of the capture passes *)

Lemma ceil_div_step (p k : Z) :
  (0 < p)%Z ->
  ((k + 1 + p - 1) / p = (k + p - 1) / p + (if (k mod p =? 0)%Z then 1 else 0))%Z.
Proof.
  intro Hp.
  pose proof (Z.div_mod k p ltac:(lia)) as E.
  pose proof (Z.mod_pos_bound k p Hp) as B.
  set (q := (k / p)%Z) in *. set (r := (k mod p)%Z) in *.
  destruct (Z.eqb_spec r 0) as [Z0|NZ].
  - replace (k + 1 + p - 1)%Z with ((q + 1) * p + 0)%Z by nia.
    replace (k + p - 1)%Z with (q * p + (p - 1))%Z by nia.
    rewrite !Z.div_add_l by lia.
    rewrite Z.div_0_l by lia. rewrite Z.div_small by lia. lia.
  - replace (k + 1 + p - 1)%Z with ((q + 1) * p + r)%Z by nia.
    replace (k + p - 1)%Z with ((q + 1) * p + (r - 1))%Z by nia.
    rewrite !Z.div_add_l by lia.
    rewrite !Z.div_small by lia. lia.
Qed.

Lemma run_loop_sample_count ticks : forall fc st t0 d,
  is_recording (self st) = true ->
  recording_start_time (self st) = Some t0 ->
  recording_data (self st) = Some d ->
  (capture_frequency (recording_config (self st)) <> 0)%Z ->
  (0 < 60 / capture_frequency (recording_config (self st)))%Z ->
  Forall (fun h =>
            float_gt (time_time h - t0)
              (max_recording_duration (recording_config (self st))) = false
            /\ timeline_answers h) ticks ->
  exists st' d',
    run_loop ticks fc st = (Sleeping (fc + Z.of_nat (List.length ticks)), st') /\
    same_session st st' /\
    recording_data (self st') = Some d' /\
    (Z.of_nat (List.length (timeline_data d'))
     = Z.of_nat (List.length (timeline_data d))
       + (fc + Z.of_nat (List.length ticks)
          + 60 / capture_frequency (recording_config (self st)) - 1)
         / (60 / capture_frequency (recording_config (self st)))
       - (fc + 60 / capture_frequency (recording_config (self st)) - 1)
         / (60 / capture_frequency (recording_config (self st))))%Z.
Proof.
  induction ticks as [|h ticks IH]; intros fc st t0 d Hrec Ht0 Hd Hf Hp Hall.
  - exists st, d. cbn [run_loop List.length]. rewrite Z.add_0_r.
    split; [reflexivity|]. split; [apply same_session_refl|].
    split; [exact Hd | lia].
  - inversion Hall as [|? ? [Hcap (t & b & Ht & Hb)] Hrest]; subst.
    assert (Hok : cadence_ok st) by (split; [exact Hf | lia]).
    cbn [run_loop].
    rewrite (loop_iteration_below_cap fc h st t0 Hrec Ht0 Hcap Hok).
    pose proof (ceil_div_step _ fc Hp) as Hstep.
    destruct (capture_frame_data_spec h st d Hd) as (st1 & E1 & S1 & K).
    rewrite Ht, Hb in K. destruct K as (px & rx & sx & K).
    assert (Hlen : forall n : nat, (fc + 1 + Z.of_nat n = fc + Z.of_nat (Datatypes.S n))%Z)
      by (intro; lia).
    destruct (fc mod _ =? 0)%Z.
    + rewrite E1. cbn [snd].
      pose proof S1 as (R1 & T1 & C1 & _).
      assert (IH1 := IH (fc + 1)%Z st1 t0 _ ltac:(congruence) ltac:(congruence) K).
      rewrite C1 in IH1. specialize (IH1 Hf Hp Hrest).
      destruct IH1 as (st' & d' & E & S & D' & N).
      exists st', d'. rewrite Hlen in E, N.
      split; [exact E|].
      split; [eapply same_session_trans; eauto|].
      split; [exact D'|].
      rewrite N. cbn [timeline_data]. rewrite length_app.
      cbn [List.length]. rewrite Hstep.
      generalize ((fc + Z.of_nat (Datatypes.S (List.length ticks))
                   + 60 / capture_frequency (recording_config (self st)) - 1)
                  / (60 / capture_frequency (recording_config (self st))))%Z.
      generalize ((fc + 60 / capture_frequency (recording_config (self st)) - 1)
                  / (60 / capture_frequency (recording_config (self st))))%Z.
      intros. lia.
    + destruct (IH (fc + 1)%Z st t0 d Hrec Ht0 Hd Hf Hp Hrest)
        as (st' & d' & E & S & D' & N).
      exists st', d'. rewrite Hlen in E, N.
      split; [exact E|].
      split; [exact S|]. split; [exact D'|].
      rewrite N. rewrite Hstep. cbn [List.length]. rewrite Z.add_0_r. reflexivity.
Qed.

(** ** The panel *)

Lemma refresh_recordings_list_keeps h p st :
  exists rows, _refresh_recordings_list h (p, st) = (with_rows rows p, st).
Proof.
  unfold _refresh_recordings_list.
  destruct (get_recordings_returns h st) as [out E]. rewrite E. eauto.
Qed.

Lemma handle_stuck e h ui :
  stuck ui -> starts_a_session e = false ->
  stuck (handle e h ui) /\
  recording_status_text (fst (handle e h ui)) = recording_status_text (fst ui) /\
  snd (handle e h ui) = snd ui.
Proof.
  destruct ui as [p st]. intros (Hidle & Hs & Ht) He. cbn [fst snd] in *.
  destruct e; try discriminate; cbn [handle fst snd].
  - unfold _stop_recording. rewrite (stop_recording_idle h st Hidle).
    unfold stuck. cbn. auto.
  - unfold _analyze_recording.
    destruct (get_recordings_returns h st) as [[|x out] E]; rewrite E;
      unfold stuck; cbn; auto.
  - unfold stuck. cbn. auto.
  - unfold _auto_stop_and_analyze. rewrite Hidle. unfold stuck. cbn. auto.
  - rewrite (loop_iteration_idle frame_count h st Hidle). unfold stuck. cbn. auto.
  - unfold on_shutdown. rewrite Hidle. unfold stuck. cbn. auto.
Qed.

Lemma run_events_stuck events : forall ui,
  stuck ui ->
  forallb (fun eh => negb (starts_a_session (fst eh))) events = true ->
  stuck (run_events events ui) /\
  recording_status_text (fst (run_events events ui))
    = recording_status_text (fst ui) /\
  snd (run_events events ui) = snd ui.
Proof.
  induction events as [|[e h] events IH]; intros ui Hs Hno; cbn [run_events].
  - auto.
  - cbn [forallb fst] in Hno. apply andb_true_iff in Hno. destruct Hno as [He Hrest].
    apply negb_true_iff in He.
    destruct (handle_stuck e h ui Hs He) as (S1 & T1 & E1).
    destruct (IH _ S1 Hrest) as (S2 & T2 & E2).
    split; [exact S2|]. split; congruence.
Qed.

Lemma handle_buttons e h ui :
  buttons_cover_the_session ui -> buttons_cover_the_session (handle e h ui).
Proof.
  destruct ui as [p st]. unfold buttons_cover_the_session. cbn [fst snd].
  intros [Hc Ha].
  destruct e; cbn [handle fst snd].
  - unfold _start_recording.
    destruct (start_recording_returns (name_or_none (recording_name_value p)) h st)
      as (r & st' & E & F).
    rewrite E. destruct r; cbn in *; rewrite ?F; auto.
  - unfold _stop_recording.
    destruct (stop_recording_returns h st) as (r & st' & E & F & _).
    rewrite E. destruct r as [i f1 f2 sd| |e].
    + destruct (refresh_recordings_list_keeps h
                  (_add_chat_message "System"
                     ("⏹️ " ++ stop_message (Stopped i f1 f2 sd))
                     (with_status "Not recording" true false p)) st')
        as [rows R].
      rewrite R. cbn. split; [reflexivity|]. congruence.
    + cbn. split; [exact Hc|]. congruence.
    + cbn. split; [exact Hc|]. congruence.
  - unfold _record_and_analyze.
    destruct (is_recording (self st)) eqn:R; [cbn; auto|].
    destruct (start_recording_returns (Some "auto_analysis") h st)
      as (r & st' & E & F).
    rewrite E. destruct r; cbn in *; rewrite ?F, ?R; auto.
    all: split; [exact Hc | congruence].
  - unfold _analyze_recording.
    destruct (get_recordings_returns h st) as [[|x out] E]; rewrite E; cbn; auto.
  - auto.
  - unfold _auto_stop_and_analyze.
    destruct (is_recording (self st)) eqn:R;
      [|cbn; split; [exact Hc | intro; congruence]].
    destruct (stop_recording_returns h st) as (r & st' & E & F & _).
    rewrite E. destruct r.
    + destruct (refresh_recordings_list_keeps h
                  (with_status "Not recording" true false p) st') as [rows Rw].
      rewrite Rw. cbn. split; [reflexivity|]. congruence.
    + cbn. split; [exact Hc|]. congruence.
    + cbn. split; [exact Hc|]. congruence.
  - destruct (loop_iteration_store frame_count h st) as [E|[[R E]|[R E]]];
      rewrite E.
    + auto.
    + destruct (stop_recording_returns h st) as (r & st' & E' & F & _).
      rewrite E'. cbn. split; [exact Hc|]. congruence.
    + destruct (capture_frame_data_returns h st) as (st' & E' & S).
      rewrite E'. cbn. destruct S as (S1 & _). split; [exact Hc|].
      rewrite S1. exact Ha.
  - unfold on_shutdown. destruct (is_recording (self st)) eqn:R.
    + destruct (stop_recording_returns h st) as (r & st' & E & F & _).
      rewrite E. cbn. split; [exact Hc|]. congruence.
    + cbn. split; [exact Hc|]. congruence.
Qed.

(** ** X1: the status query in reachable states *)

(** X1: from an idle manager, after any interleaving of [start_recording],
    [stop_recording], [get_recording_status], [get_recordings] and
    sampler wake-ups, [get_recording_status] returns without raising and
    without changing anything; it reports the flag and the identifier as
    they are, and as duration the time since the start of the session
    when one is active, 0 otherwise.  (The subtraction from
    [recording_start_time] never meets [None].) *)
Theorem status_is_total_on_reachable_states acts st0 h :
  is_recording (self st0) = false ->
  exists s,
    get_recording_status h (run_actions acts st0)
      = (Return s, run_actions acts st0) /\
    st_is_recording s = is_recording (self (run_actions acts st0)) /\
    st_recording_id s = current_recording_id (self (run_actions acts st0)) /\
    (if st_is_recording s
     then exists t0,
            recording_start_time (self (run_actions acts st0)) = Some t0 /\
            st_duration s = (time_time h - t0)%Q
     else st_duration s = 0%Q).
Proof.
  intro Hidle.
  pose proof (run_actions_session_ok acts st0 (session_ok_idle st0 Hidle)) as Hok.
  set (st := run_actions acts st0) in *.
  unfold get_recording_status, elapsed_since_start, bind, ret, raise, get_self,
    time_time_now.
  destruct (is_recording (self st)) eqn:R.
  - destruct (Hok R) as (t0 & d & id & A & _).
    rewrite A. eexists. split; [reflexivity|]. cbn. eauto.
  - eexists. split; [reflexivity|]. cbn. auto.
Qed.

Lemma status_is_total_on_reachable_states_witness :
  exists s,
    get_recording_status (healthy_host 1) (run_actions demo_trace fresh_store)
      = (Return s, run_actions demo_trace fresh_store) /\
    st_is_recording s = is_recording (self (run_actions demo_trace fresh_store)) /\
    st_recording_id s
      = current_recording_id (self (run_actions demo_trace fresh_store)) /\
    (if st_is_recording s
     then exists t0,
            recording_start_time (self (run_actions demo_trace fresh_store))
              = Some t0 /\
            st_duration s = (time_time (healthy_host 1) - t0)%Q
     else st_duration s = 0%Q).
Proof.
  apply (status_is_total_on_reachable_states demo_trace fresh_store
           (healthy_host 1)).
  reflexivity.
Defined.

(** ** X2: a stop that cannot save *)

(** X2: in a state reached from an idle manager, [stop_recording] fails
    only on storage: on the data file, with nothing written, or on the
    summary file, with the data file written and the summary file as it
    was.  Either way the flag is cleared while the identifier and the
    start time are not reset and the buffers stay in memory, and every
    later [stop_recording] answers "Not recording": the session can no
    longer be saved by stopping again. *)
Theorem failed_stop_loses_the_session acts st0 h e st' :
  is_recording (self st0) = false ->
  stop_recording h (run_actions acts st0) = (Return (StopFailed e), st') ->
  exists d t0,
    recording_data (self (run_actions acts st0)) = Some d /\
    recording_start_time (self (run_actions acts st0)) = Some t0 /\
    ((e = OSError (data_file d) /\
      disk st' = disk (run_actions acts st0) /\
      written st' = written (run_actions acts st0)) \/
     (e = OSError (summary_file d) /\
      written st' = (written (run_actions acts st0) ++ [data_file d])%list /\
      fs_lookup (disk st') (data_file d)
        = Some (File (RecordingDoc
                        (final_data (strftime_now h) (time_time h - t0) d))) /\
      fs_lookup (disk st') (summary_file d)
        = fs_lookup (disk (run_actions acts st0)) (summary_file d))) /\
    is_recording (self st') = false /\
    current_recording_id (self st')
      = current_recording_id (self (run_actions acts st0)) /\
    recording_start_time (self st') = Some t0 /\
    timeline_buffer st' = timeline_data d /\
    physics_buffer st' = physics_data d /\
    robot_buffer st' = robot_data d /\
    sensor_buffer st' = sensor_data d /\
    forall h', stop_recording h' st' = (Return NotRecording, st').
Proof.
  intros Hidle Hstop.
  pose proof (run_actions_session_ok acts st0 (session_ok_idle st0 Hidle)) as Hok.
  set (st := run_actions acts st0) in *.
  destruct (is_recording (self st)) eqn:R.
  - destruct (Hok R) as (t0 & d & id & A & B & C & I & J).
    exists d, t0. split; [exact B|]. split; [exact A|].
    assert (Hnot : forall st1, is_recording (self st1) = false ->
              forall h', stop_recording h' st1 = (Return NotRecording, st1)).
    { intros st1 F h'. unfold stop_recording, bind, get_self, ret.
      rewrite F. reflexivity. }
    destruct (stop_recording_cases h st d t0 R B A)
      as [(_ & E)|[(_ & _ & E)|(_ & _ & E)]];
      rewrite E in Hstop; inversion Hstop; subst; clear Hstop.
    + split; [left; auto|].
      unfold timeline_buffer, physics_buffer, robot_buffer, sensor_buffer.
      cbn -[stop_recording]. rewrite A. repeat (split; [reflexivity|]).
      apply Hnot. reflexivity.
    + split.
      * right. cbn [disk written]. repeat (split; [reflexivity|]).
        rewrite !fs_lookup_put, String.eqb_refl. split; [reflexivity|].
        destruct (String.eqb_spec (data_file d) (summary_file d)) as [F|_];
          [destruct (data_file_neq_summary_file d F) | reflexivity].
      * unfold timeline_buffer, physics_buffer, robot_buffer, sensor_buffer.
        cbn -[stop_recording]. rewrite A. repeat (split; [reflexivity|]).
        apply Hnot. reflexivity.
  - unfold stop_recording, bind, get_self, ret in Hstop. rewrite R in Hstop.
    discriminate.
Qed.

Lemma failed_stop_loses_the_session_witness :
  exists d t0,
    recording_data (self (run_actions demo_trace fresh_store)) = Some d /\
    recording_start_time (self (run_actions demo_trace fresh_store)) = Some t0 /\
    ((OSError "/tmp/isaac_sim_recordings/demo/recording_data.json"
        = OSError (data_file d) /\
      disk (snd demo_failed_stop) = disk (run_actions demo_trace fresh_store) /\
      written (snd demo_failed_stop)
        = written (run_actions demo_trace fresh_store)) \/
     (OSError "/tmp/isaac_sim_recordings/demo/recording_data.json"
        = OSError (summary_file d) /\
      written (snd demo_failed_stop)
        = (written (run_actions demo_trace fresh_store) ++ [data_file d])%list /\
      fs_lookup (disk (snd demo_failed_stop)) (data_file d)
        = Some (File (RecordingDoc
                        (final_data (strftime_now (read_only_host (4 # 60)))
                           (time_time (read_only_host (4 # 60)) - t0) d))) /\
      fs_lookup (disk (snd demo_failed_stop)) (summary_file d)
        = fs_lookup (disk (run_actions demo_trace fresh_store))
            (summary_file d))) /\
    is_recording (self (snd demo_failed_stop)) = false /\
    current_recording_id (self (snd demo_failed_stop))
      = current_recording_id (self (run_actions demo_trace fresh_store)) /\
    recording_start_time (self (snd demo_failed_stop)) = Some t0 /\
    timeline_buffer (snd demo_failed_stop) = timeline_data d /\
    physics_buffer (snd demo_failed_stop) = physics_data d /\
    robot_buffer (snd demo_failed_stop) = robot_data d /\
    sensor_buffer (snd demo_failed_stop) = sensor_data d /\
    forall h',
      stop_recording h' (snd demo_failed_stop)
      = (Return NotRecording, snd demo_failed_stop).
Proof.
  apply (failed_stop_loses_the_session demo_trace fresh_store
           (read_only_host (4 # 60))
           (OSError "/tmp/isaac_sim_recordings/demo/recording_data.json")
           (snd demo_failed_stop)).
  - reflexivity.
  - vm_compute. reflexivity.
Defined.

(** ** X3 and X4: what happens to storage *)

(** X3: no interleaving of calls and wake-ups removes an entry of the
    storage or changes its kind: a path that is a directory stays a
    directory and a path that is a file stays a file. *)
Theorem storage_entries_are_never_lost acts st p :
  (os_path_isdir (disk st) p = true ->
   os_path_isdir (disk (run_actions acts st)) p = true) /\
  (is_file (disk st) p = true ->
   is_file (disk (run_actions acts st)) p = true).
Proof.
  destruct (run_actions_storage acts st) as (l & _ & _ & D & F).
  split; [apply D|]. intro H. apply (F p H).
Qed.

(** X4: over any interleaving of calls and wake-ups the manager opens
    for writing only paths of the form [<dir>/recording_data.json] and
    [<dir>/recording_summary.json], and every other file keeps its
    content. *)
Theorem only_session_files_are_written acts st :
  exists l,
    written (run_actions acts st) = (written st ++ l)%list /\
    (forall p, In p l ->
       exists dir, p = os_path_join dir "recording_data.json"
                   \/ p = os_path_join dir "recording_summary.json") /\
    (forall p, is_file (disk st) p = true -> ~ In p l ->
       fs_lookup (disk (run_actions acts st)) p = fs_lookup (disk st) p).
Proof.
  destruct (run_actions_storage acts st) as (l & W & S & _ & F).
  exists l. split; [exact W|]. split; [exact S|].
  intros p Hp N. apply (F p Hp). exact N.
Qed.

(** ** X5 and X6: the shape of the buffers *)

(** X5: on a manager whose session dictionary was empty to begin with,
    after any interleaving of calls and wake-ups the physics, robot and
    sensor buffers each hold exactly one entry per timeline sample when
    their category is switched on and none when it is off; so every
    summary that a stop then produces counts, per category, either
    [frame_count] events or 0. *)
Theorem enabled_categories_follow_the_timeline acts st0 :
  recording_data (self st0) = None ->
  (List.length (physics_buffer (run_actions acts st0))
   = (if capture_physics_data (recording_config (self st0))
      then List.length (timeline_buffer (run_actions acts st0)) else 0%nat) /\
   List.length (robot_buffer (run_actions acts st0))
   = (if capture_robot_data (recording_config (self st0))
      then List.length (timeline_buffer (run_actions acts st0)) else 0%nat) /\
   List.length (sensor_buffer (run_actions acts st0))
   = (if capture_sensor_data (recording_config (self st0))
      then List.length (timeline_buffer (run_actions acts st0)) else 0%nat)) /\
  forall h i f1 f2 s st',
    stop_recording h (run_actions acts st0)
      = (Return (Stopped i f1 f2 (SummaryOf s)), st') ->
    sum_physics_events s
    = (if capture_physics_data (recording_config (self st0))
       then sum_frame_count s else 0%nat) /\
    sum_robot_events s
    = (if capture_robot_data (recording_config (self st0))
       then sum_frame_count s else 0%nat) /\
    sum_sensor_events s
    = (if capture_sensor_data (recording_config (self st0))
       then sum_frame_count s else 0%nat).
Proof.
  intro D0.
  assert (H0 : buffers_ok st0).
  { apply buffers_ok_empty;
      unfold timeline_buffer, physics_buffer, robot_buffer, sensor_buffer;
      rewrite D0; reflexivity. }
  destruct (run_actions_buffers_ok acts st0 H0) as [L _].
  destruct (run_actions_fixed acts st0) as [_ C].
  unfold lockstep in L. rewrite C in L. split; [exact L|].
  intros h i f1 f2 s st' Hs.
  apply stop_recording_saved in Hs.
  destruct Hs as (d & t0 & Hd & _ & _ & _ & _ & _ & _ & _ & _ & _ & Hsum).
  destruct (Qeq_bool _ _); [discriminate|].
  destruct Hsum as (s' & Es & F & P & R & S). inversion Es; subst s'.
  unfold timeline_buffer, physics_buffer, robot_buffer, sensor_buffer in L.
  rewrite Hd in L. cbn [buffer_or_empty] in L.
  rewrite F, P, R, S. exact L.
Qed.

Lemma enabled_categories_follow_the_timeline_witness :
  (List.length (physics_buffer (run_actions demo_trace fresh_store))
   = (if capture_physics_data (recording_config (self fresh_store))
      then List.length (timeline_buffer (run_actions demo_trace fresh_store))
      else 0%nat) /\
   List.length (robot_buffer (run_actions demo_trace fresh_store))
   = (if capture_robot_data (recording_config (self fresh_store))
      then List.length (timeline_buffer (run_actions demo_trace fresh_store))
      else 0%nat) /\
   List.length (sensor_buffer (run_actions demo_trace fresh_store))
   = (if capture_sensor_data (recording_config (self fresh_store))
      then List.length (timeline_buffer (run_actions demo_trace fresh_store))
      else 0%nat)) /\
  forall h i f1 f2 s st',
    stop_recording h (run_actions demo_trace fresh_store)
      = (Return (Stopped i f1 f2 (SummaryOf s)), st') ->
    sum_physics_events s
    = (if capture_physics_data (recording_config (self fresh_store))
       then sum_frame_count s else 0%nat) /\
    sum_robot_events s
    = (if capture_robot_data (recording_config (self fresh_store))
       then sum_frame_count s else 0%nat) /\
    sum_sensor_events s
    = (if capture_sensor_data (recording_config (self fresh_store))
       then sum_frame_count s else 0%nat).
Proof.
  apply (enabled_categories_follow_the_timeline demo_trace fresh_store).
  reflexivity.
Defined.

(** X6: on a manager whose session dictionary was empty to begin with,
    after any interleaving of calls and wake-ups the [frame_count]
    stored in a timeline sample is the index of that sample in the
    timeline buffer. *)
Theorem timeline_samples_are_numbered acts st0 i x :
  recording_data (self st0) = None ->
  nth_error (timeline_buffer (run_actions acts st0)) i = Some x ->
  tl_frame_count x = i.
Proof.
  intros D0.
  assert (H0 : buffers_ok st0).
  { apply buffers_ok_empty;
      unfold timeline_buffer, physics_buffer, robot_buffer, sensor_buffer;
      rewrite D0; reflexivity. }
  destruct (run_actions_buffers_ok acts st0 H0) as [_ F]. apply F.
Qed.

Lemma timeline_samples_are_numbered_witness :
  nth_error (timeline_buffer (run_actions demo_trace fresh_store)) 1
    = Some {| tl_timestamp := 3 # 60;
              tl_simulation_time := 3 # 60;
              tl_is_playing := true;
              tl_frame_count := 1 |} /\
  tl_frame_count {| tl_timestamp := 3 # 60;
                    tl_simulation_time := 3 # 60;
                    tl_is_playing := true;
                    tl_frame_count := 1 |} = 1%nat.
Proof.
  split; [vm_compute; reflexivity|].
  apply (timeline_samples_are_numbered demo_trace fresh_store 1
           {| tl_timestamp := 3 # 60;
              tl_simulation_time := 3 # 60;
              tl_is_playing := true;
              tl_frame_count := 1 |}).
  - reflexivity.
  - vm_compute. reflexivity.
Defined.

(** ** X7: how many capture passes a session sees *)

(** X7: for a capture frequency between 1 and 60, a session whose
    sampler has woken up [n] times within the duration cap, with the
    timeline answering, holds the ceiling of [n / (60 // capture_frequency)]
    timeline samples: a pass at every [60 // capture_frequency]-th
    wake-up, beginning with the first.  The count depends on the
    frequency only through [60 // capture_frequency]. *)
Theorem capture_passes_follow_floor_cadence name h0 st id dir st1 ticks :
  start_recording name h0 st = (Return (Started id dir), st1) ->
  (1 <= capture_frequency (recording_config (self st)) <= 60)%Z ->
  Forall (fun h =>
            (time_time h - time_time h0
             <= max_recording_duration (recording_config (self st)))%Q
            /\ timeline_answers h) ticks ->
  exists st2,
    _recording_loop ticks st1 = (Sleeping (Z.of_nat (List.length ticks)), st2) /\
    is_recording (self st2) = true /\
    Z.of_nat (List.length (timeline_buffer st2))
    = ((Z.of_nat (List.length ticks)
        + 60 / capture_frequency (recording_config (self st)) - 1)
       / (60 / capture_frequency (recording_config (self st))))%Z.
Proof.
  intros Hs Hf Hall.
  assert (Hp : (0 < 60 / capture_frequency (recording_config (self st)))%Z)
    by (apply Z.div_str_pos; lia).
  destruct (start_recording_cases name h0 st)
    as [[R E]|[(R & _ & E)|[(R & _ & e & _ & E)|(R & _ & url & _ & E)]]];
    rewrite E in Hs; inversion Hs; subst; clear Hs.
  match goal with
  | |- context [_recording_loop ticks ?s] => set (st1 := s)
  end.
  destruct (run_loop_sample_count ticks 0 st1 (time_time h0)
              (fresh_data (name_or_timestamp name (strftime_now h0))
                 (strftime_now h0)
                 (os_path_join (recording_path (self st))
                    (name_or_timestamp name (strftime_now h0))) url))
    as (st2 & d2 & E2 & S2 & D2 & N); try reflexivity.
  - cbn. lia.
  - exact Hp.
  - eapply Forall_impl; [|exact Hall]. cbn. intros h [Hc Ha].
    split; [apply float_gt_false, Hc | exact Ha].
  - exists st2. unfold _recording_loop. rewrite E2, Z.add_0_l.
    split; [reflexivity|].
    destruct S2 as (S21 & _). split; [rewrite S21; reflexivity|].
    unfold timeline_buffer. rewrite D2. cbn [buffer_or_empty].
    rewrite N.
    change (recording_config (self st1)) with (recording_config (self st)).
    cbn [fresh_data timeline_data List.length].
    revert Hp.
    generalize (60 / capture_frequency (recording_config (self st)))%Z.
    intros p Hp. rewrite (Z.div_small (0 + p - 1) p) by lia.
    change (Z.of_nat 0) with 0%Z. rewrite !Z.add_0_l, Z.sub_0_r. reflexivity.
Qed.

Lemma capture_passes_follow_floor_cadence_witness :
  exists st2,
    _recording_loop (cadence healthy_host 0 1 7) (started_store default_config)
      = (Sleeping (Z.of_nat (List.length (cadence healthy_host 0 1 7))), st2) /\
    is_recording (self st2) = true /\
    Z.of_nat (List.length (timeline_buffer st2))
    = ((Z.of_nat (List.length (cadence healthy_host 0 1 7))
        + 60 / capture_frequency
                 (recording_config (self (with_config default_config fresh_store)))
        - 1)
       / (60 / capture_frequency
                 (recording_config (self (with_config default_config fresh_store)))))%Z.
Proof.
  apply (capture_passes_follow_floor_cadence (Some "demo") (healthy_host 0)
           (with_config default_config fresh_store)
           "demo" "/tmp/isaac_sim_recordings/demo"
           (started_store default_config) (cadence healthy_host 0 1 7)).
  - vm_compute. reflexivity.
  - vm_compute. split; discriminate.
  - cbn [cadence].
    repeat (apply Forall_cons;
            [split; [vm_compute; discriminate
                    | do 2 eexists; split; reflexivity]|]).
    apply Forall_nil.
Defined.

(** ** X8 to X10: what a successful stop leaves behind *)

(** X8: a stop that succeeds in a state reached from an idle manager
    returns the identifier of the session and the two paths
    [<root>/<id>/recording_data.json] and
    [<root>/<id>/recording_summary.json]; afterwards the first holds the
    session dictionary with the end stamp and the duration in its
    metadata and the second holds the very summary that was returned,
    whatever the two paths held before; the summary is the empty
    dictionary when the duration is zero, and otherwise holds the
    identifier, the duration, the length of each of the four buffers and
    the simulation times of the first and the last timeline sample; the
    manager is idle with identifier and start time reset. *)
Theorem stopped_session_round_trip acts st0 h i f1 f2 sd st' :
  is_recording (self st0) = false ->
  stop_recording h (run_actions acts st0) = (Return (Stopped i f1 f2 sd), st') ->
  exists d t0,
    recording_data (self (run_actions acts st0)) = Some d /\
    recording_start_time (self (run_actions acts st0)) = Some t0 /\
    i = Some (recording_id d) /\
    f1 = os_path_join
           (os_path_join (recording_path (self st0)) (recording_id d))
           "recording_data.json" /\
    f2 = os_path_join
           (os_path_join (recording_path (self st0)) (recording_id d))
           "recording_summary.json" /\
    fs_lookup (disk st') f1
    = Some (File (RecordingDoc
                    (final_data (strftime_now h) (time_time h - t0) d))) /\
    fs_lookup (disk st') f2 = Some (File (SummaryDoc sd)) /\
    ((time_time h - t0 == 0)%Q /\ sd = EmptyDict \/
     ~ (time_time h - t0 == 0)%Q /\
     exists s,
       sd = SummaryOf s /\
       sum_recording_id s = Some (recording_id d) /\
       sum_duration s = (time_time h - t0)%Q /\
       sum_frame_count s = List.length (timeline_data d) /\
       sum_physics_events s = List.length (physics_data d) /\
       sum_robot_events s = List.length (robot_data d) /\
       sum_sensor_events s = List.length (sensor_data d) /\
       sum_simulation_start s = first_simulation_time (timeline_data d) /\
       sum_simulation_end s = last_simulation_time (timeline_data d)) /\
    is_recording (self st') = false /\
    current_recording_id (self st') = None /\
    recording_start_time (self st') = None.
Proof.
  intros Hidle Hstop.
  pose proof (run_actions_session_ok acts st0 (session_ok_idle st0 Hidle)) as Hok.
  destruct (run_actions_fixed acts st0) as [Hpath _].
  set (st := run_actions acts st0) in *.
  destruct (is_recording (self st)) eqn:R.
  - destruct (Hok R) as (t0 & d & id & A & B & C & I & J & _).
    exists d, t0. split; [exact B|]. split; [exact A|].
    destruct (stop_recording_cases h st d t0 R B A)
      as [(_ & E)|[(_ & _ & E)|(_ & _ & E)]];
      rewrite E in Hstop; inversion Hstop; subst; clear Hstop.
    pose proof (data_file_neq_summary_file d) as N.
    unfold data_file, summary_file in *. rewrite J, Hpath in *. rewrite C.
    repeat (split; [reflexivity|]).
    cbn [disk self].
    split.
    { rewrite !fs_lookup_put, String.eqb_refl.
      match goal with
      | |- context [String.eqb ?a ?b] =>
          destruct (String.eqb_spec a b) as [F|_]; [|reflexivity]
      end.
      symmetry in F. destruct (N F). }
    split.
    { rewrite fs_lookup_put, String.eqb_refl. reflexivity. }
    split; [|cbn; auto].
    unfold summary_of.
    destruct (Qeq_bool (time_time h - t0) 0) eqn:Z.
    + left. split; [apply Qeq_bool_eq; exact Z | reflexivity].
    + right. split; [apply Qeq_bool_neq; exact Z|].
      eexists. split; [reflexivity|]. cbn. auto 10.
  - unfold stop_recording, bind, get_self, ret in Hstop. rewrite R in Hstop.
    discriminate.
Qed.

Lemma stopped_session_round_trip_witness :
  exists d t0,
    recording_data (self (run_actions demo_trace fresh_store)) = Some d /\
    recording_start_time (self (run_actions demo_trace fresh_store)) = Some t0 /\
    Some "demo" = Some (recording_id d) /\
    "/tmp/isaac_sim_recordings/demo/recording_data.json"
    = os_path_join
        (os_path_join (recording_path (self fresh_store)) (recording_id d))
        "recording_data.json" /\
    "/tmp/isaac_sim_recordings/demo/recording_summary.json"
    = os_path_join
        (os_path_join (recording_path (self fresh_store)) (recording_id d))
        "recording_summary.json" /\
    fs_lookup (disk (snd demo_stop))
      "/tmp/isaac_sim_recordings/demo/recording_data.json"
    = Some (File (RecordingDoc
                    (final_data (strftime_now (healthy_host (4 # 60)))
                       (time_time (healthy_host (4 # 60)) - t0) d))) /\
    fs_lookup (disk (snd demo_stop))
      "/tmp/isaac_sim_recordings/demo/recording_summary.json"
    = Some (File (SummaryDoc demo_stop_summary)) /\
    ((time_time (healthy_host (4 # 60)) - t0 == 0)%Q /\
     demo_stop_summary = EmptyDict \/
     ~ (time_time (healthy_host (4 # 60)) - t0 == 0)%Q /\
     exists s,
       demo_stop_summary = SummaryOf s /\
       sum_recording_id s = Some (recording_id d) /\
       sum_duration s = (time_time (healthy_host (4 # 60)) - t0)%Q /\
       sum_frame_count s = List.length (timeline_data d) /\
       sum_physics_events s = List.length (physics_data d) /\
       sum_robot_events s = List.length (robot_data d) /\
       sum_sensor_events s = List.length (sensor_data d) /\
       sum_simulation_start s = first_simulation_time (timeline_data d) /\
       sum_simulation_end s = last_simulation_time (timeline_data d)) /\
    is_recording (self (snd demo_stop)) = false /\
    current_recording_id (self (snd demo_stop)) = None /\
    recording_start_time (self (snd demo_stop)) = None.
Proof.
  apply (stopped_session_round_trip demo_trace fresh_store
           (healthy_host (4 # 60)) (Some "demo")
           "/tmp/isaac_sim_recordings/demo/recording_data.json"
           "/tmp/isaac_sim_recordings/demo/recording_summary.json"
           demo_stop_summary (snd demo_stop)).
  - reflexivity.
  - vm_compute. reflexivity.
Defined.

(** X9: when a stop has saved a session whose identifier is a plain name
    (one path component: not empty, no separator in it, and neither [.]
    nor [..]), then, as long as no session is started, after any further
    stops, sampler wake-ups, status queries and listings
    [get_recordings] either contains the summary that the stop returned
    or is the empty list (which is what the listing returns when it
    failed as a whole). *)
Theorem saved_session_is_listed acts st0 h id f1 f2 sd st' acts' h' :
  is_recording (self st0) = false ->
  recording_path (self st0) <> "" ->
  stop_recording h (run_actions acts st0)
    = (Return (Stopped (Some id) f1 f2 sd), st') ->
  plain_name id = true ->
  forallb (fun ah => negb (is_start (fst ah))) acts' = true ->
  run_actions acts' st' = st' /\
  exists out,
    get_recordings h' (run_actions acts' st') = (Return out, st') /\
    (out = [] \/ In (SummaryDoc sd) out).
Proof.
  intros Hidle Hroot Hstop Hplain Hno.
  assert (Hidle' : is_recording (self st') = false).
  { destruct (stop_recording_returns h (run_actions acts st0))
      as (r & st1 & E & F & _).
    rewrite Hstop in E. injection E as _ <-. exact F. }
  rewrite (run_actions_idle acts' st' Hidle' Hno).
  split; [reflexivity|]. clear Hidle' Hno.
  pose proof (run_actions_session_ok acts st0 (session_ok_idle st0 Hidle)) as Hok.
  destruct (run_actions_fixed acts st0) as [Hpath _].
  set (st := run_actions acts st0) in *.
  unfold plain_name in Hplain. rewrite !andb_true_iff, !negb_true_iff in Hplain.
  destruct Hplain as [[[He Hs] _] _].
  destruct (get_recordings_listing h' st') as (out & E & _ & [->|P]);
    [eauto|].
  exists out. split; [exact E|]. right.
  apply (Permutation_in _ P). clear E P out.
  destruct (is_recording (self st)) eqn:R;
    [|unfold stop_recording, bind, get_self, ret in Hstop; rewrite R in Hstop;
      discriminate].
  destruct (Hok R) as (t0 & d & id' & A & B & C & I & J & Dk).
  destruct (stop_recording_cases h st d t0 R B A)
    as [(_ & E)|[(_ & _ & E)|(H1 & H2 & E)]];
    rewrite E in Hstop; inversion Hstop; subst; clear Hstop E.
  assert (Eid : recording_id d = id) by congruence. rewrite Eid in *. clear C.
  apply orb_false_iff in H1, H2. destruct H1 as [_ H1]. destruct H2 as [_ H2].
  cbn [self disk recording_path with_recording_start_time
       with_current_recording_id with_recording_data with_is_recording].
  set (root := recording_path (self st)) in *.
  set (dir := os_path_join root id) in *.
  set (fs' := fs_put _ (summary_file d) _).
  assert (Hdir : os_path_isdir (disk st) dir = true).
  { apply Dk. rewrite J. apply join_plain_in_chain; assumption. }
  assert (Hdir' : os_path_isdir fs' dir = true).
  { unfold fs', os_path_isdir in *. rewrite !fs_lookup_put.
    destruct (String.eqb_spec (summary_file d) dir) as [F|_].
    - rewrite F in H2. unfold os_path_isdir in H2. rewrite fs_lookup_put in H2.
      destruct (String.eqb_spec (data_file d) dir) as [G|_].
      + destruct (data_file_neq_summary_file d). congruence.
      + rewrite H2 in Hdir. discriminate.
    - destruct (String.eqb_spec (data_file d) dir) as [G|_]; [|exact Hdir].
      rewrite G in H1. unfold os_path_isdir in H1. rewrite H1 in Hdir.
      discriminate. }
  unfold collect. apply in_flat_map. exists id. split.
  - unfold os_path_isdir in Hdir'.
    destruct (fs_lookup fs' dir) as [n|] eqn:L; [|discriminate].
    apply (children_lookup root fs' dir n id L).
    unfold dir. rewrite Hpath. apply child_name_join; assumption.
  - unfold persisted_summary. fold dir. rewrite Hdir'.
    replace (os_path_join dir "recording_summary.json") with (summary_file d)
      by (unfold summary_file; rewrite J; reflexivity).
    unfold fs'. rewrite fs_lookup_put, String.eqb_refl. left. reflexivity.
Qed.

Lemma saved_session_is_listed_witness :
  run_actions idle_trace (snd demo_stop) = snd demo_stop /\
  exists out,
    get_recordings (healthy_host 5) (run_actions idle_trace (snd demo_stop))
      = (Return out, snd demo_stop) /\
    (out = [] \/ In (SummaryDoc demo_stop_summary) out).
Proof.
  apply (saved_session_is_listed demo_trace fresh_store
           (healthy_host (4 # 60)) "demo"
           "/tmp/isaac_sim_recordings/demo/recording_data.json"
           "/tmp/isaac_sim_recordings/demo/recording_summary.json"
           demo_stop_summary (snd demo_stop) idle_trace (healthy_host 5)).
  - reflexivity.
  - vm_compute. discriminate.
  - vm_compute. reflexivity.
  - reflexivity.
  - reflexivity.
Defined.

(** X10: two sessions with the same identifier (the same name, or no
    name and the same second) are saved to the same two paths: the stop
    of the later one replaces the data and the summary of the earlier
    one by its own. *)
Theorem sessions_of_one_identifier_share_their_files
  acts1 acts2 st0 h1 h2 id f1 f2 sd1 st1 g1 g2 sd2 st2 :
  is_recording (self st0) = false ->
  stop_recording h1 (run_actions acts1 st0)
    = (Return (Stopped (Some id) f1 f2 sd1), st1) ->
  stop_recording h2 (run_actions acts2 st1)
    = (Return (Stopped (Some id) g1 g2 sd2), st2) ->
  g1 = f1 /\ g2 = f2 /\
  fs_lookup (disk st1) f2 = Some (File (SummaryDoc sd1)) /\
  fs_lookup (disk st2) f2 = Some (File (SummaryDoc sd2)) /\
  (exists d1,
     fs_lookup (disk st1) f1 = Some (File (RecordingDoc d1)) /\
     timeline_data d1 = timeline_buffer st1) /\
  (exists d2,
     fs_lookup (disk st2) f1 = Some (File (RecordingDoc d2)) /\
     timeline_data d2 = timeline_buffer st2).
Proof.
  intros Hidle H1 H2.
  pose proof (run_actions_session_ok acts1 st0 (session_ok_idle st0 Hidle)) as Ok1.
  pose proof H1 as K1.
  apply (stop_recording_files _ _ _ _ _ _ _ Ok1) in K1.
  destruct K1 as (d1 & t1 & D1 & _ & I1 & F1 & F2 & L1 & L2 & R1 & P1).
  pose proof (run_actions_session_ok acts2 st1 (session_ok_idle st1 R1)) as Ok2.
  pose proof H2 as K2.
  apply (stop_recording_files _ _ _ _ _ _ _ Ok2) in K2.
  destruct K2 as (d2 & t2 & D2 & _ & I2 & G1 & G2 & M1 & M2 & R2 & P2).
  destruct (run_actions_fixed acts2 st1) as [Q2 _].
  injection I1 as J1. injection I2 as J2.
  assert (Eg1 : g1 = f1) by (rewrite G1, F1, Q2, P1, <- J1, <- J2; reflexivity).
  assert (Eg2 : g2 = f2) by (rewrite G2, F2, Q2, P1, <- J1, <- J2; reflexivity).
  split; [exact Eg1|]. split; [exact Eg2|]. split; [exact L2|].
  split; [rewrite <- Eg2; exact M2|].
  apply stop_recording_saved in H1, H2.
  destruct H1 as (d1' & _ & D1' & _ & _ & _ & _ & _ & T1 & _).
  destruct H2 as (d2' & _ & D2' & _ & _ & _ & _ & _ & T2 & _).
  rewrite D1 in D1'. injection D1' as <-.
  rewrite D2 in D2'. injection D2' as <-.
  split.
  - eexists. split; [exact L1|]. rewrite T1. reflexivity.
  - eexists. split; [rewrite <- Eg1; exact M1|]. rewrite T2. reflexivity.
Qed.

Lemma sessions_of_one_identifier_share_their_files_witness :
  "/tmp/isaac_sim_recordings/demo/recording_data.json"
  = "/tmp/isaac_sim_recordings/demo/recording_data.json" /\
  "/tmp/isaac_sim_recordings/demo/recording_summary.json"
  = "/tmp/isaac_sim_recordings/demo/recording_summary.json" /\
  fs_lookup (disk (snd demo_stop))
    "/tmp/isaac_sim_recordings/demo/recording_summary.json"
  = Some (File (SummaryDoc demo_stop_summary)) /\
  fs_lookup (disk (snd second_stop))
    "/tmp/isaac_sim_recordings/demo/recording_summary.json"
  = Some (File (SummaryDoc second_stop_summary)) /\
  (exists d1,
     fs_lookup (disk (snd demo_stop))
       "/tmp/isaac_sim_recordings/demo/recording_data.json"
     = Some (File (RecordingDoc d1)) /\
     timeline_data d1 = timeline_buffer (snd demo_stop)) /\
  (exists d2,
     fs_lookup (disk (snd second_stop))
       "/tmp/isaac_sim_recordings/demo/recording_data.json"
     = Some (File (RecordingDoc d2)) /\
     timeline_data d2 = timeline_buffer (snd second_stop)).
Proof.
  apply (sessions_of_one_identifier_share_their_files demo_trace second_trace
           fresh_store (healthy_host (4 # 60)) (healthy_host 2) "demo"
           "/tmp/isaac_sim_recordings/demo/recording_data.json"
           "/tmp/isaac_sim_recordings/demo/recording_summary.json"
           demo_stop_summary (snd demo_stop)
           "/tmp/isaac_sim_recordings/demo/recording_data.json"
           "/tmp/isaac_sim_recordings/demo/recording_summary.json"
           second_stop_summary (snd second_stop)).
  - reflexivity.
  - vm_compute. reflexivity.
  - vm_compute. reflexivity.
Defined.

(** ** X11 and X12: when the listing is complete and when it is empty *)

(** X11: when the root can be listed, every summary file under it can be
    loaded and every summary has a string identifier, [get_recordings]
    returns exactly the summaries of all session directories, in
    descending order of their identifiers, summaries of one identifier in
    the order of the directory listing. *)
Theorem readable_listing_is_complete (h : Host) (st : Store) :
  listing_readable h st ->
  forallb key_is_str
    (collect (disk st) (recording_path (self st))
       (children (recording_path (self st)) (disk st))) = true ->
  get_recordings h st
  = (Return
       (sort_desc
          (collect (disk st) (recording_path (self st))
             (children (recording_path (self st)) (disk st)))), st).
Proof.
  intros (Hio & Hdir & Hall) Hkeys.
  unfold get_recordings, try_except, bind, get_self, os_listdir, ret.
  rewrite Hio, Hdir. cbn [negb orb].
  rewrite (visit_items_readable _ _ [] h st Hall). cbn [app].
  unfold sorted_by_recording_id_reverse, ret.
  destruct (collect _ _ _) as [|a [|b l]]; try reflexivity.
  rewrite Hkeys. reflexivity.
Qed.

Lemma readable_listing_is_complete_witness :
  get_recordings (healthy_host 0) (listing_store (File (demo_summary "run_b")))
  = (Return
       (sort_desc
          (collect (disk (listing_store (File (demo_summary "run_b"))))
             (recording_path (self (listing_store (File (demo_summary "run_b")))))
             (children
                (recording_path
                   (self (listing_store (File (demo_summary "run_b")))))
                (disk (listing_store (File (demo_summary "run_b"))))))),
     listing_store (File (demo_summary "run_b"))).
Proof.
  apply (readable_listing_is_complete (healthy_host 0)
           (listing_store (File (demo_summary "run_b")))).
  - split; [reflexivity|]. split; [reflexivity|].
    intros item Hin. vm_compute in Hin.
    destruct Hin as [<-|[<-|[<-|[]]]]; vm_compute; reflexivity.
  - vm_compute. reflexivity.
Defined.

(** X12: one session directory whose summary file cannot be loaded (not
    JSON, a directory in its place, storage refusing it) makes
    [get_recordings] return the empty list: every other recording is
    hidden with it. *)
Theorem unreadable_summary_hides_every_recording (h : Host) (st : Store)
  (item : string) :
  In item (children (recording_path (self st)) (disk st)) ->
  summary_unreadable h (disk st) (recording_path (self st)) item = true ->
  get_recordings h st = (Return [], st).
Proof.
  intros Hin Hbad.
  unfold get_recordings, try_except, bind, get_self, os_listdir, ret.
  destruct (io_error h _ || negb (os_path_isdir (disk st) _)); [reflexivity|].
  destruct (visit_items_unreadable _ _ [] h st item Hin Hbad) as [e E].
  rewrite E. reflexivity.
Qed.

Lemma unreadable_summary_hides_every_recording_witness :
  get_recordings (healthy_host 0) (listing_store Corrupt)
  = (Return [], listing_store Corrupt).
Proof.
  apply (unreadable_summary_hides_every_recording (healthy_host 0)
           (listing_store Corrupt) "run_b").
  - vm_compute. right. left. reflexivity.
  - vm_compute. reflexivity.
Defined.

(** ** X13: an idle manager *)

(** X13: on an idle manager, any sequence of [stop_recording],
    [get_recording_status], [get_recordings] and sampler wake-ups leaves
    the whole store (attributes, buffers, storage) exactly as it was, and
    every wake-up of a sampler task ends that task: after a stop, only a
    start changes anything. *)
Theorem idle_manager_is_inert acts st :
  is_recording (self st) = false ->
  forallb (fun ah => negb (is_start (fst ah))) acts = true ->
  run_actions acts st = st /\
  forall fc h, loop_iteration fc h st = (Return (Finished FlagCleared), st).
Proof.
  intros Hidle Hno.
  assert (Hloop : forall fc h,
            loop_iteration fc h st = (Return (Finished FlagCleared), st)).
  { intros fc h. unfold loop_iteration, bind, get_self, ret. rewrite Hidle.
    reflexivity. }
  split; [|exact Hloop].
  induction acts as [|[a h] acts IH]; cbn [run_actions]; [reflexivity|].
  cbn [forallb fst] in Hno. apply andb_true_iff in Hno. destruct Hno as [Ha Hrest].
  assert (E : snd (act a h st) = st).
  { destruct a as [n| |fc| |]; unfold act, bind, ret.
    - discriminate.
    - unfold stop_recording, bind, get_self, ret. rewrite Hidle. reflexivity.
    - rewrite Hloop. reflexivity.
    - pose proof (get_recording_status_store h st) as S.
      destruct (get_recording_status h st) as [[r|e] st']; exact S.
    - destruct (get_recordings_returns h st) as [out E]. rewrite E. reflexivity. }
  rewrite E. apply IH, Hrest.
Qed.

Lemma idle_manager_is_inert_witness :
  run_actions idle_trace (snd demo_stop) = snd demo_stop /\
  forall fc h,
    loop_iteration fc h (snd demo_stop)
    = (Return (Finished FlagCleared), snd demo_stop).
Proof.
  apply (idle_manager_is_inert idle_trace (snd demo_stop)).
  - vm_compute. reflexivity.
  - reflexivity.
Defined.

(** ** X14 and X15: what a start leaves on storage *)

(** X14: a start that succeeds with an identifier that does not end in a
    separator has created the session directory; every entry that was
    on storage is still there unchanged (also the files of an earlier
    session of the same name), a path that was free is free or a
    directory, and no file has been written. *)
Theorem start_creates_the_session_directory name h st id dir st1 :
  start_recording name h st = (Return (Started id dir), st1) ->
  endswith_sep id = false ->
  os_path_isdir (disk st1) dir = true /\
  (forall p n, fs_lookup (disk st) p = Some n -> fs_lookup (disk st1) p = Some n) /\
  (forall p, fs_lookup (disk st) p = None ->
             fs_lookup (disk st1) p = None \/ fs_lookup (disk st1) p = Some Dir) /\
  written st1 = written st.
Proof.
  intros Hs Hid.
  destruct (start_recording_cases name h st)
    as [[R E]|[(R & _ & E)|[(R & _ & e & _ & E)|(R & H & url & _ & E)]]];
    rewrite E in Hs; inversion Hs; subst; clear Hs E.
  apply orb_false_iff in H. destruct H as [_ H].
  cbn [disk written].
  set (id := name_or_timestamp name (strftime_now h)) in *.
  set (dir := os_path_join (recording_path (self st)) id) in *.
  split; [|split; [|split; [|reflexivity]]].
  - unfold os_path_isdir. rewrite fs_lookup_put_dirs.
    replace (existsb _ _) with true; [reflexivity|].
    symmetry. apply existsb_exists. exists dir. split; [|apply String.eqb_refl].
    apply session_dir_in_chain; [apply name_or_timestamp_nonempty | exact Hid].
  - intros p n Hp. rewrite fs_lookup_put_dirs.
    destruct (existsb (fun d => String.eqb d p) (dir_chain "" dir)) eqn:Ex;
      [|exact Hp].
    apply existsb_exists in Ex. destruct Ex as (x & Hx & Ex).
    apply String.eqb_eq in Ex. subst x.
    destruct n as [|doc|]; [reflexivity| |];
      (assert (existsb (is_file (disk st)) (dir_chain "" dir) = true)
         by (apply existsb_exists; exists p; split; [exact Hx|];
             unfold is_file; rewrite Hp; reflexivity);
       congruence).
  - intros p Hp. rewrite fs_lookup_put_dirs, Hp.
    destruct (existsb (fun d => String.eqb d p) (dir_chain "" dir)); auto.
Qed.

Lemma start_creates_the_session_directory_witness :
  os_path_isdir (disk (started_store default_config))
    "/tmp/isaac_sim_recordings/demo" = true /\
  (forall p n,
     fs_lookup (disk (with_config default_config fresh_store)) p = Some n ->
     fs_lookup (disk (started_store default_config)) p = Some n) /\
  (forall p,
     fs_lookup (disk (with_config default_config fresh_store)) p = None ->
     fs_lookup (disk (started_store default_config)) p = None \/
     fs_lookup (disk (started_store default_config)) p = Some Dir) /\
  written (started_store default_config)
  = written (with_config default_config fresh_store).
Proof.
  apply (start_creates_the_session_directory (Some "demo") (healthy_host 0)
           (with_config default_config fresh_store)
           "demo" "/tmp/isaac_sim_recordings/demo"
           (started_store default_config)).
  - vm_compute. reflexivity.
  - reflexivity.
Defined.

(** X15: a start fails on the session directory, leaving storage as it
    was, or on the stage URL query, which comes after the directory has
    been created: then the directory of the session that never started
    stays on storage.  Either way nothing is written and the session
    dictionary of the previous session is still in place. *)
Theorem failed_start_may_leave_a_directory name h st e st' :
  start_recording name h st = (Return (StartFailed e), st') ->
  written st' = written st /\
  recording_data (self st') = recording_data (self st) /\
  ((e = OSError (os_path_join (recording_path (self st))
                   (name_or_timestamp name (strftime_now h))) /\
    disk st' = disk st) \/
   (usd_get_stage_url h = Raise e /\
    disk st'
    = put_dirs (disk st)
        (dir_chain ""
           (os_path_join (recording_path (self st))
              (name_or_timestamp name (strftime_now h)))) /\
    (endswith_sep (name_or_timestamp name (strftime_now h)) = false ->
     os_path_isdir (disk st')
       (os_path_join (recording_path (self st))
          (name_or_timestamp name (strftime_now h))) = true))).
Proof.
  intro Hs.
  destruct (start_recording_cases name h st)
    as [[R E]|[(R & _ & E)|[(R & H & e' & U & E)|(R & H & url & _ & E)]]];
    rewrite E in Hs; inversion Hs; subst; clear Hs E; cbn [written disk self].
  - split; [reflexivity|]. split; [reflexivity|]. left. auto.
  - split; [reflexivity|]. split; [reflexivity|]. right.
    split; [exact U|]. split; [reflexivity|].
    intro Hid. unfold os_path_isdir. rewrite fs_lookup_put_dirs.
    replace (existsb _ _) with true; [reflexivity|].
    symmetry. apply existsb_exists. eexists. split; [|apply String.eqb_refl].
    apply session_dir_in_chain; [apply name_or_timestamp_nonempty | exact Hid].
Qed.

Lemma failed_start_may_leave_a_directory_witness :
  written (snd (start_recording (Some "demo") (stage_url_down_host 0) fresh_store))
  = written fresh_store /\
  recording_data
    (self (snd (start_recording (Some "demo") (stage_url_down_host 0) fresh_store)))
  = recording_data (self fresh_store) /\
  ((HostError "get_stage_url"
    = OSError (os_path_join (recording_path (self fresh_store))
                 (name_or_timestamp (Some "demo")
                    (strftime_now (stage_url_down_host 0)))) /\
    disk (snd (start_recording (Some "demo") (stage_url_down_host 0) fresh_store))
    = disk fresh_store) \/
   (usd_get_stage_url (stage_url_down_host 0) = Raise (HostError "get_stage_url") /\
    disk (snd (start_recording (Some "demo") (stage_url_down_host 0) fresh_store))
    = put_dirs (disk fresh_store)
        (dir_chain ""
           (os_path_join (recording_path (self fresh_store))
              (name_or_timestamp (Some "demo")
                 (strftime_now (stage_url_down_host 0))))) /\
    (endswith_sep
       (name_or_timestamp (Some "demo") (strftime_now (stage_url_down_host 0)))
     = false ->
     os_path_isdir
       (disk (snd (start_recording (Some "demo") (stage_url_down_host 0)
                     fresh_store)))
       (os_path_join (recording_path (self fresh_store))
          (name_or_timestamp (Some "demo")
             (strftime_now (stage_url_down_host 0)))) = true))).
Proof.
  apply (failed_start_may_leave_a_directory (Some "demo")
           (stage_url_down_host 0) fresh_store (HostError "get_stage_url")
           (snd (start_recording (Some "demo") (stage_url_down_host 0)
                   fresh_store))).
  vm_compute. reflexivity.
Defined.

(** ** X16: a sampler task that outlives its session *)

(** X16: a sampler task that is asleep when its session is stopped ends
    at its next wake-up only if no session has been started in between.
    If one has, the task finds the flag set and carries on: its wake-up
    samples into the new session like a wake-up of the task that the new
    start has scheduled, so that after one wake-up of each the new
    session holds two timeline samples. *)
Theorem stale_sampler_joins_the_next_session
  n st_a h_stop r st_b name h_start id dir st_c h1 h2 :
  stop_recording h_stop st_a = (Return r, st_b) ->
  start_recording name h_start st_b = (Return (Started id dir), st_c) ->
  (capture_frequency (recording_config (self st_c)) <> 0)%Z ->
  (60 / capture_frequency (recording_config (self st_c)) <> 0)%Z ->
  (time_time h1 - time_time h_start
   <= max_recording_duration (recording_config (self st_c)))%Q ->
  (time_time h2 - time_time h_start
   <= max_recording_duration (recording_config (self st_c)))%Q ->
  timeline_answers h1 -> timeline_answers h2 ->
  (n mod (60 / capture_frequency (recording_config (self st_c))) = 0)%Z ->
  loop_iteration n h1 st_b = (Return (Finished FlagCleared), st_b) /\
  exists st_d st_e,
    loop_iteration n h1 st_c = (Return (Sleeping (n + 1)), st_d) /\
    loop_iteration 0 h2 st_d = (Return (Sleeping 1), st_e) /\
    is_recording (self st_e) = true /\
    current_recording_id (self st_e) = Some id /\
    List.length (timeline_buffer st_c) = 0%nat /\
    List.length (timeline_buffer st_e) = 2%nat.
Proof.
  intros Hstop Hs Hf Hp Hc1 Hc2 (t1 & b1 & Ht1 & Hb1) (t2 & b2 & Ht2 & Hb2) Hn.
  split.
  { destruct (stop_recording_returns h_stop st_a) as (r' & st' & E & F & _).
    rewrite E in Hstop. inversion Hstop; subst.
    unfold loop_iteration, bind, get_self, ret. rewrite F. reflexivity. }
  clear Hstop.
  destruct (start_recording_cases name h_start st_b)
    as [[R E]|[(R & _ & E)|[(R & _ & e & _ & E)|(R & _ & url & _ & E)]]];
    rewrite E in Hs; inversion Hs; subst st_c; subst; clear Hs E.
  match goal with
  | |- context [loop_iteration n h1 ?s] => set (st_c := s) in *
  end.
  assert (Rc : is_recording (self st_c) = true) by reflexivity.
  assert (Tc : recording_start_time (self st_c) = Some (time_time h_start))
    by reflexivity.
  pose proof (loop_iteration_below_cap n h1 st_c _ Rc Tc
                (float_gt_false _ _ Hc1) (conj Hf Hp)) as L1.
  rewrite Hn in L1. cbn [Z.eqb] in L1.
  destruct (capture_frame_data_spec h1 st_c _ eq_refl) as (st_d & E1 & S1 & K1).
  rewrite Ht1, Hb1 in K1. destruct K1 as (px & rx & sx & K1).
  rewrite E1 in L1. cbn [snd] in L1. pose proof S1 as (R1 & T1 & C1 & I1 & _).
  assert (Rd : is_recording (self st_d) = true) by congruence.
  assert (Td : recording_start_time (self st_d) = Some (time_time h_start))
    by congruence.
  assert (Hok : cadence_ok st_d) by (unfold cadence_ok; rewrite C1; auto).
  assert (Hc2' : float_gt (time_time h2 - time_time h_start)
                   (max_recording_duration (recording_config (self st_d))) = false)
    by (rewrite C1; apply float_gt_false, Hc2).
  pose proof (loop_iteration_below_cap 0 h2 st_d _ Rd Td Hc2' Hok) as L2.
  rewrite Z.mod_0_l in L2 by (rewrite C1; exact Hp). cbn [Z.eqb Z.add] in L2.
  destruct (capture_frame_data_spec h2 st_d _ K1) as (st_e & E2 & S2 & K2).
  rewrite Ht2, Hb2 in K2. destruct K2 as (px2 & rx2 & sx2 & K2).
  rewrite E2 in L2. cbn [snd] in L2. pose proof S2 as (R2 & T2 & C2 & I2 & _).
  exists st_d, st_e. split; [exact L1|]. split; [exact L2|].
  split; [congruence|]. split; [rewrite I2, I1; reflexivity|].
  split; [reflexivity|].
  unfold timeline_buffer. rewrite K2. cbn. reflexivity.
Qed.

Lemma stale_sampler_joins_the_next_session_witness :
  loop_iteration 60 (healthy_host (1 + (1 # 60))) (snd restart_stop)
  = (Return (Finished FlagCleared), snd restart_stop) /\
  exists st_d st_e,
    loop_iteration 60 (healthy_host (1 + (1 # 60)))
      (snd (start_recording (Some "again") (healthy_host 1) (snd restart_stop)))
    = (Return (Sleeping (60 + 1)), st_d) /\
    loop_iteration 0 (healthy_host (1 + (1 # 60))) st_d
    = (Return (Sleeping 1), st_e) /\
    is_recording (self st_e) = true /\
    current_recording_id (self st_e) = Some "again" /\
    List.length
      (timeline_buffer
         (snd (start_recording (Some "again") (healthy_host 1)
                 (snd restart_stop)))) = 0%nat /\
    List.length (timeline_buffer st_e) = 2%nat.
Proof.
  apply (stale_sampler_joins_the_next_session 60
           (started_store default_config) (healthy_host 1)
           restart_stop_result (snd restart_stop)
           (Some "again") (healthy_host 1)
           "again" "/tmp/isaac_sim_recordings/again"
           (snd (start_recording (Some "again") (healthy_host 1)
                   (snd restart_stop)))
           (healthy_host (1 + (1 # 60))) (healthy_host (1 + (1 # 60)))).
  - vm_compute. reflexivity.
  - vm_compute. reflexivity.
  - vm_compute. discriminate.
  - vm_compute. discriminate.
  - vm_compute. discriminate.
  - vm_compute. discriminate.
  - do 2 eexists. split; reflexivity.
  - do 2 eexists. split; reflexivity.
  - vm_compute. reflexivity.
Defined.

(** ** X17: the process-wide instance *)

(** X17: [get_recording_manager] returns the manager that is registered,
    as it is, and touches nothing else; with none registered it
    constructs one, which either raises (storage refuses the root, or a
    file is in the way of it or of [/tmp]) and leaves the process as it
    was, with no manager registered, or creates the root directory,
    leaves every entry of the storage as it was, and registers the idle
    manager with the default configuration that every later call
    returns. *)
Theorem manager_is_constructed_at_most_once (h : Host) (p : Process) :
  (forall m, _recording_manager p = Some m ->
     get_recording_manager h p = (Return m, p)) /\
  (_recording_manager p = None ->
   (get_recording_manager h p
      = (Raise (OSError (recording_path new_manager)), p) /\
    (io_error h (recording_path new_manager) = true \/
     is_file (process_disk p) "/tmp" = true \/
     is_file (process_disk p) (recording_path new_manager) = true)) \/
   (exists p',
      get_recording_manager h p = (Return new_manager, p') /\
      _recording_manager p' = Some new_manager /\
      os_path_isdir (process_disk p') (recording_path new_manager) = true /\
      (forall q n, fs_lookup (process_disk p) q = Some n ->
                   fs_lookup (process_disk p') q = Some n) /\
      process_written p' = process_written p /\
      forall h', get_recording_manager h' p' = (Return new_manager, p'))).
Proof.
  split.
  - intros m Hm. unfold get_recording_manager. rewrite Hm. reflexivity.
  - intro Hn. destruct p as [g fs w]. cbn [_recording_manager] in Hn. subst g.
    unfold get_recording_manager, RecordingManager_init, os_makedirs, set_self, bind.
    cbn [_recording_manager process_disk process_written self disk written].
    change (dir_chain "" (recording_path new_manager))
      with ["/tmp"; recording_path new_manager].
    cbn [existsb]. rewrite orb_false_r.
    destruct (io_error h (recording_path new_manager)
              || (is_file fs "/tmp" || is_file fs (recording_path new_manager)))
      eqn:E.
    + left. split; [reflexivity|].
      apply orb_true_iff in E. destruct E as [E|E]; [auto|].
      apply orb_true_iff in E. tauto.
    + right. eexists. split; [reflexivity|].
      apply orb_false_iff in E. destruct E as [_ E].
      apply orb_false_iff in E. destruct E as [E1 E2].
      cbn [_recording_manager process_disk process_written disk written self].
      split; [reflexivity|]. split.
      { unfold os_path_isdir. rewrite fs_lookup_put_dirs. cbn [existsb].
        rewrite String.eqb_refl, orb_true_r. reflexivity. }
      split.
      { intros q n Hq. rewrite fs_lookup_put_dirs. cbn [existsb].
        rewrite orb_false_r.
        destruct (String.eqb_spec "/tmp" q) as [<-|_].
        - unfold is_file in E1. rewrite Hq in E1.
          destruct n; [reflexivity | discriminate | discriminate].
        - destruct (String.eqb_spec (recording_path new_manager) q) as [<-|_];
            [|exact Hq].
          unfold is_file in E2. rewrite Hq in E2.
          destruct n; [reflexivity | discriminate | discriminate]. }
      split; [reflexivity|].
      intro h'. reflexivity.
Qed.

(** ** X18 to X20: the buttons of the panel *)

(** X18: when the sampler stops a session at the duration cap, the panel
    is not told: the manager is idle, but the Start button stays
    disabled, the Stop button enabled and the status label unchanged,
    and no click on Stop or Analyze, edit of the name, timer, wake-up or
    shutdown changes that. *)
Theorem panel_keeps_recording_state_after_the_cap
  (p : Panel) (st : Store) (t0 : Q) (fc : Z) (h : Host)
  (events : list (Event * Host)) :
  is_recording (self st) = true ->
  start_recording_btn_enabled p = false ->
  stop_recording_btn_enabled p = true ->
  recording_start_time (self st) = Some t0 ->
  (max_recording_duration (recording_config (self st)) < time_time h - t0)%Q ->
  forallb (fun eh => negb (starts_a_session (fst eh))) events = true ->
  exists r st',
    loop_iteration fc h st = (Return (Finished (MaxDurationReached r)), st') /\
    is_recording (self st') = false /\
    snd (run_events ((SamplerWake fc, h) :: events) (p, st)) = st' /\
    start_recording_btn_enabled
      (fst (run_events ((SamplerWake fc, h) :: events) (p, st))) = false /\
    stop_recording_btn_enabled
      (fst (run_events ((SamplerWake fc, h) :: events) (p, st))) = true /\
    recording_status_text
      (fst (run_events ((SamplerWake fc, h) :: events) (p, st)))
    = recording_status_text p.
Proof.
  intros Hrec Hs Ht Ht0 Hcap Hno.
  destruct (loop_iteration_max_duration fc h st t0 Hrec Ht0 (float_gt_true _ _ Hcap))
    as (r & st' & L & _ & F).
  exists r, st'. split; [exact L|]. split; [exact F|].
  cbn [run_events handle fst snd]. rewrite L. cbn [snd].
  assert (S : stuck (p, st')) by (unfold stuck; cbn; auto).
  destruct (run_events_stuck events (p, st') S Hno) as ((_ & B1 & B2) & T & E).
  cbn [fst snd] in *. auto.
Qed.

Lemma panel_keeps_recording_state_after_the_cap_witness :
  exists r st',
    loop_iteration 62 (healthy_host 2) (started_store (config_hz 30 1))
    = (Return (Finished (MaxDurationReached r)), st') /\
    is_recording (self st') = false /\
    snd (run_events ((SamplerWake 62, healthy_host 2) :: passive_events)
           (recording_panel, started_store (config_hz 30 1))) = st' /\
    start_recording_btn_enabled
      (fst (run_events ((SamplerWake 62, healthy_host 2) :: passive_events)
              (recording_panel, started_store (config_hz 30 1)))) = false /\
    stop_recording_btn_enabled
      (fst (run_events ((SamplerWake 62, healthy_host 2) :: passive_events)
              (recording_panel, started_store (config_hz 30 1)))) = true /\
    recording_status_text
      (fst (run_events ((SamplerWake 62, healthy_host 2) :: passive_events)
              (recording_panel, started_store (config_hz 30 1))))
    = recording_status_text recording_panel.
Proof.
  apply (panel_keeps_recording_state_after_the_cap recording_panel
           (started_store (config_hz 30 1)) 0 62 (healthy_host 2)
           passive_events).
  - reflexivity.
  - reflexivity.
  - reflexivity.
  - reflexivity.
  - vm_compute. reflexivity.
  - reflexivity.
Defined.

(** X19: when a click on Stop fails to save the session, the manager is
    idle afterwards but the Start button stays disabled, the Stop button
    enabled and the status label unchanged, and no click on Stop or
    Analyze, edit of the name, timer, wake-up or shutdown changes
    that. *)
Theorem panel_keeps_recording_state_after_a_failed_save
  (p : Panel) (st : Store) (h : Host) (e : Exn) (st' : Store)
  (events : list (Event * Host)) :
  start_recording_btn_enabled p = false ->
  stop_recording_btn_enabled p = true ->
  stop_recording h st = (Return (StopFailed e), st') ->
  forallb (fun eh => negb (starts_a_session (fst eh))) events = true ->
  is_recording (self st) = true /\
  is_recording (self st') = false /\
  snd (run_events ((ClickStop, h) :: events) (p, st)) = st' /\
  start_recording_btn_enabled
    (fst (run_events ((ClickStop, h) :: events) (p, st))) = false /\
  stop_recording_btn_enabled
    (fst (run_events ((ClickStop, h) :: events) (p, st))) = true /\
  recording_status_text
    (fst (run_events ((ClickStop, h) :: events) (p, st)))
  = recording_status_text p.
Proof.
  intros Hs Ht Hstop Hno.
  destruct (stop_recording_returns h st) as (r & st1 & E & F & A).
  rewrite E in Hstop. inversion Hstop; subst r st1. cbn in A.
  split; [auto|]. split; [exact F|].
  cbn [run_events handle]. unfold _stop_recording. rewrite E.
  set (p1 := _add_chat_message _ _ p).
  assert (S : stuck (p1, st')) by (unfold stuck; cbn; auto).
  destruct (run_events_stuck events (p1, st') S Hno) as ((_ & B1 & B2) & T & E2).
  cbn [fst snd] in *. auto.
Qed.

Lemma panel_keeps_recording_state_after_a_failed_save_witness :
  is_recording (self (run_actions demo_trace fresh_store)) = true /\
  is_recording (self (snd demo_failed_stop)) = false /\
  snd (run_events ((ClickStop, read_only_host (4 # 60)) :: passive_events)
         (recording_panel, run_actions demo_trace fresh_store))
  = snd demo_failed_stop /\
  start_recording_btn_enabled
    (fst (run_events ((ClickStop, read_only_host (4 # 60)) :: passive_events)
            (recording_panel, run_actions demo_trace fresh_store))) = false /\
  stop_recording_btn_enabled
    (fst (run_events ((ClickStop, read_only_host (4 # 60)) :: passive_events)
            (recording_panel, run_actions demo_trace fresh_store))) = true /\
  recording_status_text
    (fst (run_events ((ClickStop, read_only_host (4 # 60)) :: passive_events)
            (recording_panel, run_actions demo_trace fresh_store)))
  = recording_status_text recording_panel.
Proof.
  apply (panel_keeps_recording_state_after_a_failed_save recording_panel
           (run_actions demo_trace fresh_store) (read_only_host (4 # 60))
           (OSError "/tmp/isaac_sim_recordings/demo/recording_data.json")
           (snd demo_failed_stop) passive_events).
  - reflexivity.
  - reflexivity.
  - vm_compute. reflexivity.
  - reflexivity.
Defined.

(** X20: from a panel whose buttons agree with the manager, after any
    sequence of clicks, edits, timers, wake-ups and shutdowns exactly one
    of the two buttons is enabled, and the Stop button is enabled
    whenever a session is active. *)
Theorem stop_button_is_enabled_while_recording
  (events : list (Event * Host)) (p : Panel) (st : Store) :
  start_recording_btn_enabled p = negb (stop_recording_btn_enabled p) ->
  stop_recording_btn_enabled p = is_recording (self st) ->
  start_recording_btn_enabled (fst (run_events events (p, st)))
  = negb (stop_recording_btn_enabled (fst (run_events events (p, st)))) /\
  (is_recording (self (snd (run_events events (p, st)))) = true ->
   stop_recording_btn_enabled (fst (run_events events (p, st))) = true).
Proof.
  intros Hc Hs.
  assert (H : buttons_cover_the_session (p, st)).
  { split; [exact Hc|]. cbn. congruence. }
  clear Hc Hs. revert p st H.
  induction events as [|[e h] events IH]; intros p st H; cbn [run_events].
  - exact H.
  - destruct (handle e h (p, st)) as [p' st'] eqn:E.
    apply IH. rewrite <- E. apply handle_buttons, H.
Qed.

Lemma stop_button_is_enabled_while_recording_witness :
  start_recording_btn_enabled
    (fst (run_events mixed_events (new_panel, fresh_store)))
  = negb (stop_recording_btn_enabled
            (fst (run_events mixed_events (new_panel, fresh_store)))) /\
  (is_recording (self (snd (run_events mixed_events (new_panel, fresh_store))))
   = true ->
   stop_recording_btn_enabled
     (fst (run_events mixed_events (new_panel, fresh_store))) = true).
Proof.
  apply (stop_button_is_enabled_while_recording mixed_events new_panel
           fresh_store).
  - reflexivity.
  - reflexivity.
Defined.

(** ** X21 and X22: Record and Analyze *)

(** X21: the timer of [_auto_stop_and_analyze] is not bound to the
    session that [_record_and_analyze] started.  When that session has
    been stopped by hand and the user has started one under a name of
    their own, the timer stops the user's session. *)
Theorem auto_stop_timer_ends_a_later_session
  (p : Panel) (st : Store) (h0 h1 h2 h3 : Host) (name : string)
  (ui1 ui2 ui3 : UI) :
  is_recording (self st) = false ->
  _record_and_analyze h0 (p, st) = ui1 ->
  is_recording (self (snd ui1)) = true ->
  _stop_recording h1 ui1 = ui2 ->
  name <> "" ->
  _start_recording h2 (with_name name (fst ui2), snd ui2) = ui3 ->
  is_recording (self (snd ui3)) = true ->
  current_recording_id (self (snd ui1)) = Some "auto_analysis" /\
  is_recording (self (snd ui2)) = false /\
  current_recording_id (self (snd ui3)) = Some name /\
  snd (snd (_auto_stop_and_analyze h3 ui3)) = snd (stop_recording h3 (snd ui3)) /\
  is_recording (self (snd (snd (_auto_stop_and_analyze h3 ui3)))) = false.
Proof.
  intros Hidle H1 R1 H2 Hname H3 R3.
  (* the automatic session *)
  unfold _record_and_analyze in H1. rewrite Hidle in H1.
  destruct (start_recording (Some "auto_analysis") h0 st) as [r1 st1] eqn:E1.
  assert (S1 : snd ui1 = st1) by (subst ui1; destruct r1 as [[| |]|]; reflexivity).
  rewrite S1 in R1.
  destruct (start_recording_flag_set _ _ _ _ _ Hidle E1 R1) as [_ I1].
  split; [rewrite S1; exact I1|].
  (* the stop by hand *)
  destruct ui1 as [p1 st1']. cbn [snd] in S1. subst st1'.
  unfold _stop_recording in H2.
  destruct (stop_recording_returns h1 st1) as (r2 & st2 & E2 & F2 & _).
  rewrite E2 in H2.
  assert (S2 : snd ui2 = st2).
  { subst ui2. destruct r2; try reflexivity.
    match goal with
    | |- context [_refresh_recordings_list h1 (?q, st2)] =>
        destruct (refresh_recordings_list_keeps h1 q st2) as [rows Rw]; rewrite Rw
    end. reflexivity. }
  split; [rewrite S2; exact F2|].
  (* the session of the user *)
  destruct ui2 as [p2 st2']. cbn [snd fst] in *. subst st2'.
  unfold _start_recording in H3. cbn [recording_name_value with_name] in H3.
  assert (N : name_or_none name = Some name)
    by (destruct name; [congruence | reflexivity]).
  rewrite N in H3.
  destruct (start_recording (Some name) h2 st2) as [r3 st3] eqn:E3.
  assert (S3 : snd ui3 = st3) by (subst ui3; destruct r3 as [[| |]|]; reflexivity).
  rewrite S3 in *.
  destruct (start_recording_flag_set _ _ _ _ _ F2 E3 R3) as [_ I3].
  split.
  { rewrite I3. unfold name_or_timestamp. destruct name; [congruence | reflexivity]. }
  (* the timer *)
  destruct ui3 as [p3 st3']. cbn [snd] in S3. subst st3'.
  unfold _auto_stop_and_analyze. rewrite R3.
  destruct (stop_recording_returns h3 st3) as (r4 & st4 & E4 & F4 & _).
  rewrite E4. cbn [snd].
  destruct r4; cbn [snd]; auto.
  match goal with
  | |- context [_refresh_recordings_list h3 (?q, st4)] =>
      destruct (refresh_recordings_list_keeps h3 q st4) as [rows Rw]; rewrite Rw
  end. auto.
Qed.

Lemma auto_stop_timer_ends_a_later_session_witness :
  current_recording_id
    (self (snd (_record_and_analyze (healthy_host 0) (new_panel, fresh_store))))
  = Some "auto_analysis" /\
  is_recording
    (self (snd (_stop_recording (healthy_host 5)
                  (_record_and_analyze (healthy_host 0)
                     (new_panel, fresh_store))))) = false /\
  current_recording_id
    (self (snd (_start_recording (healthy_host 10)
                  (with_name "mine"
                     (fst (_stop_recording (healthy_host 5)
                             (_record_and_analyze (healthy_host 0)
                                (new_panel, fresh_store)))),
                   snd (_stop_recording (healthy_host 5)
                          (_record_and_analyze (healthy_host 0)
                             (new_panel, fresh_store)))))))
  = Some "mine" /\
  snd (snd (_auto_stop_and_analyze (healthy_host 30)
              (_start_recording (healthy_host 10)
                 (with_name "mine"
                    (fst (_stop_recording (healthy_host 5)
                            (_record_and_analyze (healthy_host 0)
                               (new_panel, fresh_store)))),
                  snd (_stop_recording (healthy_host 5)
                         (_record_and_analyze (healthy_host 0)
                            (new_panel, fresh_store)))))))
  = snd (stop_recording (healthy_host 30)
           (snd (_start_recording (healthy_host 10)
                   (with_name "mine"
                      (fst (_stop_recording (healthy_host 5)
                              (_record_and_analyze (healthy_host 0)
                                 (new_panel, fresh_store)))),
                    snd (_stop_recording (healthy_host 5)
                           (_record_and_analyze (healthy_host 0)
                              (new_panel, fresh_store))))))) /\
  is_recording
    (self (snd (snd (_auto_stop_and_analyze (healthy_host 30)
                       (_start_recording (healthy_host 10)
                          (with_name "mine"
                             (fst (_stop_recording (healthy_host 5)
                                     (_record_and_analyze (healthy_host 0)
                                        (new_panel, fresh_store)))),
                           snd (_stop_recording (healthy_host 5)
                                  (_record_and_analyze (healthy_host 0)
                                     (new_panel, fresh_store))))))))) = false.
Proof.
  apply (auto_stop_timer_ends_a_later_session new_panel fresh_store
           (healthy_host 0) (healthy_host 5) (healthy_host 10) (healthy_host 30)
           "mine").
  - reflexivity.
  - reflexivity.
  - vm_compute. reflexivity.
  - reflexivity.
  - discriminate.
  - reflexivity.
  - vm_compute. reflexivity.
Defined.

(** X22: the recording that [_analyze_recording] hands to the LLM as the
    latest one is the head of the listing, whose identifier is the
    greatest; it is not the session "auto_analysis" that
    [_record_and_analyze] has recorded as soon as the listing holds a
    session with a timestamp identifier ("recording_..."). *)
Theorem analysis_takes_the_greatest_identifier
  (h : Host) (p : Panel) (st : Store) (x : Doc) :
  fst (_analyze_recording h (p, st)) = add_chat (AnalysisQuery x) p ->
  exists out,
    get_recordings h st = (Return (x :: out), st) /\
    (forall y, In y (x :: out) ->
       String.leb (key_string y) (key_string x) = true) /\
    (forall y stamp, In y out ->
       key_string y = "recording_" ++ stamp ->
       key_string x <> "auto_analysis").
Proof.
  unfold _analyze_recording.
  destruct (get_recordings_listing h st) as (l & E & S & _). rewrite E.
  destruct l as [|z out]; cbn [fst]; unfold _add_chat_message, add_chat;
    intro H; injection H as H; apply app_inv_head in H; inversion H; subst z.
  exists out. split; [reflexivity|].
  inversion S as [|? ? _ Hall]; subst.
  assert (Hmax : forall y, In y (x :: out) ->
            String.leb (key_string y) (key_string x) = true).
  { intros y [<-|Hy]; [apply string_leb_refl|].
    rewrite Forall_forall in Hall. apply (Hall y Hy). }
  split; [exact Hmax|].
  intros y stamp Hy Ky Kz.
  specialize (Hmax y (or_intror Hy)). rewrite Ky, Kz in Hmax.
  discriminate.
Qed.

Lemma analysis_takes_the_greatest_identifier_witness :
  exists out,
    get_recordings (healthy_host 0) (listing_store (File (demo_summary "run_b")))
    = (Return (demo_summary "run_b" :: out),
       listing_store (File (demo_summary "run_b"))) /\
    (forall y, In y (demo_summary "run_b" :: out) ->
       String.leb (key_string y) (key_string (demo_summary "run_b")) = true) /\
    (forall y stamp, In y out ->
       key_string y = "recording_" ++ stamp ->
       key_string (demo_summary "run_b") <> "auto_analysis").
Proof.
  apply (analysis_takes_the_greatest_identifier (healthy_host 0) new_panel
           (listing_store (File (demo_summary "run_b")))
           (demo_summary "run_b")).
  vm_compute. reflexivity.
Defined.

(** ** X23: the buffers between two starts *)

Lemma buffers_extend_refl st : buffers_extend st st.
Proof.
  unfold buffers_extend.
  repeat split; exists []; rewrite app_nil_r; reflexivity.
Qed.

Lemma buffers_extend_trans a b c :
  buffers_extend a b -> buffers_extend b c -> buffers_extend a c.
Proof.
  intros ([l1 T1] & [l2 P1] & [l3 R1] & [l4 S1])
         ([m1 T2] & [m2 P2] & [m3 R2] & [m4 S2]).
  unfold buffers_extend.
  rewrite T2, T1, P2, P1, R2, R1, S2, S1, <- !app_assoc. eauto 10.
Qed.

Lemma stop_recording_extends h st : buffers_extend st (snd (stop_recording h st)).
Proof.
  destruct (stop_recording_keeps h st _ _ (surjective_pairing _))
    as (_ & T & P & R & S).
  unfold buffers_extend. rewrite T, P, R, S.
  repeat split; exists []; rewrite app_nil_r; reflexivity.
Qed.

Lemma capture_frame_data_extends h st :
  buffers_extend st (snd (_capture_frame_data h st)).
Proof.
  destruct (recording_data (self st)) as [d|] eqn:D;
    [|rewrite (capture_frame_data_idle h st D); apply buffers_extend_refl].
  destruct (capture_frame_data_spec h st d D) as (st' & E & _ & K).
  rewrite E. cbn [snd].
  destruct (timeline_current_time h) as [t|];
    [|subst st'; apply buffers_extend_refl].
  destruct (timeline_is_playing h) as [b|];
    [|subst st'; apply buffers_extend_refl].
  destruct K as (px & rx & sx & K).
  unfold buffers_extend, timeline_buffer, physics_buffer, robot_buffer,
    sensor_buffer.
  rewrite K, D. cbn [buffer_or_empty timeline_data physics_data robot_data
    sensor_data].
  split; [eauto|].
  destruct (capture_physics_data _), (capture_robot_data _),
    (capture_sensor_data _);
    repeat split; eauto; exists []; rewrite app_nil_r; reflexivity.
Qed.

Lemma act_store_no_start a h st :
  is_start a = false ->
  snd (act a h st) = st \/
  snd (act a h st) = snd (stop_recording h st) \/
  snd (act a h st) = snd (_capture_frame_data h st).
Proof.
  intro Ha. destruct a as [n| |fc| |]; unfold act, bind, ret.
  - discriminate.
  - right; left. destruct (stop_recording h st) as [[r|e] st']; reflexivity.
  - destruct (loop_iteration_store fc h st) as [E|[[R E]|[R E]]];
      destruct (loop_iteration fc h st) as [[r|e] st']; cbn [snd] in *; auto.
  - left. pose proof (get_recording_status_store h st) as E.
    destruct (get_recording_status h st) as [[r|e] st']; exact E.
  - left. destruct (get_recordings_returns h st) as [out E]. rewrite E. reflexivity.
Qed.

(** X23: over any sequence of stops, sampler wake-ups, status queries and
    listings, each of the four buffers only has samples appended: what a
    buffer held before is a prefix of what it holds afterwards.  Only a
    start empties the buffers. *)
Theorem buffers_only_grow_until_the_next_start acts : forall st,
  forallb (fun ah => negb (is_start (fst ah))) acts = true ->
  (exists l, timeline_buffer (run_actions acts st)
             = (timeline_buffer st ++ l)%list) /\
  (exists l, physics_buffer (run_actions acts st)
             = (physics_buffer st ++ l)%list) /\
  (exists l, robot_buffer (run_actions acts st)
             = (robot_buffer st ++ l)%list) /\
  (exists l, sensor_buffer (run_actions acts st)
             = (sensor_buffer st ++ l)%list).
Proof.
  induction acts as [|[a h] acts IH]; intros st Hno; cbn [run_actions].
  - apply buffers_extend_refl.
  - cbn [forallb fst] in Hno. apply andb_true_iff in Hno. destruct Hno as [Ha Hrest].
    apply negb_true_iff in Ha.
    apply (buffers_extend_trans st (snd (act a h st))); [|apply IH, Hrest].
    destruct (act_store_no_start a h st Ha) as [E|[E|E]]; rewrite E.
    + apply buffers_extend_refl.
    + apply stop_recording_extends.
    + apply capture_frame_data_extends.
Qed.

Lemma buffers_only_grow_until_the_next_start_witness :
  (exists l, timeline_buffer (run_actions sampling_trace (started_store default_config))
             = (timeline_buffer (started_store default_config) ++ l)%list) /\
  (exists l, physics_buffer (run_actions sampling_trace (started_store default_config))
             = (physics_buffer (started_store default_config) ++ l)%list) /\
  (exists l, robot_buffer (run_actions sampling_trace (started_store default_config))
             = (robot_buffer (started_store default_config) ++ l)%list) /\
  (exists l, sensor_buffer (run_actions sampling_trace (started_store default_config))
             = (sensor_buffer (started_store default_config) ++ l)%list).
Proof.
  apply (buffers_only_grow_until_the_next_start sampling_trace
           (started_store default_config)).
  reflexivity.
Defined.

(** ** X24: a name that replaces the root *)

(** Short of a start, the session dictionary keeps its identifier and
    its directory. *)
Lemma act_keeps_session_dir a h st d :
  is_start a = false ->
  recording_data (self st) = Some d ->
  exists d',
    recording_data (self (snd (act a h st))) = Some d' /\
    recording_id d' = recording_id d /\
    recording_dir (metadata d') = recording_dir (metadata d).
Proof.
  intros Ha D.
  destruct (act_store_no_start a h st Ha) as [E|[E|E]]; rewrite E.
  - eauto.
  - destruct (is_recording (self st)) eqn:R.
    + destruct (recording_start_time (self st)) as [t0|] eqn:T.
      * destruct (stop_recording_cases h st d t0 R D T)
          as [(_ & E')|[(_ & _ & E')|(_ & _ & E')]]; rewrite E'; cbn; eauto.
      * unfold_py. rewrite R. py_cbn. rewrite D. py_cbn. rewrite T. py_cbn.
        eauto.
    + rewrite (stop_recording_idle h st R). eauto.
  - destruct (capture_frame_data_spec h st d D) as (st' & E' & _ & K).
    rewrite E'. cbn [snd].
    destruct (timeline_current_time h) as [t|]; [|subst st'; eauto].
    destruct (timeline_is_playing h) as [b|]; [|subst st'; eauto].
    destruct K as (px & rx & sx & K). rewrite K. eauto.
Qed.

Lemma run_actions_keeps_session_dir acts : forall st d,
  forallb (fun ah => negb (is_start (fst ah))) acts = true ->
  recording_data (self st) = Some d ->
  exists d',
    recording_data (self (run_actions acts st)) = Some d' /\
    recording_id d' = recording_id d /\
    recording_dir (metadata d') = recording_dir (metadata d).
Proof.
  induction acts as [|[a h] acts IH]; intros st d Hno D; cbn [run_actions].
  - eauto.
  - cbn [forallb fst] in Hno. apply andb_true_iff in Hno. destruct Hno as [Ha Hr].
    apply negb_true_iff in Ha.
    destruct (act_keeps_session_dir a h st d Ha D) as (d1 & D1 & I1 & M1).
    destruct (IH _ d1 Hr D1) as (d2 & D2 & I2 & M2).
    exists d2. split; [exact D2|]. split; congruence.
Qed.

(** X24: a name that begins with a separator is not placed under the
    recordings root: [os.path.join] drops the root, the session
    directory is the name itself, and whatever stops, wake-ups and
    queries come in between, the stop that saves the session writes its
    two files in that directory and reports the name as identifier. *)
Theorem absolute_name_replaces_the_root name h st id dir st1 :
  start_recording (Some name) h st = (Return (Started id dir), st1) ->
  startswith_sep name = true ->
  id = name /\ dir = name /\
  forall acts h' i f1 f2 sd st2,
    forallb (fun ah => negb (is_start (fst ah))) acts = true ->
    stop_recording h' (run_actions acts st1) = (Return (Stopped i f1 f2 sd), st2) ->
    i = Some name /\
    f1 = os_path_join name "recording_data.json" /\
    f2 = os_path_join name "recording_summary.json" /\
    fs_lookup (disk st2) f2 = Some (File (SummaryDoc sd)).
Proof.
  intros Hs Hname.
  assert (He : is_empty name = false) by (destruct name; [discriminate | reflexivity]).
  destruct (start_recording_cases (Some name) h st)
    as [[R E]|[(R & _ & E)|[(R & _ & e & _ & E)|(R & _ & url & _ & E)]]];
    rewrite E in Hs; try discriminate.
  unfold name_or_timestamp, os_path_join in Hs. rewrite He, Hname in Hs.
  injection Hs as Hi Hd Hst. subst id dir. clear E.
  split; [reflexivity|]. split; [reflexivity|].
  intros acts h' i f1 f2 sd st2 Hno Hstop.
  assert (Hok : session_ok st1).
  { subst st1. intros _. do 3 eexists.
    cbn [self disk recording_start_time recording_data current_recording_id
         recording_path fresh_data recording_id metadata recording_dir].
    repeat (split; [reflexivity|]). split.
    - unfold os_path_join. rewrite Hname. reflexivity.
    - intros p Hp. unfold os_path_isdir. rewrite fs_lookup_put_dirs.
      replace (existsb _ _) with true; [reflexivity|].
      symmetry. apply existsb_exists. exists p. split; [exact Hp|].
      apply String.eqb_refl. }
  assert (D1 : recording_data (self st1)
               = Some (fresh_data name (strftime_now h) name url))
    by (subst st1; reflexivity).
  destruct (run_actions_keeps_session_dir acts st1 _ Hno D1) as (d & D & I & M).
  pose proof (run_actions_session_ok acts st1 Hok) as Hok'.
  destruct (stop_recording_files _ _ _ _ _ _ _ Hok' Hstop)
    as (d' & t0 & D' & _ & Ei & _ & _ & _ & L2 & _).
  rewrite D in D'. injection D' as <-.
  apply stop_recording_saved in Hstop.
  destruct Hstop as (d' & _ & D' & _ & _ & F1 & F2 & _).
  rewrite D in D'. injection D' as <-.
  cbn [fresh_data recording_id metadata recording_dir] in I, M.
  rewrite Ei, I, F1, F2, M. repeat (split; [reflexivity|]).
  rewrite <- M, <- F2. exact L2.
Qed.

Lemma absolute_name_replaces_the_root_witness :
  "/data/run" = "/data/run" /\ "/data/run" = "/data/run" /\
  forall acts h' i f1 f2 sd st2,
    forallb (fun ah => negb (is_start (fst ah))) acts = true ->
    stop_recording h'
      (run_actions acts
         (snd (start_recording (Some "/data/run") (healthy_host 0) fresh_store)))
    = (Return (Stopped i f1 f2 sd), st2) ->
    i = Some "/data/run" /\
    f1 = os_path_join "/data/run" "recording_data.json" /\
    f2 = os_path_join "/data/run" "recording_summary.json" /\
    fs_lookup (disk st2) f2 = Some (File (SummaryDoc sd)).
Proof.
  apply (absolute_name_replaces_the_root "/data/run" (healthy_host 0)
           fresh_store "/data/run" "/data/run"
           (snd (start_recording (Some "/data/run") (healthy_host 0) fresh_store))).
  - vm_compute. reflexivity.
  - reflexivity.
Defined.
